(** * pdftoool: crop-box geometry, PDF crop/split service and crop interaction

    A shallow embedding of
      - [services/pdfService.ts]  ([cropPDF], [splitEcomLabel], [splitEcomLabelFixed]),
      - [services/geminiService.ts] ([detectContentBounds], [findTaxInvoiceAnchor]),
      - [components/PDFCropper.tsx] ([handleMouseDown], [handleMouseMove], [handleMouseUp]),
      - [App.tsx] (the handlers of the application),
    together with the properties the specification states about them.

    Numbers.  A TypeScript [number] is an IEEE-754 binary64 value.  Every
    definition below is written once, over the interface [JsNumber], and is
    then read at two instances:
      - [F64_number]: Rocq's primitive binary64 floats, which evaluate the
        very operations the JavaScript engine performs.  The theorems
        stated over an arbitrary [JsNumber] hold there, and the concrete
        runs are evaluated there.
      - [Q_number]: exact rational arithmetic.  A theorem stated over [Q]
        is a theorem about the formulas of the code, read in exact
        arithmetic, and says so.  In binary64 every operation rounds, so a
        bound or an equation proved over [Q] can be missed there by a unit
        in the last place ([move_to_right_edge_binary64] is an instance);
        and [Q] has no NaN and no infinity, and defines [x / 0] as [0],
        so a theorem over [Q] excludes a zero divisor by a hypothesis
        (a positive zoom, a non-zero preview size) wherever the formula
        divides by a variable.

    The PDF library.  Of pdf-lib the model keeps the page boxes: the
    setters [setCropBox] and [setMediaBox] throw on NaN, and [save] adds a
    blank A4 page to a document without pages.  The Info dictionary of a
    document, which [load] and [create] rewrite, is outside the model.

    Renders.  The handlers of the crop component are closures of one
    render: they read the state cells as that render saw them.  The model
    of a session keeps the cells as the last render read them next to the
    cells as they are now. *)

From Stdlib Require Import ZArith QArith Qminmax Qabs Lqa Floats String Ascii.
From stdpp Require Import base option list.

Set Default Proof Using "Type".

(* ===================================================================== *)
(** * The number interface *)
(* ===================================================================== *)

Declare Scope js_scope.
Delimit Scope js_scope with js.

(** The operations on [number] the three source files use. *)
Class JsNumber (num : Type) : Type := {
  (** an integer literal of the source text ([0], [1], [5], [100], ...) *)
  lit : Z -> num;
  js_add : num -> num -> num;
  js_sub : num -> num -> num;
  js_mul : num -> num -> num;
  js_div : num -> num -> num;
  (** [Math.max(a, b)], [Math.min(a, b)], [Math.abs(a)] *)
  Math_max : num -> num -> num;
  Math_min : num -> num -> num;
  Math_abs : num -> num;
  (** [a < b] *)
  js_lt : num -> num -> bool;
  (** ToBoolean: [false] exactly on zero and NaN *)
  truthy : num -> bool;
  (** [isNaN(a)] *)
  js_isNaN : num -> bool
}.

Infix "+" := js_add : js_scope.
Infix "-" := js_sub : js_scope.
Infix "*" := js_mul : js_scope.
Infix "/" := js_div : js_scope.
Infix "<?" := js_lt : js_scope.

(** [a || b] on numbers. *)
Definition js_or {num} `{JsNumber num} (a b : num) : num :=
  if truthy a then a else b.

(** ** Exact rationals

    The formulas read in exact arithmetic: no rounding, no NaN, no
    infinity, and [x / 0 = 0]. *)

#[export] Instance Q_number : JsNumber Q := {|
  lit := inject_Z;
  js_add := Qplus;
  js_sub := Qminus;
  js_mul := Qmult;
  js_div := Qdiv;
  Math_max := Qmax;
  Math_min := Qmin;
  Math_abs := Qabs;
  js_lt := fun a b => negb (Qle_bool b a);
  truthy := fun a => negb (Qeq_bool a 0);
  js_isNaN := fun _ => false
|}.

(** ** IEEE-754 binary64 *)

Module F64.

Definition is_zero (a : float) : bool := PrimFloat.eqb a 0%float.

(** [Math.max]: NaN if either argument is NaN; [+0] is larger than [-0]. *)
Definition max (a b : float) : float :=
  if is_nan a || is_nan b then nan
  else if PrimFloat.ltb a b then b
  else if PrimFloat.ltb b a then a
  else if is_zero a && get_sign a then b
  else a.

(** [Math.min]: NaN if either argument is NaN; [-0] is smaller than [+0]. *)
Definition min (a b : float) : float :=
  if is_nan a || is_nan b then nan
  else if PrimFloat.ltb a b then a
  else if PrimFloat.ltb b a then b
  else if is_zero a && get_sign a then a
  else b.

(** The binary64 value of an integer literal (exact below [2^53]). *)
Definition of_Z (z : Z) : float :=
  match z with
  | Z0 => 0%float
  | Zpos _ => PrimFloat.of_uint63 (Uint63.of_Z z)
  | Zneg _ => PrimFloat.opp (PrimFloat.of_uint63 (Uint63.of_Z (- z)))
  end.

End F64.

#[export] Instance F64_number : JsNumber float := {|
  lit := F64.of_Z;
  js_add := PrimFloat.add;
  js_sub := PrimFloat.sub;
  js_mul := PrimFloat.mul;
  js_div := PrimFloat.div;
  Math_max := F64.max;
  Math_min := F64.min;
  Math_abs := PrimFloat.abs;
  js_lt := PrimFloat.ltb;
  truthy := fun a => negb (F64.is_zero a || is_nan a);
  js_isNaN := is_nan
|}.

(* ===================================================================== *)
(** * Data model ([types.ts] and the part of pdf-lib the service uses) *)
(* ===================================================================== *)

(** [interface CropBox { x; y; width; height }]: a box in logical
    (unzoomed, top-left-origin) page units. *)
Module CropBox.
Record t (num : Type) : Type := mk { x : num; y : num; width : num; height : num }.
Arguments mk {num}.
Arguments x {num}.
Arguments y {num}.
Arguments width {num}.
Arguments height {num}.
End CropBox.

(** A rectangle in PDF point space (bottom-left origin), as pdf-lib's
    [setCropBox(x, y, width, height)] and [setMediaBox] take it. *)
Module PdfBox.
Record t (num : Type) : Type := mk { x : num; y : num; width : num; height : num }.
Arguments mk {num}.
Arguments x {num}.
Arguments y {num}.
Arguments width {num}.
Arguments height {num}.

(** The vertical band [y .. y + height] a box covers. *)
Definition bottom {num} (b : t num) : num := y b.
Definition top {num} `{JsNumber num} (b : t num) : num := (y b + height b)%js.

(** One of the four numbers is NaN. *)
Definition hasNaN {num} `{JsNumber num} (b : t num) : bool :=
  js_isNaN (x b) || js_isNaN (y b) || js_isNaN (width b) || js_isNaN (height b).
End PdfBox.

(** [interface PDFPageData]: a rendered page preview. *)
Module PDFPageData.
Record t (num : Type) : Type :=
  mk { pageNumber : nat; width : num; height : num; canvasUrl : string }.
Arguments mk {num}.
Arguments pageNumber {num}.
Arguments width {num}.
Arguments height {num}.
Arguments canvasUrl {num}.
End PDFPageData.

(** A pdf-lib [PDFPage], reduced to the two boxes the service reads and
    writes.  A box holds the four numbers [x, y, width, height] as
    [getMediaBox()] reports them for a page of the loaded file and as the
    last [setMediaBox] or [setCropBox] call was given them for a page the
    service has written (no function here reads a box back after writing
    it).  [cropBox] is [None] while the page has no /CropBox entry. *)
Record PDFPage (num : Type) : Type := mkPage {
  mediaBox : PdfBox.t num;
  cropBox : option (PdfBox.t num)
}.
Arguments mkPage {num}.
Arguments mediaBox {num}.
Arguments cropBox {num}.

(** A pdf-lib [PDFDocument], reduced to its pages in order.  What else a
    file holds is outside the model; in particular the Info dictionary,
    whose Producer and ModDate entries [PDFDocument.load] and
    [PDFDocument.create] rewrite, is not described. *)
Record PDFDocument (num : Type) : Type := mkDoc {
  pages : list (PDFPage num)
}.
Arguments mkDoc {num}.
Arguments pages {num}.

(** [targetPages: 'all' | 'current'] *)
Inductive TargetPages : Type := all | current.

Section PdfLib.
Context {num : Type} `{JsNumber num}.

(** [page.getSize()]: width and height of the media box. *)
Definition getSize (page : PDFPage num) : num * num :=
  (PdfBox.width (mediaBox page), PdfBox.height (mediaBox page)).

(** [page.setCropBox(x, y, width, height)] and [page.setMediaBox(...)].
    Both begin with [assertIs(arg, name, ['number'])] on each argument,
    which throws ([None]) on a NaN; an infinity is accepted. *)
Definition setCropBox (page : PDFPage num) (x y width height : num)
  : option (PDFPage num) :=
  if PdfBox.hasNaN (PdfBox.mk x y width height) then None
  else Some (mkPage (mediaBox page) (Some (PdfBox.mk x y width height))).

Definition setMediaBox (page : PDFPage num) (x y width height : num)
  : option (PDFPage num) :=
  if PdfBox.hasNaN (PdfBox.mk x y width height) then None
  else Some (mkPage (PdfBox.mk x y width height) (cropBox page)).

(** [PDFDocument.load(await file.arrayBuffer())]: a file is identified
    with the pages of the document it holds. *)
Definition load (file : PDFDocument num) : PDFDocument num := file.

(** The page [doc.addPage()] makes when called without an argument: a
    blank A4 page, [PageSizes.A4 = [595.28, 841.89]]. *)
Definition defaultPage : PDFPage num :=
  mkPage (PdfBox.mk (lit 0) (lit 0) (lit 59528 / lit 100) (lit 84189 / lit 100))%js None.

(** [doc.save()], with its default option [addDefaultPage: true]: a
    document without pages gets [defaultPage] before it is written. *)
Definition save (doc : PDFDocument num) : PDFDocument num :=
  match pages doc with
  | [] => mkDoc [defaultPage]
  | _ => doc
  end.

(** [PDFDocument.create()] *)
Definition PDFDocument_create : PDFDocument num := mkDoc [].

Definition getPages (doc : PDFDocument num) : list (PDFPage num) := pages doc.

(** [dst.copyPages(src, indices)]: fresh copies of the pages of [src] at
    [indices]; an index outside [src] throws ([None]). *)
Definition copyPages (src : PDFDocument num) (indices : list nat)
  : option (list (PDFPage num)) :=
  mapM (fun i => pages src !! i) indices.

(** [doc.addPage(page)]: appends. *)
Definition addPage (doc : PDFDocument num) (page : PDFPage num) : PDFDocument num :=
  mkDoc (pages doc ++ [page]).

(** [pages.map((_, i) => i)] *)
Definition indices (l : list (PDFPage num)) : list nat := seq 0 (length l).

End PdfLib.

(* ===================================================================== *)
(** * [services/pdfService.ts] *)
(* ===================================================================== *)

Section PdfService.
Context {num : Type} `{JsNumber num}.
Local Open Scope js_scope.

(** The rectangle one iteration of [cropPDF]'s loop computes for [page]
    (from [page.getSize()] down to [pdfH]). *)
Definition pdfRect (cropBox : CropBox.t num) (viewWidth viewHeight : num)
    (page : PDFPage num) : PdfBox.t num :=
  let '(width, height) := getSize page in
  let scaleX := width / viewWidth in
  let scaleY := height / viewHeight in
  let pdfX := CropBox.x cropBox * scaleX in
  let pdfY := height - (CropBox.y cropBox * scaleY) - (CropBox.height cropBox * scaleY) in
  let pdfW := CropBox.width cropBox * scaleX in
  let pdfH := CropBox.height cropBox * scaleY in
  PdfBox.mk pdfX pdfY pdfW pdfH.

(** One iteration: both boxes of [page] are set to that rectangle, unless
    a setter throws. *)
Definition cropPage (cropBox : CropBox.t num) (viewWidth viewHeight : num)
    (page : PDFPage num) : option (PDFPage num) :=
  let r := pdfRect cropBox viewWidth viewHeight page in
  page ← setCropBox page (PdfBox.x r) (PdfBox.y r) (PdfBox.width r) (PdfBox.height r);
  setMediaBox page (PdfBox.x r) (PdfBox.y r) (PdfBox.width r) (PdfBox.height r).

(** [for (const idx of applyIndices) { ... }] over the page array, which is
    mutated in place; [pages[idx]] undefined makes [page.getSize()] throw,
    and a throwing setter ends the loop and the call. *)
Fixpoint cropLoop (cropBox : CropBox.t num) (viewWidth viewHeight : num)
    (applyIndices : list nat) (pages : list (PDFPage num))
  : option (list (PDFPage num)) :=
  match applyIndices with
  | [] => Some pages
  | idx :: rest =>
      match pages !! idx with
      | None => None
      | Some page =>
          page' ← cropPage cropBox viewWidth viewHeight page;
          cropLoop cropBox viewWidth viewHeight rest (<[idx := page']> pages)
      end
  end.

Definition applyIndicesOf (targetPages : TargetPages) (currentPageIndex : nat)
    (pages : list (PDFPage num)) : list nat :=
  match targetPages with
  | all => indices pages
  | current => [currentPageIndex]
  end.

Definition cropPDF (file : PDFDocument num) (cropBox : CropBox.t num)
    (targetPages : TargetPages) (currentPageIndex : nat)
    (viewWidth viewHeight : num) : option (PDFDocument num) :=
  let pdfDoc := load file in
  let pages := getPages pdfDoc in
  let applyIndices := applyIndicesOf targetPages currentPageIndex pages in
  pages' ← cropLoop cropBox viewWidth viewHeight applyIndices pages;
  Some (save (mkDoc pages')).

(** [if (originalPages.length > 1) { ... otherPages.forEach(addPage) }] *)
Definition appendRemaining (pdfDoc newPdfDoc : PDFDocument num)
  : option (PDFDocument num) :=
  let originalPages := getPages pdfDoc in
  if (1 <? length originalPages)%nat then
    let remainingIndices := drop 1 (indices originalPages) in
    otherPages ← copyPages pdfDoc remainingIndices;
    Some (foldl addPage newPdfDoc otherPages)
  else Some newPdfDoc.

(** The head of an array destructuring [const [p] = await ...]. *)
Definition first (l : list (PDFPage num)) : option (PDFPage num) := l !! 0%nat.

Definition splitEcomLabel (file : PDFDocument num) (anchorYPercent : num)
  : option (PDFDocument num) :=
  let pdfDoc := load file in
  let newPdfDoc := PDFDocument_create in
  let originalPages := getPages pdfDoc in
  if (length originalPages =? 0)%nat then Some (save pdfDoc) else
  page ← originalPages !! 0%nat;
  let '(width, height) := getSize page in
  let splitY := height * (lit 1 - anchorYPercent / lit 100) in
  (* First page: Shipping Label (Top part) *)
  labelPage ← copyPages pdfDoc [0%nat] ≫= first;
  labelPage ← setCropBox labelPage (lit 0) splitY width (height - splitY);
  labelPage ← setMediaBox labelPage (lit 0) splitY width (height - splitY);
  let newPdfDoc := addPage newPdfDoc labelPage in
  (* Second page: Tax Invoice (Bottom part) *)
  invoicePage ← copyPages pdfDoc [0%nat] ≫= first;
  invoicePage ← setCropBox invoicePage (lit 0) (lit 0) width splitY;
  invoicePage ← setMediaBox invoicePage (lit 0) (lit 0) width splitY;
  let newPdfDoc := addPage newPdfDoc invoicePage in
  (* Append remaining pages if they exist *)
  newPdfDoc ← appendRemaining pdfDoc newPdfDoc;
  Some (save newPdfDoc).

(** [{ width, height }] of a label or an invoice *)
Record Dimensions : Type := mkDim { dim_width : num; dim_height : num }.

(** [config: { label, invoice, viewWidth }] *)
Record SplitConfig : Type := mkConfig {
  label : Dimensions;
  invoice : Dimensions;
  viewWidth : num
}.

Definition splitEcomLabelFixed (file : PDFDocument num) (config : SplitConfig)
  : option (PDFDocument num) :=
  let pdfDoc := load file in
  let newPdfDoc := PDFDocument_create in
  let originalPages := getPages pdfDoc in
  if (length originalPages =? 0)%nat then Some (save pdfDoc) else
  page ← originalPages !! 0%nat;
  let '(width, height) := getSize page in
  let scale := width / viewWidth config in
  let labelH := dim_height (label config) * scale in
  let invoiceH := dim_height (invoice config) * scale in
  (* Page 1: Label *)
  labelPage ← copyPages pdfDoc [0%nat] ≫= first;
  labelPage ← setCropBox labelPage (lit 0) (height - labelH) width labelH;
  labelPage ← setMediaBox labelPage (lit 0) (height - labelH) width labelH;
  let newPdfDoc := addPage newPdfDoc labelPage in
  (* Page 2: Invoice *)
  invoicePage ← copyPages pdfDoc [0%nat] ≫= first;
  let invoiceBottom := Math_max (lit 0) (height - labelH - invoiceH) in
  invoicePage ← setCropBox invoicePage (lit 0) invoiceBottom width invoiceH;
  invoicePage ← setMediaBox invoicePage (lit 0) invoiceBottom width invoiceH;
  let newPdfDoc := addPage newPdfDoc invoicePage in
  (* Append remaining pages *)
  newPdfDoc ← appendRemaining pdfDoc newPdfDoc;
  Some (save newPdfDoc).

End PdfService.

Arguments Dimensions : clear implicits.
Arguments SplitConfig : clear implicits.

(* ===================================================================== *)
(** * [components/PDFCropper.tsx] *)
(* ===================================================================== *)

(** ['move' | 'resize' | 'create'] *)
Inductive DragType : Type := move | resize | create.

(** [String.prototype.includes] for a one-character needle. *)
Fixpoint includes (s : string) (c : ascii) : bool :=
  match s with
  | EmptyString => false
  | String a rest => if Ascii.eqb a c then true else includes rest c
  end.

(** The eight handles the component renders. *)
Definition handles : list string :=
  ["nw"; "ne"; "sw"; "se"; "w"; "e"; "n"; "s"]%string.

Module Cropper.

(** The props of [PDFCropper] that the handlers read. *)
Record Props (num : Type) : Type := mkProps { width : num; height : num; zoom : num }.
Arguments mkProps {num}.
Arguments width {num}.
Arguments height {num}.
Arguments zoom {num}.

(** [startPos.current] *)
Record StartPos (num : Type) : Type := mkStart {
  screenX : num; screenY : num;
  logicalStartX : num; logicalStartY : num;
  boxX : num; boxY : num; boxW : num; boxH : num
}.
Arguments mkStart {num}.
Arguments screenX {num}.
Arguments screenY {num}.
Arguments logicalStartX {num}.
Arguments logicalStartY {num}.
Arguments boxX {num}.
Arguments boxY {num}.
Arguments boxW {num}.
Arguments boxH {num}.

(** The component's [useState] cells and its [startPos] ref. *)
Record State (num : Type) : Type := mkState {
  box : option (CropBox.t num);
  isDragging : bool;
  dragType : option DragType;
  resizeHandle : option string;
  startPos : StartPos num
}.
Arguments mkState {num}.
Arguments box {num}.
Arguments isDragging {num}.
Arguments dragType {num}.
Arguments resizeHandle {num}.
Arguments startPos {num}.

(** The fields of a mouse event and of [getBoundingClientRect()] in use. *)
Record MouseEvent (num : Type) : Type := mkEvent { clientX : num; clientY : num }.
Arguments mkEvent {num}.
Arguments clientX {num}.
Arguments clientY {num}.

Record DOMRect (num : Type) : Type := mkRect { left : num; top : num }.
Arguments mkRect {num}.
Arguments left {num}.
Arguments top {num}.

(** The states of section 4.2 of the specification, read off the cells. *)
Inductive Phase : Type := Idle | Selected | Dragging (kind : option DragType).

Definition phase {num} (st : State num) : Phase :=
  if isDragging st then Dragging (dragType st)
  else match box st with
       | None => Idle
       | Some _ => Selected
       end.

Section Handlers.
Context {num : Type} `{JsNumber num}.
Local Open Scope js_scope.

Definition initialStartPos : StartPos num :=
  mkStart (lit 0) (lit 0) (lit 0) (lit 0) (lit 0) (lit 0) (lit 0) (lit 0).

(** The state after the first render with [initialBox]. *)
Definition init (initialBox : option (CropBox.t num)) : State num :=
  mkState initialBox false None None initialStartPos.

(** [box?.f || 0] *)
Definition fieldOrZero (f : CropBox.t num -> num) (box : option (CropBox.t num)) : num :=
  match box with
  | Some b => js_or (f b) (lit 0)
  | None => lit 0
  end.

(** [handle || null] *)
Definition handleOrNull (handle : option string) : option string :=
  match handle with
  | Some EmptyString => None
  | h => h
  end.

(** [resizeHandle?.includes(c)] *)
Definition handleIncludes (resizeHandle : option string) (c : ascii) : bool :=
  match resizeHandle with
  | Some h => includes h c
  | None => false
  end.

(** Each handler is a closure of one render of the component.  It reads
    the cells [box], [isDragging], [dragType] and [resizeHandle] as that
    render saw them ([r]); the ref [startPos] it reads and writes as it is
    now, and the cells it sets are those of the component as it is now
    ([st]).  A handler returns the next state and the arguments of its
    [onCropChange] calls, in order.  [container] is
    [containerRef.current?.getBoundingClientRect()]. *)
Definition handleMouseDown (p : Props num) (r : State num)
    (container : option (DOMRect num))
    (e : MouseEvent num) (type : DragType) (handle : option string)
    (st : State num) : State num * list (option (CropBox.t num)) :=
  match container with
  | None => (st, [])
  | Some rect =>
      let logicalX := (clientX e - left rect) / zoom p in
      let logicalY := (clientY e - top rect) / zoom p in
      let start :=
        mkStart (clientX e) (clientY e) logicalX logicalY
          (fieldOrZero CropBox.x (box r)) (fieldOrZero CropBox.y (box r))
          (fieldOrZero CropBox.width (box r)) (fieldOrZero CropBox.height (box r)) in
      let st := mkState (box st) true (Some type) (handleOrNull handle) start in
      match type with
      | create =>
          let newBox := CropBox.mk logicalX logicalY (lit 0) (lit 0) in
          (mkState (Some newBox) (isDragging st) (dragType st) (resizeHandle st)
             (startPos st),
           [Some newBox])
      | _ => (st, [])
      end
  end.

(** The [resize] branch: [nextBox = { ...box }] and the four
    conditional assignments, in the order of the source. *)
Definition resizeBox (p : Props num) (resizeHandle : option string)
    (s : StartPos num) (dx dy : num) (box : CropBox.t num) : CropBox.t num :=
  let nextBox := box in
  let nextBox :=
    if handleIncludes resizeHandle "e" then
      CropBox.mk (CropBox.x nextBox) (CropBox.y nextBox)
        (Math_max (lit 5) (Math_min (width p - CropBox.x box) (boxW s + dx)))
        (CropBox.height nextBox)
    else nextBox in
  let nextBox :=
    if handleIncludes resizeHandle "s" then
      CropBox.mk (CropBox.x nextBox) (CropBox.y nextBox) (CropBox.width nextBox)
        (Math_max (lit 5) (Math_min (height p - CropBox.y box) (boxH s + dy)))
    else nextBox in
  let nextBox :=
    if handleIncludes resizeHandle "w" then
      let delta := Math_min (boxW s - lit 5) dx in
      CropBox.mk (Math_max (lit 0) (boxX s + delta)) (CropBox.y nextBox)
        (boxW s - delta) (CropBox.height nextBox)
    else nextBox in
  let nextBox :=
    if handleIncludes resizeHandle "n" then
      let delta := Math_min (boxH s - lit 5) dy in
      CropBox.mk (CropBox.x nextBox) (Math_max (lit 0) (boxH s + delta))
        (CropBox.width nextBox) (boxH s - delta)
    else nextBox in
  nextBox.

(** The box a pointer move computes, [None] when no branch applies:
    from the box and the handle of the handler's render [r] and from
    [startPos.current]. *)
Definition nextBoxOf (p : Props num) (r : State num) (rect : DOMRect num)
    (e : MouseEvent num) (dragType : DragType) (st : State num)
  : option (CropBox.t num) :=
  let s := startPos st in
  let currentLogicalX := (clientX e - left rect) / zoom p in
  let currentLogicalY := (clientY e - top rect) / zoom p in
  (* Constrain current coords to canvas bounds *)
  let boundedX := Math_max (lit 0) (Math_min (width p) currentLogicalX) in
  let boundedY := Math_max (lit 0) (Math_min (height p) currentLogicalY) in
  let dx := (clientX e - screenX s) / zoom p in
  let dy := (clientY e - screenY s) / zoom p in
  match dragType, box r with
  | create, _ =>
      Some (CropBox.mk
              (Math_min (logicalStartX s) boundedX)
              (Math_min (logicalStartY s) boundedY)
              (Math_abs (boundedX - logicalStartX s))
              (Math_abs (boundedY - logicalStartY s)))
  | move, Some box =>
      Some (CropBox.mk
              (Math_max (lit 0) (Math_min (width p - CropBox.width box) (boxX s + dx)))
              (Math_max (lit 0) (Math_min (height p - CropBox.height box) (boxY s + dy)))
              (CropBox.width box) (CropBox.height box))
  | resize, Some box => Some (resizeBox p (resizeHandle r) s dx dy box)
  | _, None => None
  end.

Definition handleMouseMove (p : Props num) (r : State num)
    (container : option (DOMRect num))
    (e : MouseEvent num) (st : State num)
  : State num * list (option (CropBox.t num)) :=
  match isDragging r, container, dragType r with
  | true, Some rect, Some type =>
      match nextBoxOf p r rect e type st with
      | Some nextBox =>
          (mkState (Some nextBox) (isDragging st) (dragType st) (resizeHandle st)
             (startPos st),
           [Some nextBox])
      | None => (st, [])
      end
  | _, _, _ => (st, [])
  end.

(** [box.width < 5 || box.height < 5] *)
Definition tooSmall (box : CropBox.t num) : bool :=
  (CropBox.width box <? lit 5) || (CropBox.height box <? lit 5).

Definition handleMouseUp (r st : State num)
  : State num * list (option (CropBox.t num)) :=
  let '(box', emitted) :=
    match dragType r, box r with
    | Some create, Some b =>
        (* If user just clicked without dragging in create mode, clear the tiny box *)
        if tooSmall b then (None, [None]) else (box st, [])
    | _, _ => (box st, [])
    end in
  (mkState box' false None None (startPos st), emitted).

End Handlers.
End Cropper.

(* ===================================================================== *)
(** * [services/geminiService.ts] *)
(* ===================================================================== *)

(** The result of awaiting a promise. *)
Inductive Settled (A : Type) : Type :=
| fulfilled (a : A)
| rejected (reason : string).
Arguments fulfilled {A}.
Arguments rejected {A}.

Module Gemini.

(** The percentage rectangle [{x, y, width, height}] the model is asked for. *)
Record Bounds (num : Type) : Type := mkBounds { x : num; y : num; width : num; height : num }.
Arguments mkBounds {num}.
Arguments x {num}.
Arguments y {num}.
Arguments width {num}.
Arguments height {num}.

(** Which of the two prompts a request carries. *)
Inductive Task : Type := ContentBounds | TaxInvoiceAnchor.

(** What lies outside the repository: the model call, [String.trim] and
    [JSON.parse] at the two result shapes.  A parser answers [None] where
    evaluating the expression throws, [Some None] where it yields a falsy
    value ([null], or an absent [anchorY]).  [parseAnchorY] stands for
    [JSON.parse(jsonStr).anchorY]. *)
Record Collaborator (num : Type) : Type := mkCollaborator {
  generateContent : Task -> string -> Settled (option string);
  trim : string -> string;
  parseBounds : string -> option (option (Bounds num));
  parseAnchorY : string -> option (option num)
}.
Arguments generateContent {num}.
Arguments trim {num}.
Arguments parseBounds {num}.
Arguments parseAnchorY {num}.

Section Service.
Context {num : Type} (ai : Collaborator num).

(** [response.text?.trim()], then the falsy test on the string. *)
Definition jsonStrOf (text : option string) : option string :=
  match trim ai <$> text with
  | Some EmptyString => None
  | s => s
  end.

(** Each function returns its promise, settled, together with the
    messages it wrote with [console.error] before the promise settled. *)
Definition detectContentBounds (imageDataUrl : string)
  : Settled (option (Bounds num)) * list string :=
  match generateContent ai ContentBounds imageDataUrl with
  | rejected r => (rejected r, [])
  | fulfilled text =>
      match jsonStrOf text with
      | None => (fulfilled None, [])
      | Some jsonStr =>
          match parseBounds ai jsonStr with
          | Some v => (fulfilled v, [])
          | None =>
              (* catch (e) { console.error(...); return null; } *)
              (fulfilled None, ["Failed to parse Gemini response"%string])
          end
      end
  end.

Definition findTaxInvoiceAnchor (imageDataUrl : string)
  : Settled (option num) * list string :=
  match generateContent ai TaxInvoiceAnchor imageDataUrl with
  | rejected r => (rejected r, [])
  | fulfilled text =>
      match jsonStrOf text with
      | None => (fulfilled None, [])
      | Some jsonStr =>
          match parseAnchorY ai jsonStr with
          | Some v => (fulfilled v, [])
          | None =>
              (* catch (e) { console.error(...); return null; } *)
              (fulfilled None, ["Failed to detect invoice anchor"%string])
          end
      end
  end.

End Service.
End Gemini.

(* ===================================================================== *)
(** * [App.tsx] *)
(* ===================================================================== *)

Module App.

(** [type PortalType = 'meesho' | 'amazon' | 'flipkart' | 'none'] *)
Inductive PortalType : Type := meesho | amazon | flipkart | none.

Definition portalName (p : PortalType) : string :=
  match p with
  | meesho => "meesho"
  | amazon => "amazon"
  | flipkart => "flipkart"
  | none => "none"
  end.

(** A browser [File] holding a PDF. *)
Record File (num : Type) : Type := mkFile {
  name : string;
  content : PDFDocument num
}.
Arguments mkFile {num}.
Arguments name {num}.
Arguments content {num}.

(** The [useState] cells of [App]. *)
Record State (num : Type) : Type := mkState {
  file : option (File num);
  pages : list (PDFPageData.t num);
  currentPageIdx : nat;
  cropBox : option (CropBox.t num);
  isProcessing : bool;
  isAnalyzing : bool;
  cropScope : TargetPages;
  zoom : num;
  activePortal : PortalType;
  isPortalMenuOpen : bool;
  isAutoPilot : bool
}.
Arguments mkState {num}.
Arguments file {num}.
Arguments pages {num}.
Arguments currentPageIdx {num}.
Arguments cropBox {num}.
Arguments isProcessing {num}.
Arguments isAnalyzing {num}.
Arguments cropScope {num}.
Arguments zoom {num}.
Arguments activePortal {num}.
Arguments isPortalMenuOpen {num}.
Arguments isAutoPilot {num}.

(** What the user and the developer console see. *)
Inductive Effect : Type :=
| alert (message : string)
| console_error (message : string).

Definition isAlert (e : Effect) : bool :=
  match e with
  | alert _ => true
  | console_error _ => false
  end.

(** How a block of statements completes. *)
Inductive Completion (A : Type) : Type :=
| normal (a : A)
| thrown (error : string).
Arguments normal {A}.
Arguments thrown {A}.

(** A handler body: it updates the cells, appends to the effect log and
    completes normally or by throwing. *)
Definition Act (num A : Type) : Type :=
  State num -> list Effect -> Completion A * State num * list Effect.

Section Monad.
Context {num : Type}.

Definition ret {A} (a : A) : Act num A := fun st log => (normal a, st, log).

Definition bind {A B} (m : Act num A) (k : A -> Act num B) : Act num B :=
  fun st log =>
    match m st log with
    | (normal a, st', log') => k a st' log'
    | (thrown e, st', log') => (thrown e, st', log')
    end.

Definition throw {A} (e : string) : Act num A := fun st log => (thrown e, st, log).

(** [await p] *)
Definition await {A} (p : Settled A) : Act num A :=
  match p with
  | fulfilled a => ret a
  | rejected r => throw r
  end.

(** [await call] for a call of the detection service: what the call
    wrote to the console comes first, then the promise is awaited. *)
Definition awaitLogged {A} (call : Settled A * list string) : Act num A :=
  fun st log => await (fst call) st (log ++ (console_error <$> snd call)).

(** A service call that returns or throws. *)
Definition attempt {A} (r : option A) (error : string) : Act num A :=
  match r with
  | Some a => ret a
  | None => throw error
  end.

Definition emit (e : Effect) : Act num unit :=
  fun st log => (normal tt, st, log ++ [e]).

Definition update (f : State num -> State num) : Act num unit :=
  fun st log => (normal tt, f st, log).

(** [try { body } catch (error) { handler } finally { final }] *)
Definition try_catch_finally (body : Act num unit) (handler : string -> Act num unit)
    (final : Act num unit) : Act num unit :=
  fun st log =>
    let '(c, st1, log1) :=
      match body st log with
      | (thrown e, st', log') => handler e st' log'
      | done => done
      end in
    match final st1 log1 with
    | (normal _, st2, log2) => (c, st2, log2)
    | abrupt => abrupt
    end.

End Monad.

Notation "x <- m ;; k" := (bind m (fun x => k))
  (at level 20, m at level 99, k at level 200, only parsing) : js_scope.
Notation "m ;; k" := (bind m (fun _ => k))
  (at level 100, k at level 200, right associativity, only parsing) : js_scope.

Section Setters.
Context {num : Type}.

Definition setFile (v : option (File num)) : Act num unit :=
  update (fun s => mkState v (pages s) (currentPageIdx s) (cropBox s) (isProcessing s)
                     (isAnalyzing s) (cropScope s) (zoom s) (activePortal s)
                     (isPortalMenuOpen s) (isAutoPilot s)).

Definition setPages (v : list (PDFPageData.t num)) : Act num unit :=
  update (fun s => mkState (file s) v (currentPageIdx s) (cropBox s) (isProcessing s)
                     (isAnalyzing s) (cropScope s) (zoom s) (activePortal s)
                     (isPortalMenuOpen s) (isAutoPilot s)).

Definition setCurrentPageIdx (v : nat) : Act num unit :=
  update (fun s => mkState (file s) (pages s) v (cropBox s) (isProcessing s)
                     (isAnalyzing s) (cropScope s) (zoom s) (activePortal s)
                     (isPortalMenuOpen s) (isAutoPilot s)).

Definition setCropBox (v : option (CropBox.t num)) : Act num unit :=
  update (fun s => mkState (file s) (pages s) (currentPageIdx s) v (isProcessing s)
                     (isAnalyzing s) (cropScope s) (zoom s) (activePortal s)
                     (isPortalMenuOpen s) (isAutoPilot s)).

Definition withIsAnalyzing (v : bool) (s : State num) : State num :=
  mkState (file s) (pages s) (currentPageIdx s) (cropBox s) (isProcessing s)
    v (cropScope s) (zoom s) (activePortal s) (isPortalMenuOpen s) (isAutoPilot s).

Definition setIsAnalyzing (v : bool) : Act num unit := update (withIsAnalyzing v).

End Setters.

Section Handlers.
Context {num : Type} `{JsNumber num}.
(** The collaborators: the detection service's outside world and the
    page renderer [renderPDFPages]. *)
Context (ai : Gemini.Collaborator num).
Context (renderPDFPages : File num -> Settled (list (PDFPageData.t num))).
Local Open Scope js_scope.

(** Specific Meesho dimensions: Top Label 790x490, Bottom Invoice 790x360 *)
Definition meeshoConfig : SplitConfig num :=
  mkConfig (mkDim (lit 790) (lit 490)) (mkDim (lit 790) (lit 360)) (lit 800).

(** [if (anchorYPercent)]: neither [null] nor a falsy number. *)
Definition truthyAnchor (a : option num) : option num :=
  match a with
  | Some v => if truthy v then Some v else None
  | None => None
  end.

(** [r] holds the values of the cells in the render whose closure the
    handler runs in. *)
Definition handlePortalAutoSplit (r : State num) (targetFile : File num)
    (renderedPages : list (PDFPageData.t num)) : Act num unit :=
  match renderedPages with
  | [] => ret tt
  | firstPage :: _ =>
      setIsAnalyzing true ;;
      try_catch_finally
        (pdfBytes <-
           match activePortal r with
           | meesho =>
               attempt (splitEcomLabelFixed (content targetFile) meeshoConfig)
                 "splitEcomLabelFixed"
           | _ =>
               anchorYPercent <-
                 awaitLogged
                   (Gemini.findTaxInvoiceAnchor ai (PDFPageData.canvasUrl firstPage)) ;;
               match truthyAnchor anchorYPercent with
               | Some a => attempt (splitEcomLabel (content targetFile) a) "splitEcomLabel"
               | None => throw "Could not detect split point automatically."
               end
           end ;;
         let newFile :=
           mkFile ("processed_" ++ portalName (activePortal r) ++ "_" ++ name targetFile)
             pdfBytes in
         newRenderedPages <- await (renderPDFPages newFile) ;;
         setPages newRenderedPages ;;
         setFile (Some newFile) ;;
         setCropBox None ;;
         setCurrentPageIdx 0)
        (fun error =>
           emit (console_error "Portal split error:") ;;
           emit (alert "Auto processing failed. Please adjust manually."))
        (setIsAnalyzing false)
  end.

Definition handleSmartCrop (r : State num) : Act num unit :=
  match file r with
  | None => ret tt
  | Some f =>
      match activePortal r with
      | none =>
          match pages r !! currentPageIdx r with
          | None => ret tt
          | Some page =>
              setIsAnalyzing true ;;
              try_catch_finally
                (bounds <-
                   awaitLogged
                     (Gemini.detectContentBounds ai (PDFPageData.canvasUrl page)) ;;
                 match bounds with
                 | Some bounds =>
                     let width := PDFPageData.width page in
                     let height := PDFPageData.height page in
                     let newBox :=
                       CropBox.mk
                         ((Gemini.x bounds / lit 100) * width)
                         ((Gemini.y bounds / lit 100) * height)
                         ((Gemini.width bounds / lit 100) * width)
                         ((Gemini.height bounds / lit 100) * height) in
                     setCropBox (Some newBox)
                 | None => ret tt
                 end)
                (fun error => emit (console_error "Smart crop error:"))
                (setIsAnalyzing false)
          end
      | _ => handlePortalAutoSplit r f (pages r)
      end
  end.

(** Running a handler from the cells of its own render, with an empty log. *)
Definition run (handler : State num -> Act num unit) (st : State num)
  : State num * list Effect :=
  let '(_, st', log) := handler st st [] in (st', log).

End Handlers.
End App.

(* ===================================================================== *)
(** * Vocabulary and instances used in the statements *)
(* ===================================================================== *)

(** Two rational rectangles denote the same rectangle. *)
Definition sameBox (a b : PdfBox.t Q) : Prop :=
  (PdfBox.x a == PdfBox.x b /\ PdfBox.y a == PdfBox.y b /\
   PdfBox.width a == PdfBox.width b /\ PdfBox.height a == PdfBox.height b)%Q.

(** The four numbers of a rectangle are numbers: none is NaN. *)
Definition numeric {num : Type} `{JsNumber num} (b : PdfBox.t num) : Prop :=
  PdfBox.hasNaN b = false.

(** The page one iteration of [cropPDF]'s loop leaves when neither setter
    throws: both boxes are the mapped rectangle. *)
Definition croppedPage {num : Type} `{JsNumber num} (box : CropBox.t num)
    (viewWidth viewHeight : num) (page : PDFPage num) : PDFPage num :=
  mkPage (pdfRect box viewWidth viewHeight page)
    (Some (pdfRect box viewWidth viewHeight page)).

(** A rational rectangle lies within another. *)
Definition withinBox (inner outer : PdfBox.t Q) : Prop :=
  (PdfBox.x outer <= PdfBox.x inner /\ PdfBox.y outer <= PdfBox.y inner /\
   PdfBox.x inner + PdfBox.width inner <= PdfBox.x outer + PdfBox.width outer /\
   PdfBox.y inner + PdfBox.height inner <= PdfBox.y outer + PdfBox.height outer)%Q.

(** The media box of a page starts at the origin of PDF space. *)
Definition atOrigin (page : PDFPage Q) : Prop :=
  (PdfBox.x (mediaBox page) == 0 /\ PdfBox.y (mediaBox page) == 0)%Q.

(** A page is a target of [cropPDF] called with [targetPages] and
    [currentPageIndex]. *)
Definition isTarget (targetPages : TargetPages) (currentPageIndex idx : nat) : Prop :=
  targetPages = all \/ idx = currentPageIndex.

(** A logical box lies inside a page of the given size. *)
Definition insidePage (pageWidth pageHeight : Q) (b : CropBox.t Q) : Prop :=
  (0 <= CropBox.x b /\ 0 <= CropBox.y b /\
   CropBox.x b + CropBox.width b <= pageWidth /\
   CropBox.y b + CropBox.height b <= pageHeight /\
   0 <= CropBox.width b /\ 0 <= CropBox.height b)%Q.

Module Instances.
Section Generic.
Context {num : Type} `{JsNumber num}.

(** A page whose media box is [w] by [h] points at the origin. *)
Definition blankPage (w h : Z) : PDFPage num :=
  mkPage (PdfBox.mk (lit 0) (lit 0) (lit w) (lit h)) None.

Definition a4 : PDFPage num := blankPage 595 842.

(** A three-page document with pages of different sizes. *)
Definition mixedDoc : PDFDocument num :=
  mkDoc [a4; blankPage 612 792; blankPage 420 595].

(** The logical box [{x:100, y:50, width:200, height:300}]. *)
Definition sampleBox : CropBox.t num :=
  CropBox.mk (lit 100) (lit 50) (lit 200) (lit 300).

(** A single 1000 pt tall page, and a Meesho sheet of 790 by 842 pt
    followed by two more pages. *)
Definition tallDoc : PDFDocument num := mkDoc [blankPage 700 1000].
Definition meeshoDoc : PDFDocument num :=
  mkDoc [blankPage 790 842; a4; blankPage 612 792].
(** A 790 pt wide first page that is only 800 pt tall. *)
Definition shortDoc : PDFDocument num := mkDoc [blankPage 790 800].
(** A file without pages. *)
Definition emptyDoc : PDFDocument num := mkDoc [].

(** An 800 by 1000 page preview shown at zoom 1, its container's
    top-left corner at client position (300, 100). *)
Definition props : Cropper.Props num := Cropper.mkProps (lit 800) (lit 1000) (lit 1).
Definition container : Cropper.DOMRect num := Cropper.mkRect (lit 300) (lit 100).

(** The selected box [{x:100, y:200, width:300, height:400}]; its
    south edge is at 600 and its east edge at 400. *)
Definition selectedBox : CropBox.t num :=
  CropBox.mk (lit 100) (lit 200) (lit 300) (lit 400).

(** The box [{x:100, y:200, width:650, height:400}]; its east edge is
    at 750. *)
Definition wideBox : CropBox.t num :=
  CropBox.mk (lit 100) (lit 200) (lit 650) (lit 400).

(** Pointer-down at client position [from] with the given drag type
    and handle on the component showing [b], a re-render, then one
    pointer-move to client position [to]: the boxes that move reports. *)
Definition dragOnce (b : option (CropBox.t num)) (type : DragType)
    (handle : option string) (from to : Z * Z) : list (option (CropBox.t num)) :=
  let down := Cropper.mkEvent (lit (fst from)) (lit (snd from)) in
  let moved := Cropper.mkEvent (lit (fst to)) (lit (snd to)) in
  let st0 := Cropper.init b in
  let st := fst (Cropper.handleMouseDown props st0 (Some container) down type handle st0) in
  snd (Cropper.handleMouseMove props st (Some container) moved st).

(** A detection service whose model call answers with no text, so that
    both [detectContentBounds] and [findTaxInvoiceAnchor] yield null. *)
Definition silentAi : Gemini.Collaborator num :=
  Gemini.mkCollaborator num (fun _ _ => fulfilled None) (fun s => s)
    (fun _ => None) (fun _ => None).

(** A renderer that yields one preview per call. *)
Definition renderer (f : App.File num) : Settled (list (PDFPageData.t num)) :=
  fulfilled [PDFPageData.mk 1 (lit 893) (lit 1263) "data:image/png;base64,AA"%string].

(** The application with [mixedDoc] loaded, page 0 shown, the box
    [sampleBox] drawn and the given portal active. *)
Definition loaded (portal : App.PortalType) : App.State num :=
  App.mkState
    (Some (App.mkFile "label.pdf"%string mixedDoc))
    [PDFPageData.mk 1 (lit 893) (lit 1263) "data:image/png;base64,AA"%string;
     PDFPageData.mk 2 (lit 918) (lit 1188) "data:image/png;base64,AB"%string;
     PDFPageData.mk 3 (lit 630) (lit 893) "data:image/png;base64,AC"%string]
    0 (Some sampleBox) false false all (lit 1) portal false false.
End Generic.
End Instances.

(* ===================================================================== *)
(** * [components/PDFCropper.tsx]: the rendered elements and a session *)
(* ===================================================================== *)

Module Session.

(** The element a pointer-down lands on: the container itself, the
    full-size overlay behind the box, the box, or one of its handles. *)
Inductive Target : Type :=
| Canvas
| Overlay
| BoxBody
| Handle (h : string).

(** What happens to the component: the three pointer events, a render in
    which the parent passes another [initialBox], and a re-render with the
    same props.  A render here is a render with its effects run. *)
Inductive Event (num : Type) : Type :=
| PointerDown (target : Target) (container : option (Cropper.DOMRect num))
    (e : Cropper.MouseEvent num)
| PointerMove (container : option (Cropper.DOMRect num)) (e : Cropper.MouseEvent num)
| PointerUp
| InitialBox (initialBox : option (CropBox.t num))
| Render.
Arguments PointerDown {num}.
Arguments PointerMove {num}.
Arguments PointerUp {num}.
Arguments InitialBox {num}.
Arguments Render {num}.

(** The mounted component between two events: the cells as the last
    render read them, which is what the elements on screen, the handlers
    of the JSX and the listeners that render's effect attached to [window]
    work with, and the cells and the ref as they are now.  A handler's
    [setBox], [setIsDragging], ... change the latter only; the next render
    brings the former up to date. *)
Record Mounted (num : Type) : Type := mkMounted {
  rendered : Cropper.State num;
  current : Cropper.State num
}.
Arguments mkMounted {num}.
Arguments rendered {num}.
Arguments current {num}.

Section View.
Context {num : Type} `{JsNumber num}.

(** The component after its first render with [initialBox]. *)
Definition mount (initialBox : option (CropBox.t num)) : Mounted num :=
  mkMounted (Cropper.init initialBox) (Cropper.init initialBox).

(** The component in state [st], re-rendered since [st] was reached. *)
Definition upToDate (st : Cropper.State num) : Mounted num := mkMounted st st.

(** The handle is one of the eight the component renders. *)
Definition isRendered (h : string) : bool := existsb (String.eqb h) handles.

(** The [onMouseDown] attributes of the JSX of render [r].  The overlay,
    the box and its handles are rendered only while [box] is set; the
    container's own handler starts a box only while there is none. *)
Definition onMouseDown (p : Cropper.Props num) (r : Cropper.State num) (target : Target)
    (container : option (Cropper.DOMRect num)) (e : Cropper.MouseEvent num)
    (st : Cropper.State num) : Cropper.State num * list (option (CropBox.t num)) :=
  match target, Cropper.box r with
  | Canvas, None => Cropper.handleMouseDown p r container e create None st
  | Overlay, Some _ => Cropper.handleMouseDown p r container e create None st
  | BoxBody, Some _ => Cropper.handleMouseDown p r container e move None st
  | Handle h, Some _ =>
      if isRendered h then Cropper.handleMouseDown p r container e resize (Some h) st
      else (st, [])
  | _, _ => (st, [])
  end.

(** [useEffect(() => { setBox(initialBox || null) }, [initialBox])] *)
Definition receiveInitialBox (initialBox : option (CropBox.t num))
    (st : Cropper.State num) : Cropper.State num :=
  Cropper.mkState initialBox (Cropper.isDragging st) (Cropper.dragType st)
    (Cropper.resizeHandle st) (Cropper.startPos st).

(** What an event runs, given the render [r] the elements and listeners
    come from.  A pointer-down runs the handler of the element it lands
    on.  The effect of a render attaches the [window] listeners for move
    and up, that render's [handleMouseMove] and [handleMouseUp], only
    while its [isDragging] holds.  A render with a new [initialBox] is
    followed by the effect that copies it into [box]; a render with the
    same props changes no cell. *)
Definition dispatch (p : Cropper.Props num) (ev : Event num) (r st : Cropper.State num)
  : Cropper.State num * list (option (CropBox.t num)) :=
  match ev with
  | PointerDown target container e => onMouseDown p r target container e st
  | PointerMove container e =>
      if Cropper.isDragging r then Cropper.handleMouseMove p r container e st
      else (st, [])
  | PointerUp =>
      if Cropper.isDragging r then Cropper.handleMouseUp r st
      else (st, [])
  | InitialBox initialBox => (receiveInitialBox initialBox st, [])
  | Render => (st, [])
  end.

(** One event.  The elements and listeners stay those of the last render
    until the component renders again. *)
Definition step (p : Cropper.Props num) (ev : Event num) (m : Mounted num)
  : Mounted num * list (option (CropBox.t num)) :=
  let '(st, emitted) := dispatch p ev (rendered m) (current m) in
  (mkMounted match ev with
             | InitialBox _ | Render => current m
             | _ => rendered m
             end st,
   emitted).

(** A sequence of events: the final state and every [onCropChange]
    argument, in order. *)
Fixpoint steps (p : Cropper.Props num) (evs : list (Event num)) (m : Mounted num)
  : Mounted num * list (option (CropBox.t num)) :=
  match evs with
  | [] => (m, [])
  | ev :: rest =>
      let '(m1, out1) := step p ev m in
      let '(m2, out2) := steps p rest m1 in
      (m2, out1 ++ out2)
  end.

(** The events [evs], the component re-rendering after each of them. *)
Definition withRenders (evs : list (Event num)) : list (Event num) :=
  flat_map (fun ev => [ev; Render]) evs.

(** One event on a component whose render is up to date, followed by a
    re-render: the cells it leaves and what it reports. *)
Definition stepRendered (p : Cropper.Props num) (ev : Event num) (st : Cropper.State num)
  : Cropper.State num * list (option (CropBox.t num)) :=
  dispatch p ev st st.

(** The parent's [cropBox] cell: [onCropChange={setCropBox}] stores every
    reported box; a parent-side change is passed down as [initialBox]. *)
Definition parentAfter (cropBox : option (CropBox.t num))
    (emitted : list (option (CropBox.t num))) : option (CropBox.t num) :=
  foldl (fun _ reported => reported) cropBox emitted.

(** The component together with the parent's [cropBox] cell it reports
    to: a pointer event runs its handler and stores what it reports; a
    parent-side change of the cell comes down as the new [initialBox]. *)
Definition lifted (p : Cropper.Props num) (ev : Event num)
    (sys : option (CropBox.t num) * Mounted num)
  : option (CropBox.t num) * Mounted num :=
  match ev with
  | InitialBox v => (v, fst (step p ev (snd sys)))
  | _ =>
      let '(m, emitted) := step p ev (snd sys) in
      (parentAfter (fst sys) emitted, m)
  end.

End View.
End Session.

(* ===================================================================== *)
(** * [App.tsx]: the remaining handlers *)
(* ===================================================================== *)

Module Orchestrator.

Local Notation "x <- m ;; k" := (App.bind m (fun x => k))
  (at level 20, m at level 99, k at level 200, only parsing) : js_scope.
Local Notation "m ;; k" := (App.bind m (fun _ => k))
  (at level 100, k at level 200, right associativity, only parsing) : js_scope.

(** What a file input or a drop hands over: the file and its MIME type. *)
Record Upload (num : Type) : Type := mkUpload {
  type : string;
  selectedFile : App.File num
}.
Arguments mkUpload {num}.
Arguments type {num}.
Arguments selectedFile {num}.

(** The buttons of the zoom group and the reset button. *)
Inductive ZoomAction : Type := ZoomOut | ZoomIn | ResetZoom | ResetAll.

Section Controls.
Context {num : Type} `{JsNumber num}.
Local Open Scope js_scope.

(** A decimal literal [n/d] of the source text ([0.8] is [decimal 8 10]):
    the correctly rounded quotient of two exactly represented integers is
    the binary64 value of the literal. *)
Definition decimal (n d : Z) : num := lit n / lit d.

(** The cells after the first render ([useState] initial values). *)
Definition initial : App.State num :=
  App.mkState None [] 0 None false false all (decimal 8 10) App.none false false.

Definition withZoom (v : num) (s : App.State num) : App.State num :=
  App.mkState (App.file s) (App.pages s) (App.currentPageIdx s) (App.cropBox s)
    (App.isProcessing s) (App.isAnalyzing s) (App.cropScope s) v (App.activePortal s)
    (App.isPortalMenuOpen s) (App.isAutoPilot s).

Definition withIsProcessing (v : bool) (s : App.State num) : App.State num :=
  App.mkState (App.file s) (App.pages s) (App.currentPageIdx s) (App.cropBox s)
    v (App.isAnalyzing s) (App.cropScope s) (App.zoom s) (App.activePortal s)
    (App.isPortalMenuOpen s) (App.isAutoPilot s).

Definition withActivePortal (v : App.PortalType) (s : App.State num) : App.State num :=
  App.mkState (App.file s) (App.pages s) (App.currentPageIdx s) (App.cropBox s)
    (App.isProcessing s) (App.isAnalyzing s) (App.cropScope s) (App.zoom s) v
    (App.isPortalMenuOpen s) (App.isAutoPilot s).

Definition withIsPortalMenuOpen (v : bool) (s : App.State num) : App.State num :=
  App.mkState (App.file s) (App.pages s) (App.currentPageIdx s) (App.cropBox s)
    (App.isProcessing s) (App.isAnalyzing s) (App.cropScope s) (App.zoom s)
    (App.activePortal s) v (App.isAutoPilot s).

Definition withCurrentPageIdx (v : nat) (s : App.State num) : App.State num :=
  App.mkState (App.file s) (App.pages s) v (App.cropBox s)
    (App.isProcessing s) (App.isAnalyzing s) (App.cropScope s) (App.zoom s)
    (App.activePortal s) (App.isPortalMenuOpen s) (App.isAutoPilot s).

Definition setIsProcessing (v : bool) : App.Act num unit := App.update (withIsProcessing v).
Definition setActivePortal (v : App.PortalType) : App.Act num unit :=
  App.update (withActivePortal v).
Definition setIsPortalMenuOpen (v : bool) : App.Act num unit :=
  App.update (withIsPortalMenuOpen v).

(** [setZoom(prev => Math.max(0.2, Math.min(3.0, prev + delta)))] *)
Definition adjustZoom (delta : num) (s : App.State num) : App.State num :=
  withZoom (Math_max (decimal 2 10) (Math_min (lit 3) (App.zoom s + delta))) s.

(** The zoom buttons ([adjustZoom(-0.1)], [adjustZoom(0.1)],
    [setZoom(1.0)]) and, for the zoom cell, [reset] ([setZoom(0.8)]). *)
Definition zoomStep (a : ZoomAction) (s : App.State num) : App.State num :=
  match a with
  | ZoomOut => adjustZoom (lit 0 - decimal 1 10) s
  | ZoomIn => adjustZoom (decimal 1 10) s
  | ResetZoom => withZoom (lit 1) s
  | ResetAll => withZoom (decimal 8 10) s
  end.

(** [Math.max(0, currentPageIdx - 1)] and
    [Math.min(pages.length - 1, currentPageIdx + 1)], on the integers. *)
Definition prevPageIdx (currentPageIdx : Z) : Z := Z.max 0 (currentPageIdx - 1).
Definition nextPageIdx (pagesLength currentPageIdx : Z) : Z :=
  Z.min (pagesLength - 1) (currentPageIdx + 1).

(** The two page buttons.  The cell holds a natural number; the one
    negative value the code can store, [-1] from the next button on an
    empty page list, is read as [0] here. *)
Definition goPrev (s : App.State num) : App.State num :=
  withCurrentPageIdx (Z.to_nat (prevPageIdx (Z.of_nat (App.currentPageIdx s)))) s.
Definition goNext (s : App.State num) : App.State num :=
  withCurrentPageIdx
    (Z.to_nat (nextPageIdx (Z.of_nat (length (App.pages s)))
                 (Z.of_nat (App.currentPageIdx s)))) s.

(** [reset] *)
Definition reset (s : App.State num) : App.State num :=
  App.mkState None [] 0 None (App.isProcessing s) (App.isAnalyzing s) (App.cropScope s)
    (decimal 8 10) App.none (App.isPortalMenuOpen s) (App.isAutoPilot s).

(** [clearSelection] *)
Definition clearSelection : App.Act num unit := App.setCropBox None.

End Controls.

Section Handlers.
Context {num : Type} `{JsNumber num}.
Context (ai : Gemini.Collaborator num).
Context (renderPDFPages : App.File num -> Settled (list (PDFPageData.t num))).
Local Open Scope js_scope.

(** [try { body } catch (error) { handler } finally { final }] around a
    body with a result. *)
Definition try_catch_finally_returning {A : Type} (body : App.Act num A)
    (handler : string -> App.Act num A) (final : App.Act num unit) : App.Act num A :=
  fun st log =>
    let '(c, st1, log1) :=
      match body st log with
      | (App.thrown e, st', log') => handler e st' log'
      | done => done
      end in
    match final st1 log1 with
    | (App.normal _, st2, log2) => (c, st2, log2)
    | (App.thrown e, st2, log2) => (App.thrown e, st2, log2)
    end.

(** [handleDownload].  Its result is the file the browser is made to
    download ([link.download], [link.href]), [None] when there is none. *)
Definition handleDownload (r : App.State num) : App.Act num (option (App.File num)) :=
  match App.file r, App.cropBox r, App.pages r !! App.currentPageIdx r with
  | Some file, Some cropBox, Some page =>
      setIsProcessing true ;;
      try_catch_finally_returning
        (pdfBytes <-
           App.attempt
             (cropPDF (App.content file) cropBox (App.cropScope r) (App.currentPageIdx r)
                (PDFPageData.width page) (PDFPageData.height page))
             "cropPDF" ;;
         App.ret (Some (App.mkFile ("cropped_" ++ App.name file) pdfBytes)))
        (fun error =>
           App.emit (App.console_error "Cropping error:") ;;
           App.emit (App.alert "Failed to crop PDF.") ;;
           App.ret None)
        (setIsProcessing false)
  | _, _, _ => App.ret None
  end.

(** [handleFileChange], from the file the event carries, if any. *)
Definition handleFileChange (r : App.State num) (selected : option (Upload num))
  : App.Act num unit :=
  match selected with
  | Some u =>
      if String.eqb (type u) "application/pdf" then
        let selectedFile := selectedFile u in
        setIsProcessing true ;;
        App.try_catch_finally
          (renderedPages <- App.await (renderPDFPages selectedFile) ;;
           App.setPages renderedPages ;;
           App.setFile (Some selectedFile) ;;
           App.setCurrentPageIdx 0 ;;
           App.setCropBox None ;;
           match App.isAutoPilot r, App.activePortal r with
           | true, App.none => App.ret tt
           | true, _ => App.handlePortalAutoSplit ai renderPDFPages r selectedFile renderedPages
           | false, _ => App.ret tt
           end)
          (fun error =>
             App.emit (App.console_error "Error loading PDF:") ;;
             App.emit (App.alert "Failed to load PDF. Please try another file."))
          (setIsProcessing false)
      else App.ret tt
  | None => App.ret tt
  end.

(** [selectPortal].  The split it starts runs in the closure of the
    render in which the menu entry was clicked. *)
Definition selectPortal (r : App.State num) (portal : App.PortalType) : App.Act num unit :=
  setActivePortal portal ;;
  setIsPortalMenuOpen false ;;
  match App.file r, App.isAutoPilot r, portal with
  | Some file, true, App.none => App.ret tt
  | Some file, true, _ => App.handlePortalAutoSplit ai renderPDFPages r file (App.pages r)
  | _, _, _ => App.ret tt
  end.

(** Running a handler with a result from the cells of its own render. *)
Definition runReturning {A : Type} (handler : App.State num -> App.Act num A)
    (st : App.State num) : App.Completion A * App.State num * list App.Effect :=
  handler st st [].

End Handlers.
End Orchestrator.

(* ===================================================================== *)
(** * Vocabulary and instances for sessions and handlers *)
(* ===================================================================== *)

(** The drag cells agree with each other: a drag type is set exactly
    while dragging, and a resize handle is set only during a resize drag
    and is one of the rendered handles. *)
Definition flagsCoherent {num : Type} (st : Cropper.State num) : Prop :=
  (Cropper.isDragging st = true <-> Cropper.dragType st <> None) /\
  (forall h, Cropper.resizeHandle st = Some h ->
             Cropper.dragType st = Some resize /\ Session.isRendered h = true).

(** Two rational boxes denote the same box. *)
Definition sameCropBox (a b : CropBox.t Q) : Prop :=
  (CropBox.x a == CropBox.x b /\ CropBox.y a == CropBox.y b /\
   CropBox.width a == CropBox.width b /\ CropBox.height a == CropBox.height b)%Q.

(** The logical position of a pointer event lies on the page. *)
Definition onPage (p : Cropper.Props Q) (rect : Cropper.DOMRect Q)
    (e : Cropper.MouseEvent Q) : Prop :=
  (0 <= (Cropper.clientX e - Cropper.left rect) / Cropper.zoom p <= Cropper.width p /\
   0 <= (Cropper.clientY e - Cropper.top rect) / Cropper.zoom p <= Cropper.height p)%Q.

(** The handles whose resize branches keep the box on the page. *)
Definition soundHandles : list string := ["e"; "s"; "se"]%string.

(** The handles whose resize branches bring the box back when the pointer
    comes back: all but the three north handles. *)
Definition restoringHandles : list string := ["e"; "s"; "w"; "se"; "sw"]%string.

(** An event as a pointing device produces it on the rendered component:
    a pointer-down arrives only while no drag is active, lands on the
    page, and, on a handle, on one of [soundHandles]; the parent does not
    interfere. *)
Definition tame (p : Cropper.Props Q) (st : Cropper.State Q) (ev : Session.Event Q) : Prop :=
  match ev with
  | Session.PointerDown target container e =>
      Cropper.isDragging st = false /\
      (forall rect, container = Some rect -> onPage p rect e) /\
      (forall h, target = Session.Handle h -> h ∈ soundHandles)
  | Session.PointerMove _ _ => True
  | Session.PointerUp => True
  | Session.InitialBox _ => False
  | Session.Render => True
  end.

Fixpoint tameTrace (p : Cropper.Props Q) (evs : list (Session.Event Q))
    (st : Cropper.State Q) : Prop :=
  match evs with
  | [] => True
  | ev :: rest => tame p st ev /\ tameTrace p rest (fst (Session.stepRendered p ev st))
  end.

(** Every reported box lies inside the page. *)
Definition reportsInside (p : Cropper.Props Q) (emitted : list (option (CropBox.t Q))) : Prop :=
  Forall (fun reported =>
            forall b, reported = Some b ->
                      insidePage (Cropper.width p) (Cropper.height p) b) emitted.

(** What holds of the component between events in a session of tame
    events: the box lies on the page, it is at least 5 by 5 unless it is
    being drawn, a drawing started on the page, and a resize uses one of
    [soundHandles]. *)
Definition sessionInv (p : Cropper.Props Q) (st : Cropper.State Q) : Prop :=
  flagsCoherent st /\
  (forall b, Cropper.box st = Some b ->
     insidePage (Cropper.width p) (Cropper.height p) b /\
     (Cropper.dragType st <> Some create ->
      (5 <= CropBox.width b /\ 5 <= CropBox.height b)%Q)) /\
  (Cropper.dragType st = Some create ->
     (0 <= Cropper.logicalStartX (Cropper.startPos st) <= Cropper.width p /\
      0 <= Cropper.logicalStartY (Cropper.startPos st) <= Cropper.height p)%Q) /\
  (forall h, Cropper.resizeHandle st = Some h -> h ∈ soundHandles).

(** What the anchor detection of a portal split writes to the console;
    the Meesho split does not call it. *)
Definition anchorLog {num : Type} (ai : Gemini.Collaborator num) (portal : App.PortalType)
    (firstPage : PDFPageData.t num) : list string :=
  match portal with
  | App.meesho => []
  | _ => snd (Gemini.findTaxInvoiceAnchor ai (PDFPageData.canvasUrl firstPage))
  end.

(** The log of a portal split that failed: what the anchor detection
    wrote to the console, if it ran, then the two entries of the handler's
    catch block. *)
Definition portalSplitFailure (detectionLog : list string) : list App.Effect :=
  (App.console_error <$> detectionLog)
  ++ [App.console_error "Portal split error:";
      App.alert "Auto processing failed. Please adjust manually."].

Module Scenarios.
Section Generic.
Context {num : Type} `{JsNumber num}.

Definition at_ (x y : Z) : Cropper.MouseEvent num := Cropper.mkEvent (lit x) (lit y).

(** Draw a box, move it, resize it by its south-east handle; the parent
    then replaces the box, and a stray click outside discards it. *)
Definition session : list (Session.Event num) :=
  [Session.PointerDown Session.Canvas (Some Instances.container) (at_ 500 500);
   Session.PointerMove (Some Instances.container) (at_ 700 800);
   Session.PointerUp;
   Session.PointerDown Session.BoxBody (Some Instances.container) (at_ 600 600);
   Session.PointerMove (Some Instances.container) (at_ 5000 610);
   Session.PointerUp;
   Session.PointerDown (Session.Handle "se") (Some Instances.container) (at_ 1100 810);
   Session.PointerMove (Some Instances.container) (at_ 1000 2000);
   Session.PointerUp].

Definition interference : list (Session.Event num) :=
  [Session.InitialBox (Some Instances.sampleBox);
   Session.PointerDown Session.Overlay (Some Instances.container) (at_ 900 900);
   Session.PointerUp].

(** A press on the empty canvas at client position (500, 500), the
    re-render that attaches the [window] listeners, and a pointer move to
    the client position [to]. *)
Definition draw (to : Z * Z) : list (Session.Event num) :=
  [Session.PointerDown Session.Canvas (Some Instances.container) (at_ 500 500);
   Session.Render;
   Session.PointerMove (Some Instances.container) (at_ (fst to) (snd to))].

(** The preview of an A4 page at the render scale 1.5: 892.92 by
    1262.835, at zoom 1. *)
Definition a4Preview : Cropper.Props num :=
  Cropper.mkProps (lit 89292 / lit 100)%js (lit 1262835 / lit 1000)%js (lit 1).

(** A move-drag of the box [{x:0, y:0, width:300.7, height:100}] that
    started at client position (300, 100), after the re-render. *)
Definition movingBox : Cropper.State num :=
  Cropper.mkState (Some (CropBox.mk (lit 0) (lit 0) (lit 3007 / lit 10)%js (lit 100)))
    true (Some move) None
    (Cropper.mkStart (lit 300) (lit 100) (lit 0) (lit 0)
       (lit 0) (lit 0) (lit 3007 / lit 10)%js (lit 100)).


(** A detection service that answers every request: the content bounds
    [{x:10, y:20, width:50, height:60}] (percent) and the anchor 60. *)
Definition answeringAi : Gemini.Collaborator num :=
  Gemini.mkCollaborator num (fun _ _ => fulfilled (Some "{...}"%string)) (fun s => s)
    (fun _ => Some (Some (Gemini.mkBounds (lit 10) (lit 20) (lit 50) (lit 60))))
    (fun _ => Some (Some (lit 60))).

(** A detection service whose answer is not JSON. *)
Definition garbledAi : Gemini.Collaborator num :=
  Gemini.mkCollaborator num (fun _ _ => fulfilled (Some "sorry"%string)) (fun s => s)
    (fun _ => None) (fun _ => None).

(** A detection service that finds the invoice at the very top of the
    page: the anchor 0. *)
Definition topAnchorAi : Gemini.Collaborator num :=
  Gemini.mkCollaborator num (fun _ _ => fulfilled (Some "{...}"%string)) (fun s => s)
    (fun _ => Some None) (fun _ => Some (Some (lit 0))).

(** A renderer that fails. *)
Definition brokenRenderer (f : App.File num) : Settled (list (PDFPageData.t num)) :=
  rejected "InvalidPDFException".

Definition pdfUpload : Orchestrator.Upload num :=
  Orchestrator.mkUpload "application/pdf" (App.mkFile "label.pdf" Instances.meeshoDoc).
Definition pngUpload : Orchestrator.Upload num :=
  Orchestrator.mkUpload "image/png" (App.mkFile "label.png" Instances.emptyDoc).

(** [Instances.loaded] with Auto Pilot switched on. *)
Definition autoPilot (portal : App.PortalType) : App.State num :=
  App.mkState (App.file (Instances.loaded portal)) (App.pages (Instances.loaded portal))
    0 (Some Instances.sampleBox) false false all (lit 1) portal true true.

End Generic.
End Scenarios.

(* ===================================================================== *)
(** * Proof automation for the rational reading *)
(* ===================================================================== *)

(** Integer literals of the source, read in [Q]. *)
Ltac q_literals :=
  repeat match goal with
         | |- context [inject_Z ?z] =>
             let q := eval cbv in (inject_Z z) in change (inject_Z z) with q
         | H : context [inject_Z ?z] |- _ =>
             let q := eval cbv in (inject_Z z) in change (inject_Z z) with q in H
         end.

(** The operations of [Q_number] and the record projections, unfolded
    without unfolding the rational operations themselves. *)
Ltac q_ops :=
  cbn [js_add js_sub js_mul js_div Math_max Math_min Math_abs js_lt lit truthy Q_number
       CropBox.x CropBox.y CropBox.width CropBox.height
       PdfBox.x PdfBox.y PdfBox.width PdfBox.height
       Cropper.nextBoxOf Cropper.resizeBox Cropper.handleIncludes includes
       Ascii.eqb Bool.eqb];
  q_literals.

(** The cells of a component state built by a handler. *)
Ltac st_simpl :=
  cbn [fst snd Cropper.box Cropper.isDragging Cropper.dragType Cropper.resizeHandle
       Cropper.startPos Cropper.logicalStartX Cropper.logicalStartY Cropper.screenX
       Cropper.screenY Cropper.boxX Cropper.boxY Cropper.boxW Cropper.boxH
       Cropper.handleOrNull];
  q_ops;
  cbn [fst snd Cropper.box Cropper.isDragging Cropper.dragType Cropper.resizeHandle
       Cropper.startPos Cropper.logicalStartX Cropper.logicalStartY Cropper.screenX
       Cropper.screenY Cropper.boxX Cropper.boxY Cropper.boxW Cropper.boxH].

(** Case analysis on every [Math.max], [Math.min] and [Math.abs] of a
    rational goal, leaving linear arithmetic over the remaining atoms. *)
Ltac q_minmax :=
  repeat match goal with
         | |- context [Qdiv ?a ?b] =>
             let d := fresh "d" in set (d := Qdiv a b) in *; clearbody d
         | |- context [Qabs ?a] =>
             let m := fresh "m" in
             let Hm := fresh "Hm" in
             assert (Hm : ((0 <= a /\ Qabs a == a) \/ (a <= 0 /\ Qabs a == - a))%Q)
               by (destruct (Qlt_le_dec a 0);
                   [right; split; [lra | apply Qabs_neg; lra]
                   |left; split; [lra | apply Qabs_pos; lra]]);
             set (m := Qabs a) in *; clearbody m;
             destruct Hm as [[? ?]|[? ?]]
         | |- context [Qmax ?a ?b] =>
             let m := fresh "m" in
             let Hm := fresh "Hm" in
             pose proof (Q.max_spec a b) as Hm;
             set (m := Qmax a b) in *; clearbody m;
             destruct Hm as [[? ?]|[? ?]]
         | |- context [Qmin ?a ?b] =>
             let m := fresh "m" in
             let Hm := fresh "Hm" in
             pose proof (Q.min_spec a b) as Hm;
             set (m := Qmin a b) in *; clearbody m;
             destruct Hm as [[? ?]|[? ?]]
         | _ : context [Qmax ?a ?b] |- _ =>
             let m := fresh "m" in
             let Hm := fresh "Hm" in
             pose proof (Q.max_spec a b) as Hm;
             set (m := Qmax a b) in *; clearbody m;
             destruct Hm as [[? ?]|[? ?]]
         | _ : context [Qmin ?a ?b] |- _ =>
             let m := fresh "m" in
             let Hm := fresh "Hm" in
             pose proof (Q.min_spec a b) as Hm;
             set (m := Qmin a b) in *; clearbody m;
             destruct Hm as [[? ?]|[? ?]]
         end.

(* ===================================================================== *)
(** * Properties of the PDF service *)
(* ===================================================================== *)

(** Decimal literals of binary64 type denote the nearest binary64 value,
    as they do in the source language. *)
#[local] Set Warnings "-inexact-float".

Section CropLoopFacts.
Context {num : Type} `{JsNumber num}.
Variables (box : CropBox.t num) (vw vh : num).

(** One iteration on a page whose rectangle holds no NaN. *)
Lemma cropPage_numeric (page : PDFPage num) :
  numeric (pdfRect box vw vh page) ->
  cropPage box vw vh page = Some (croppedPage box vw vh page).
Proof.
  unfold numeric, cropPage, croppedPage, setCropBox, setMediaBox.
  destruct (pdfRect box vw vh page) as [x y w h]. simpl.
  intros ->. reflexivity.
Qed.

(** One iteration on a page whose rectangle holds a NaN: [setCropBox]
    throws. *)
Lemma cropPage_NaN (page : PDFPage num) :
  PdfBox.hasNaN (pdfRect box vw vh page) = true -> cropPage box vw vh page = None.
Proof.
  unfold cropPage, setCropBox.
  destruct (pdfRect box vw vh page) as [x y w h]. simpl. by intros ->.
Qed.

(** The loop over distinct in-range indices, when no rectangle it
    computes holds a NaN: it does not throw and replaces exactly the pages
    it visits, each by [croppedPage] of the page found there before the
    loop. *)
Lemma cropLoop_spec (idxs : list nat) :
  forall pgs : list (PDFPage num),
    NoDup idxs ->
    (forall i, i ∈ idxs -> (i < length pgs)%nat) ->
    (forall i page, i ∈ idxs -> pgs !! i = Some page -> numeric (pdfRect box vw vh page)) ->
    exists out,
      cropLoop box vw vh idxs pgs = Some out /\
      length out = length pgs /\
      forall i : nat,
        out !! i = if decide (i ∈ idxs) then croppedPage box vw vh <$> pgs !! i
                   else pgs !! i.
Proof.
  induction idxs as [|idx rest IH]; intros pgs Hnd Hin Hnum; simpl.
  - exists pgs. split; [done|]. split; [done|].
    intros i. destruct (decide (i ∈ [])) as [Hi|_]; [|done].
    by apply elem_of_nil in Hi.
  - apply NoDup_cons in Hnd as [Hfresh Hnd].
    assert (Hlt : (idx < length pgs)%nat) by (apply Hin; left).
    destruct (lookup_lt_is_Some_2 pgs idx Hlt) as [page Hpage].
    rewrite Hpage, cropPage_numeric by (apply (Hnum idx); [left | exact Hpage]). simpl.
    destruct (IH (<[idx := croppedPage box vw vh page]> pgs) Hnd) as (out & Hout & Hlen & Hall).
    { intros i Hi. rewrite length_insert. apply Hin. by right. }
    { intros i q Hi Hq. apply (Hnum i); [by right|].
      rewrite list_lookup_insert_ne in Hq; [exact Hq|]. intros <-. by apply Hfresh. }
    exists out. split; [done|]. split; [by rewrite Hlen, length_insert|].
    intros i. rewrite Hall.
    destruct (decide (i = idx)) as [->|Hne].
    + destruct (decide (idx ∈ rest)); [done|].
      destruct (decide (idx ∈ idx :: rest)) as [_|Hn]; [|exfalso; apply Hn; left].
      by rewrite list_lookup_insert_eq, Hpage.
    + rewrite list_lookup_insert_ne by done.
      destruct (decide (i ∈ rest)) as [Hi|Hi];
        destruct (decide (i ∈ idx :: rest)) as [Hi'|Hi']; try done.
      * exfalso. apply Hi'. by right.
      * apply elem_of_cons in Hi' as [?|?]; done.
Qed.

(** The loop throws as soon as it reaches a page whose rectangle holds a
    NaN. *)
Lemma cropLoop_NaN (idxs : list nat) :
  forall pgs : list (PDFPage num),
    NoDup idxs ->
    (exists i page, i ∈ idxs /\ pgs !! i = Some page /\
                    PdfBox.hasNaN (pdfRect box vw vh page) = true) ->
    cropLoop box vw vh idxs pgs = None.
Proof.
  induction idxs as [|idx rest IH]; intros pgs Hnd (i & page & Hi & Hpage & Hnan); simpl.
  - by apply elem_of_nil in Hi.
  - apply NoDup_cons in Hnd as [Hfresh Hnd].
    destruct (pgs !! idx) as [q|] eqn:Hq; [|reflexivity].
    destruct (PdfBox.hasNaN (pdfRect box vw vh q)) eqn:Hnq.
    + by rewrite cropPage_NaN.
    + rewrite cropPage_numeric by exact Hnq. simpl.
      apply IH; [exact Hnd|]. exists i, page.
      apply elem_of_cons in Hi as [-> | Hi]; [congruence|].
      split; [exact Hi|]. split; [|exact Hnan].
      rewrite list_lookup_insert_ne; [exact Hpage|]. intros <-. by apply Hfresh.
Qed.

Lemma cropPDF_all (file : PDFDocument num) (cur : nat) :
  (forall i page, pages file !! i = Some page -> numeric (pdfRect box vw vh page)) ->
  cropPDF file box all cur vw vh
  = Some (save (mkDoc (croppedPage box vw vh <$> pages file))).
Proof.
  intros Hnum. unfold cropPDF, load, getPages, applyIndicesOf, indices.
  destruct (cropLoop_spec (seq 0 (length (pages file))) (pages file))
    as (out & Hout & Hlen & Hall).
  { apply NoDup_seq. }
  { intros i Hi. apply elem_of_seq in Hi. lia. }
  { intros i page _. apply Hnum. }
  rewrite Hout. simpl. do 3 f_equal.
  apply list_eq. intros i. rewrite Hall, list_lookup_fmap.
  destruct (decide (i ∈ seq 0 (length (pages file)))) as [_|Hi]; [done|].
  rewrite elem_of_seq in Hi.
  rewrite lookup_ge_None_2 by lia. done.
Qed.

Lemma cropPDF_current (file : PDFDocument num) (cur : nat) (page : PDFPage num) :
  pages file !! cur = Some page ->
  numeric (pdfRect box vw vh page) ->
  cropPDF file box current cur vw vh =
    Some (mkDoc (<[cur := croppedPage box vw vh page]> (pages file))).
Proof.
  intros Hpage Hnum. unfold cropPDF, load, getPages, applyIndicesOf. simpl.
  rewrite Hpage, cropPage_numeric by exact Hnum. simpl. unfold save. simpl.
  destruct (pages file) as [|q rest] eqn:Hpages; [by rewrite lookup_nil in Hpage|].
  by destruct cur.
Qed.

(** A NaN in the rectangle of a target page makes [cropPDF] throw. *)
Lemma cropPDF_NaN (file : PDFDocument num) (targetPages : TargetPages) (cur i : nat)
    (page : PDFPage num) :
  pages file !! i = Some page ->
  isTarget targetPages cur i ->
  PdfBox.hasNaN (pdfRect box vw vh page) = true ->
  cropPDF file box targetPages cur vw vh = None.
Proof.
  intros Hpage Htarget Hnan. unfold cropPDF, load, getPages, applyIndicesOf, indices.
  rewrite cropLoop_NaN; [reflexivity| |].
  - destruct targetPages; [apply NoDup_seq | apply NoDup_singleton].
  - exists i, page. split; [|done].
    destruct targetPages.
    + apply elem_of_seq. apply lookup_lt_Some in Hpage. lia.
    + destruct Htarget as [Hall | ->]; [discriminate | by apply list_elem_of_singleton].
Qed.

(** On a document with at least one page [save] adds nothing. *)
Lemma save_nonempty (pgs : list (PDFPage num)) :
  pgs <> [] -> save (mkDoc pgs) = mkDoc pgs.
Proof. unfold save. simpl. by destruct pgs. Qed.

End CropLoopFacts.

(** C1.  The rectangle [cropPDF] computes for a target page is obtained
    from the logical box by [scaleX = pageWidthPt / viewportWidthPx],
    [scaleY = pageHeightPt / viewportHeightPx]: [pdfX = box.x * scaleX],
    [pdfY = pageHeightPt - box.y * scaleY - box.height * scaleY],
    [pdfW = box.width * scaleX], [pdfH = box.height * scaleY], in every
    number implementation, the rationals and binary64 included.  When none
    of the rectangles computed for the target pages holds a NaN, [cropPDF]
    returns a document in which that rectangle is the crop box of the
    page.  When the rectangle holds a NaN (a viewport of width 0 and a box
    at [x = 0] give [0 * Infinity]), pdf-lib's setter refuses it and
    [cropPDF] throws. *)
Theorem cropPDF_maps_box_to_pdf_space {num : Type} `{JsNumber num}
    (file : PDFDocument num) (box : CropBox.t num) (targetPages : TargetPages)
    (currentPageIndex : nat) (viewportWidthPx viewportHeightPx : num)
    (idx : nat) (page : PDFPage num) :
  pages file !! idx = Some page ->
  isTarget targetPages currentPageIndex idx ->
  let pageWidthPt := PdfBox.width (mediaBox page) in
  let pageHeightPt := PdfBox.height (mediaBox page) in
  let scaleX := (pageWidthPt / viewportWidthPx)%js in
  let scaleY := (pageHeightPt / viewportHeightPx)%js in
  let rect :=
    PdfBox.mk
      (CropBox.x box * scaleX)%js
      (pageHeightPt - (CropBox.y box * scaleY) - (CropBox.height box * scaleY))%js
      (CropBox.width box * scaleX)%js
      (CropBox.height box * scaleY)%js in
  pdfRect box viewportWidthPx viewportHeightPx page = rect /\
  ((forall i q, pages file !! i = Some q -> isTarget targetPages currentPageIndex i ->
                numeric (pdfRect box viewportWidthPx viewportHeightPx q)) ->
   exists out page',
     cropPDF file box targetPages currentPageIndex viewportWidthPx viewportHeightPx
       = Some out /\
     pages out !! idx = Some page' /\
     cropBox page' = Some rect) /\
  (PdfBox.hasNaN rect = true ->
   cropPDF file box targetPages currentPageIndex viewportWidthPx viewportHeightPx = None).
Proof.
  intros Hpage Htarget pageWidthPt pageHeightPt scaleX scaleY rect.
  assert (Hrect : pdfRect box viewportWidthPx viewportHeightPx page = rect) by reflexivity.
  split; [exact Hrect|]. split.
  - intros Hnum. destruct targetPages.
    + rewrite (cropPDF_all box viewportWidthPx viewportHeightPx file currentPageIndex)
        by (intros i q Hq; apply (Hnum i q Hq); by left).
      rewrite save_nonempty
        by (intros Hnil; apply fmap_nil_inv in Hnil; by rewrite Hnil in Hpage).
      eexists _, _. split; [reflexivity|]. simpl.
      rewrite list_lookup_fmap, Hpage. split; reflexivity.
    + destruct Htarget as [Hall | ->]; [discriminate|].
      rewrite (cropPDF_current box viewportWidthPx viewportHeightPx file _ page Hpage)
        by (apply (Hnum currentPageIndex page Hpage); by right).
      eexists _, _. split; [reflexivity|]. simpl.
      rewrite list_lookup_insert_eq by (by eapply lookup_lt_Some).
      split; reflexivity.
  - intros Hnan. apply (cropPDF_NaN box viewportWidthPx viewportHeightPx file
                          targetPages currentPageIndex idx page Hpage Htarget).
    rewrite Hrect. exact Hnan.
Qed.

Lemma cropPDF_maps_box_to_pdf_space_witness :
  (exists out page',
     cropPDF (num := Q) Instances.mixedDoc Instances.sampleBox current 1 800%Q 1000%Q
       = Some out /\
     pages out !! 1%nat = Some page' /\
     cropBox page' =
       Some (PdfBox.mk (100 * (612 / 800)) (792 - 50 * (792 / 1000) - 300 * (792 / 1000))
               (200 * (612 / 800)) (300 * (792 / 1000)))%Q) /\
  cropPDF (num := float) Instances.mixedDoc (CropBox.mk 0 50 200 300)%float all 0
    0%float 1000%float = None.
Proof.
  split.
  - destruct (cropPDF_maps_box_to_pdf_space (num := Q) Instances.mixedDoc
                Instances.sampleBox current 1 800%Q 1000%Q 1 (Instances.blankPage 612 792)
                eq_refl (or_intror eq_refl)) as (_ & Hreturns & _).
    apply Hreturns. intros i q _ _. reflexivity.
  - destruct (cropPDF_maps_box_to_pdf_space (num := float) Instances.mixedDoc
                (CropBox.mk 0 50 200 300)%float all 0 0%float 1000%float 0 Instances.a4
                eq_refl (or_introl eq_refl)) as (_ & _ & Hthrows).
    apply Hthrows. vm_compute. reflexivity.
Defined.

(** C7.  With scope [all], [cropPDF] sets the mapped rectangle, computed
    from each page's own size, as both the crop box and the media box of
    every page; with scope [current] it does so for the page at
    [currentPageIndex] only and every other page is the page it was; the
    page count is unchanged in both (of a document without pages, scope
    [all] returns the one blank page [save] adds).  This is what the
    returned document holds whenever no rectangle computed for a target
    page holds a NaN; when one does, [cropPDF] throws and returns
    nothing.  The mapped
    rectangle [pdfRect] of a page takes its scale factors from that page's
    own width and height (third part). *)
Theorem cropPDF_scope_frame {num : Type} `{JsNumber num}
    (file : PDFDocument num) (box : CropBox.t num)
    (currentPageIndex : nat) (viewWidth viewHeight : num) :
  ((forall i page, pages file !! i = Some page ->
                   numeric (pdfRect box viewWidth viewHeight page)) ->
   exists out,
     cropPDF file box all currentPageIndex viewWidth viewHeight = Some out /\
     (pages file <> [] -> length (pages out) = length (pages file)) /\
     forall (i : nat) (page : PDFPage num),
       pages file !! i = Some page ->
       exists page',
         pages out !! i = Some page' /\
         cropBox page' = Some (pdfRect box viewWidth viewHeight page) /\
         mediaBox page' = pdfRect box viewWidth viewHeight page) /\
  (forall page : PDFPage num,
      pages file !! currentPageIndex = Some page ->
      numeric (pdfRect box viewWidth viewHeight page) ->
      exists out,
        cropPDF file box current currentPageIndex viewWidth viewHeight = Some out /\
        length (pages out) = length (pages file) /\
        (exists page',
            pages out !! currentPageIndex = Some page' /\
            cropBox page' = Some (pdfRect box viewWidth viewHeight page) /\
            mediaBox page' = pdfRect box viewWidth viewHeight page) /\
        forall i : nat, i <> currentPageIndex -> pages out !! i = pages file !! i) /\
  (forall page : PDFPage num,
      let width := PdfBox.width (mediaBox page) in
      let height := PdfBox.height (mediaBox page) in
      pdfRect box viewWidth viewHeight page =
        PdfBox.mk
          (CropBox.x box * (width / viewWidth))%js
          (height - CropBox.y box * (height / viewHeight)
           - CropBox.height box * (height / viewHeight))%js
          (CropBox.width box * (width / viewWidth))%js
          (CropBox.height box * (height / viewHeight))%js) /\
  (forall (targetPages : TargetPages) (i : nat) (page : PDFPage num),
      pages file !! i = Some page ->
      isTarget targetPages currentPageIndex i ->
      PdfBox.hasNaN (pdfRect box viewWidth viewHeight page) = true ->
      cropPDF file box targetPages currentPageIndex viewWidth viewHeight = None).
Proof.
  split; [|split; [|split; [reflexivity|]]].
  - intros Hnum.
    rewrite (cropPDF_all box viewWidth viewHeight file currentPageIndex Hnum).
    eexists. split; [reflexivity|]. split.
    + intros Hpages.
      rewrite save_nonempty by (intros Hnil; by apply fmap_nil_inv in Hnil).
      simpl. by rewrite length_fmap.
    + intros i page Hpage.
      rewrite save_nonempty
        by (intros Hnil; apply fmap_nil_inv in Hnil; by rewrite Hnil in Hpage).
      eexists. simpl. rewrite list_lookup_fmap, Hpage. simpl.
      split; [reflexivity|]. split; reflexivity.
  - intros page Hpage Hnum.
    rewrite (cropPDF_current box viewWidth viewHeight file _ page Hpage Hnum).
    eexists. split; [reflexivity|]. simpl.
    split; [by rewrite length_insert|]. split.
    + eexists. rewrite list_lookup_insert_eq by (by eapply lookup_lt_Some).
      split; [reflexivity|]. split; reflexivity.
    + intros i Hi. by rewrite list_lookup_insert_ne.
  - intros targetPages i page. apply cropPDF_NaN.
Qed.

Lemma cropPDF_scope_frame_witness :
  exists out,
    cropPDF (num := Q) Instances.mixedDoc Instances.sampleBox current 2 800%Q 1000%Q
      = Some out /\
    length (pages out) = 3%nat /\
    pages out !! 0%nat = Some Instances.a4 /\
    pages out !! 1%nat = Some (Instances.blankPage 612 792).
Proof.
  pose proof (proj1 (proj2 (cropPDF_scope_frame (num := Q) Instances.mixedDoc
                              Instances.sampleBox 2 800%Q 1000%Q))) as Hcurrent.
  destruct (Hcurrent (Instances.blankPage 420 595) eq_refl)
    as (out & Hrun & Hlen & _ & Hframe); [reflexivity|].
  exists out. split; [exact Hrun|]. split; [exact Hlen|].
  split; [apply (Hframe 0%nat) | apply (Hframe 1%nat)]; lia.
Defined.

(** X8.  With scope [current] and no page at [currentPageIndex],
    [cropPDF] throws: it returns no document. *)
Theorem cropPDF_current_out_of_range {num : Type} `{JsNumber num}
    (file : PDFDocument num) (box : CropBox.t num) (currentPageIndex : nat)
    (viewWidth viewHeight : num) :
  pages file !! currentPageIndex = None ->
  cropPDF file box current currentPageIndex viewWidth viewHeight = None.
Proof.
  intros Hpage. unfold cropPDF, load, getPages, applyIndicesOf. simpl.
  by rewrite Hpage.
Qed.

Lemma cropPDF_current_out_of_range_witness :
  cropPDF (num := Q) Instances.mixedDoc Instances.sampleBox current 3 800%Q 1000%Q = None.
Proof.
  exact (cropPDF_current_out_of_range (num := Q) Instances.mixedDoc Instances.sampleBox 3
           800%Q 1000%Q eq_refl).
Defined.

Section SplitFacts.
Context {num : Type} `{JsNumber num}.

Lemma copyPages_suffix (pre l : list (PDFPage num)) :
  copyPages (mkDoc (pre ++ l)) (seq (length pre) (length l)) = Some l.
Proof.
  unfold copyPages. simpl. revert pre.
  induction l as [|p l IH]; intros pre; simpl; [done|].
  rewrite lookup_app_r, Nat.sub_diag by lia. simpl.
  specialize (IH (pre ++ [p])).
  rewrite <- app_assoc, length_app, Nat.add_1_r in IH. simpl in IH.
  by rewrite IH.
Qed.

Lemma foldl_addPage (l : list (PDFPage num)) :
  forall doc, foldl addPage doc l = mkDoc (pages doc ++ l).
Proof.
  induction l as [|p l IH]; intros doc; simpl.
  - rewrite app_nil_r. by destruct doc.
  - rewrite IH. unfold addPage. simpl. by rewrite <- app_assoc.
Qed.

(** The pages after the first are copied, in order, behind the pages the
    new document already has. *)
Lemma appendRemaining_spec (page : PDFPage num)
    (rest : list (PDFPage num)) (newPdfDoc : PDFDocument num) :
  appendRemaining (mkDoc (page :: rest)) newPdfDoc =
    Some (mkDoc (pages newPdfDoc ++ rest)).
Proof.
  unfold appendRemaining, getPages, indices. simpl.
  destruct rest as [|q rest].
  - simpl. rewrite app_nil_r. by destruct newPdfDoc.
  - change (1 <? S (S (length rest)))%nat with true. cbv iota.
    change (drop 1 (0%nat :: seq 1 (S (length rest)))) with (seq 1 (length (q :: rest))).
    pose proof (copyPages_suffix [page] (q :: rest)) as Hcopy.
    simpl in Hcopy. simpl. rewrite Hcopy. simpl.
    rewrite foldl_addPage. unfold addPage. simpl. by rewrite <- app_assoc.
Qed.

End SplitFacts.

(** C10 (as the code has it).  On a document with no pages,
    [splitEcomLabel] (any anchor) and [splitEcomLabelFixed] (any
    configuration) return the loaded document re-saved: nothing is removed
    or cropped, and [save] adds the one blank A4 page (595.28 by 841.89 pt)
    that pdf-lib gives a document without pages. *)
Theorem split_of_empty_document {num : Type} `{JsNumber num}
    (file : PDFDocument num) (anchorYPercent : num) (config : SplitConfig num) :
  pages file = [] ->
  splitEcomLabel file anchorYPercent = Some (save (load file)) /\
  splitEcomLabelFixed file config = Some (save (load file)) /\
  pages (save (load file))
  = [mkPage (PdfBox.mk (lit 0) (lit 0) (lit 59528 / lit 100) (lit 84189 / lit 100))%js None].
Proof.
  intros Hempty.
  unfold splitEcomLabel, splitEcomLabelFixed, load, save, getPages.
  rewrite Hempty. repeat split; reflexivity.
Qed.

Lemma split_of_empty_document_witness :
  splitEcomLabel (num := float) Instances.emptyDoc 60%float
  = Some (mkDoc [mkPage (PdfBox.mk 0 0 595.28 841.89)%float None]) /\
  splitEcomLabelFixed (num := float) Instances.emptyDoc App.meeshoConfig
  = Some (mkDoc [mkPage (PdfBox.mk 0 0 595.28 841.89)%float None]).
Proof.
  destruct (split_of_empty_document (num := float) Instances.emptyDoc 60%float
              App.meeshoConfig eq_refl) as (Hsplit & Hfixed & _).
  rewrite Hsplit, Hfixed. split; vm_compute; reflexivity.
Defined.

(** C10 as the specification states it fails: the document returned for
    a file without pages has a page. *)
Lemma split_of_empty_document_adds_a_page :
  ~ (exists out,
       splitEcomLabel (num := Q) Instances.emptyDoc 60%Q = Some out /\
       length (pages out) = length (pages (Instances.emptyDoc (num := Q)))) /\
  ~ (exists out,
       splitEcomLabelFixed (num := Q) Instances.emptyDoc App.meeshoConfig = Some out /\
       length (pages out) = length (pages (Instances.emptyDoc (num := Q)))).
Proof.
  split; intros (out & Hrun & Hlen); vm_compute in Hrun; injection Hrun as <-;
    discriminate Hlen.
Qed.

Section SplitShape.
Context {num : Type} `{JsNumber num}.
Local Open Scope js_scope.

(** What [splitEcomLabel] returns on a document with a first page: the
    two bands and the remaining pages, unless a band holds a NaN. *)
Lemma splitEcomLabel_nonempty (page : PDFPage num)
    (rest : list (PDFPage num)) (anchorYPercent : num) :
  let width := PdfBox.width (mediaBox page) in
  let height := PdfBox.height (mediaBox page) in
  let splitY := height * (lit 1 - anchorYPercent / lit 100) in
  let labelBox := PdfBox.mk (lit 0) splitY width (height - splitY) in
  let invoiceBox := PdfBox.mk (lit 0) (lit 0) width splitY in
  splitEcomLabel (mkDoc (page :: rest)) anchorYPercent =
    if PdfBox.hasNaN labelBox || PdfBox.hasNaN invoiceBox then None
    else Some (mkDoc (mkPage labelBox (Some labelBox)
                       :: mkPage invoiceBox (Some invoiceBox) :: rest)).
Proof.
  intros. subst labelBox invoiceBox splitY width height.
  unfold splitEcomLabel, load, getPages, setCropBox, setMediaBox.
  cbn -[PdfBox.hasNaN appendRemaining save].
  repeat match goal with
         | |- context [PdfBox.hasNaN ?b] => destruct (PdfBox.hasNaN b)
         end; cbn -[appendRemaining save]; try reflexivity.
  rewrite appendRemaining_spec. reflexivity.
Qed.

(** What [splitEcomLabelFixed] returns on a document with a first page. *)
Lemma splitEcomLabelFixed_nonempty (page : PDFPage num)
    (rest : list (PDFPage num)) (config : SplitConfig num) :
  let width := PdfBox.width (mediaBox page) in
  let height := PdfBox.height (mediaBox page) in
  let scale := width / viewWidth config in
  let labelH := dim_height (label config) * scale in
  let invoiceH := dim_height (invoice config) * scale in
  let labelBox := PdfBox.mk (lit 0) (height - labelH) width labelH in
  let invoiceBox :=
    PdfBox.mk (lit 0) (Math_max (lit 0) (height - labelH - invoiceH)) width invoiceH in
  splitEcomLabelFixed (mkDoc (page :: rest)) config =
    if PdfBox.hasNaN labelBox || PdfBox.hasNaN invoiceBox then None
    else Some (mkDoc (mkPage labelBox (Some labelBox)
                       :: mkPage invoiceBox (Some invoiceBox) :: rest)).
Proof.
  intros. subst labelBox invoiceBox invoiceH labelH scale width height.
  unfold splitEcomLabelFixed, load, getPages, setCropBox, setMediaBox.
  cbn -[PdfBox.hasNaN appendRemaining save].
  repeat match goal with
         | |- context [PdfBox.hasNaN ?b] => destruct (PdfBox.hasNaN b)
         end; cbn -[appendRemaining save]; try reflexivity.
  rewrite appendRemaining_spec. reflexivity.
Qed.

End SplitShape.

(* ===================================================================== *)
(** * The service in exact arithmetic *)
(* ===================================================================== *)

Section ExactService.
Local Open Scope Q_scope.

(** No rational is a NaN. *)
Lemma Q_numeric (b : PdfBox.t Q) : numeric b.
Proof. reflexivity. Qed.

(** The rectangle of the worked example, for a 595 by 842 pt page seen
    through an 800 by 1000 px viewport. *)
Lemma pdfRect_example (page : PDFPage Q) :
  PdfBox.width (mediaBox page) == 595 ->
  PdfBox.height (mediaBox page) == 842 ->
  sameBox (pdfRect Instances.sampleBox 800 1000 page)
    (PdfBox.mk 74.375 547.3 148.75 252.6).
Proof.
  intros Hw Hh. unfold sameBox, pdfRect, getSize. simpl.
  repeat split; rewrite ?Hw, ?Hh; reflexivity.
Qed.

End ExactService.

(** C4 (as the code has it).  With an 800 by 1000 px viewport, a 595 by
    842 pt page and the logical box [{x:100, y:50, width:200, height:300}],
    [cropPDF] sets on every target page the rectangle [x = 74.375],
    [y = 842 - 50*0.842 - 300*0.842 = 547.3], [w = 148.75], [h = 252.6]. *)
Theorem cropPDF_example_rect (file : PDFDocument Q) (targetPages : TargetPages)
    (currentPageIndex idx : nat) (page : PDFPage Q) :
  pages file !! idx = Some page ->
  isTarget targetPages currentPageIndex idx ->
  (PdfBox.width (mediaBox page) == 595)%Q ->
  (PdfBox.height (mediaBox page) == 842)%Q ->
  exists out page' r,
    cropPDF file Instances.sampleBox targetPages currentPageIndex 800%Q 1000%Q = Some out /\
    pages out !! idx = Some page' /\
    cropBox page' = Some r /\ mediaBox page' = r /\
    sameBox r (PdfBox.mk 74.375 547.3 148.75 252.6)%Q.
Proof.
  intros Hpage Htarget Hw Hh.
  exists (mkDoc
            (match targetPages with
             | all => croppedPage Instances.sampleBox 800%Q 1000%Q <$> pages file
             | current =>
                 <[idx := croppedPage Instances.sampleBox 800%Q 1000%Q page]> (pages file)
             end)),
    (croppedPage Instances.sampleBox 800%Q 1000%Q page),
    (pdfRect Instances.sampleBox 800%Q 1000%Q page).
  split; [|split; [|split; [|split]]].
  - destruct targetPages.
    + rewrite (cropPDF_all Instances.sampleBox 800%Q 1000%Q file currentPageIndex)
        by (intros; apply Q_numeric).
      rewrite save_nonempty; [reflexivity|].
      intros Hnil. apply fmap_nil_inv in Hnil. by rewrite Hnil in Hpage.
    + destruct Htarget as [Hall | ->]; [discriminate|].
      apply cropPDF_current; [exact Hpage | apply Q_numeric].
  - simpl. destruct targetPages.
    + by rewrite list_lookup_fmap, Hpage.
    + apply list_lookup_insert_eq. by eapply lookup_lt_Some.
  - reflexivity.
  - reflexivity.
  - by apply pdfRect_example.
Qed.

Lemma cropPDF_example_rect_witness :
  exists out page' r,
    cropPDF (num := Q) Instances.mixedDoc Instances.sampleBox all 0 800%Q 1000%Q = Some out /\
    pages out !! 0%nat = Some page' /\
    cropBox page' = Some r /\ mediaBox page' = r /\
    sameBox r (PdfBox.mk 74.375 547.3 148.75 252.6)%Q.
Proof.
  apply (cropPDF_example_rect Instances.mixedDoc all 0 0 Instances.a4).
  - reflexivity.
  - left. reflexivity.
  - reflexivity.
  - reflexivity.
Defined.

(** C4 as the specification states it fails: on that instance the
    rectangle [cropPDF] sets is not [x=74.375, y=491.95, w=148.75, h=252.6]
    (its [y] is 547.3). *)
Lemma cropPDF_example_rect_y_is_not_491_95 :
  ~ exists out page' r,
      cropPDF (num := Q) (mkDoc [Instances.a4]) Instances.sampleBox all 0 800%Q 1000%Q
        = Some out /\
      pages out !! 0%nat = Some page' /\
      cropBox page' = Some r /\
      sameBox r (PdfBox.mk 74.375 491.95 148.75 252.6)%Q.
Proof.
  intros (out & page' & r & Hrun & Hpage & Hcrop & _ & Hy & _).
  vm_compute in Hrun. injection Hrun as <-.
  simpl in Hpage. injection Hpage as <-.
  simpl in Hcrop. injection Hcrop as <-.
  vm_compute in Hy. discriminate Hy.
Qed.

(** C6.  On a single-page document of height [H] and an anchor percentage
    [p], [splitEcomLabel] returns a two-page document: the first page has
    crop and media box covering the band from [H*(1-p/100)] up to [H], the
    second the band from [0] up to [H*(1-p/100)], both at full width.  With
    [p = 60] and [H = 1000] the bands are [400..1000] and [0..400]. *)
Theorem splitEcomLabel_single_page_bands (page : PDFPage Q) (p : Q) :
  let W := PdfBox.width (mediaBox page) in
  let H := PdfBox.height (mediaBox page) in
  exists labelBox invoiceBox,
    splitEcomLabel (mkDoc [page]) p =
      Some (mkDoc [mkPage labelBox (Some labelBox); mkPage invoiceBox (Some invoiceBox)]) /\
    (PdfBox.x labelBox == 0 /\ PdfBox.width labelBox == W /\
     PdfBox.bottom labelBox == H * (1 - p / 100) /\ PdfBox.top labelBox == H)%Q /\
    (PdfBox.x invoiceBox == 0 /\ PdfBox.width invoiceBox == W /\
     PdfBox.bottom invoiceBox == 0 /\ PdfBox.top invoiceBox == H * (1 - p / 100))%Q /\
    ((H == 1000)%Q -> (p == 60)%Q ->
     (PdfBox.bottom labelBox == 400 /\ PdfBox.top labelBox == 1000 /\
      PdfBox.bottom invoiceBox == 0 /\ PdfBox.top invoiceBox == 400)%Q).
Proof.
  intros W H. eexists _, _.
  split; [exact (splitEcomLabel_nonempty (num := Q) page [] p)|].
  unfold PdfBox.bottom, PdfBox.top. simpl. fold W H.
  split; [|split].
  - repeat split; try reflexivity. q_literals. ring.
  - repeat split; try reflexivity. q_literals. ring.
  - intros HH Hp. rewrite HH, Hp. repeat split; reflexivity.
Qed.

Lemma splitEcomLabel_single_page_bands_witness :
  exists labelBox invoiceBox,
    splitEcomLabel (num := Q) Instances.tallDoc 60%Q =
      Some (mkDoc [mkPage labelBox (Some labelBox); mkPage invoiceBox (Some invoiceBox)]) /\
    (PdfBox.bottom labelBox == 400 /\ PdfBox.top labelBox == 1000 /\
     PdfBox.bottom invoiceBox == 0 /\ PdfBox.top invoiceBox == 400)%Q.
Proof.
  destruct (splitEcomLabel_single_page_bands (Instances.blankPage 700 1000) 60%Q)
    as (labelBox & invoiceBox & Hrun & _ & _ & Hbands).
  exists labelBox, invoiceBox. split; [exact Hrun|].
  apply Hbands; reflexivity.
Defined.

(** C8 (as the code has it).  For the Meesho fixed split (label height
    490, invoice height 360, [viewWidth = 800]) on a document whose first
    page is 790 pt wide and [H] pt tall: the scale factor is
    [790/800 = 0.9875]; the first output page is the top band of height
    [490*0.9875 = 483.875] pt, ending at [H]; the second is a band of height
    [360*0.9875 = 355.5] pt, which lies directly beneath the first when
    [H >= 839.375] and starts at [0] otherwise; the original pages after
    the first follow unchanged. *)
Theorem splitEcomLabelFixed_meesho (page : PDFPage Q) (rest : list (PDFPage Q)) :
  let W := PdfBox.width (mediaBox page) in
  let H := PdfBox.height (mediaBox page) in
  (W == 790)%Q ->
  exists labelBox invoiceBox,
    splitEcomLabelFixed (mkDoc (page :: rest)) App.meeshoConfig =
      Some (mkDoc (mkPage labelBox (Some labelBox)
                    :: mkPage invoiceBox (Some invoiceBox) :: rest)) /\
    (W / viewWidth App.meeshoConfig == 0.9875)%Q /\
    (PdfBox.x labelBox == 0 /\ PdfBox.width labelBox == 790 /\
     PdfBox.height labelBox == 483.875 /\ PdfBox.top labelBox == H)%Q /\
    (PdfBox.x invoiceBox == 0 /\ PdfBox.width invoiceBox == 790 /\
     PdfBox.height invoiceBox == 355.5)%Q /\
    ((839.375 <= H)%Q -> (PdfBox.top invoiceBox == PdfBox.bottom labelBox)%Q) /\
    ((H <= 839.375)%Q -> (PdfBox.bottom invoiceBox == 0)%Q).
Proof.
  intros W H HW. eexists _, _.
  split; [exact (splitEcomLabelFixed_nonempty (num := Q) page rest App.meeshoConfig)|].
  unfold PdfBox.bottom, PdfBox.top. simpl. fold W H. q_literals.
  assert (Hl : (490 * (W / 800) == 483.875)%Q) by (rewrite HW; reflexivity).
  assert (Hi : (360 * (W / 800) == 355.5)%Q) by (rewrite HW; reflexivity).
  split; [rewrite HW; reflexivity|].
  split; [|split; [|split]].
  - repeat split; try reflexivity; try assumption. ring.
  - repeat split; try reflexivity; assumption.
  - intros Hge.
    destruct (Q.max_spec 0 (H - 490 * (W / 800) - 360 * (W / 800))) as [[_ ->]|[Hle ->]].
    + ring.
    + rewrite Hl, Hi in *. lra.
  - intros Hle.
    destruct (Q.max_spec 0 (H - 490 * (W / 800) - 360 * (W / 800))) as [[Hlt ->]|[_ ->]].
    + rewrite Hl, Hi in *. lra.
    + reflexivity.
Qed.

Lemma splitEcomLabelFixed_meesho_witness :
  exists labelBox invoiceBox,
    splitEcomLabelFixed (num := Q) Instances.meeshoDoc App.meeshoConfig =
      Some (mkDoc [mkPage labelBox (Some labelBox); mkPage invoiceBox (Some invoiceBox);
                   Instances.a4; Instances.blankPage 612 792]) /\
    (PdfBox.height labelBox == 483.875 /\ PdfBox.top labelBox == 842)%Q /\
    (PdfBox.height invoiceBox == 355.5)%Q /\
    (PdfBox.top invoiceBox == PdfBox.bottom labelBox)%Q.
Proof.
  destruct (splitEcomLabelFixed_meesho (Instances.blankPage 790 842)
              [Instances.a4; Instances.blankPage 612 792])
    as (labelBox & invoiceBox & Hrun & _ & (_ & _ & Hlh & Hlt) & (_ & _ & Hih) & Hbeneath & _).
  { reflexivity. }
  exists labelBox, invoiceBox. split; [exact Hrun|].
  split; [split; assumption|]. split; [assumption|].
  apply Hbeneath. unfold Qle. simpl. lia.
Defined.

(** C8 as the specification states it fails twice: on a 790 by 842 pt
    first page the label band is not 484.875 pt high (it is 483.875), and
    on a 790 by 800 pt first page the invoice band does not lie directly
    beneath the label band (it starts at 0 and overlaps it). *)
Lemma splitEcomLabelFixed_meesho_not_as_stated :
  (~ exists labelPage invoicePage others labelBox,
       splitEcomLabelFixed (num := Q) Instances.meeshoDoc App.meeshoConfig =
         Some (mkDoc (labelPage :: invoicePage :: others)) /\
       cropBox labelPage = Some labelBox /\
       (PdfBox.height labelBox == 484.875)%Q) /\
  (~ exists labelPage invoicePage others labelBox invoiceBox,
       splitEcomLabelFixed (num := Q) Instances.shortDoc App.meeshoConfig =
         Some (mkDoc (labelPage :: invoicePage :: others)) /\
       cropBox labelPage = Some labelBox /\
       cropBox invoicePage = Some invoiceBox /\
       (PdfBox.top invoiceBox == PdfBox.bottom labelBox)%Q).
Proof.
  split.
  - intros (labelPage & invoicePage & others & labelBox & Hrun & Hcrop & Hh).
    vm_compute in Hrun. injection Hrun as <- <- <-.
    simpl in Hcrop. injection Hcrop as <-.
    vm_compute in Hh. discriminate Hh.
  - intros (labelPage & invoicePage & others & labelBox & invoiceBox
            & Hrun & Hl & Hi & Hb).
    vm_compute in Hrun. injection Hrun as <- <- <-.
    simpl in Hl, Hi. injection Hl as <-. injection Hi as <-.
    vm_compute in Hb. discriminate Hb.
Qed.

(* ===================================================================== *)
(** * Properties of the crop interaction *)
(* ===================================================================== *)

Section PointerUp.
Context {num : Type} `{JsNumber num}.

(** Pointer-up always ends the drag session. *)
Lemma handleMouseUp_ends_drag (r st : Cropper.State num) :
  let st' := fst (Cropper.handleMouseUp r st) in
  Cropper.isDragging st' = false /\ Cropper.dragType st' = None /\
  Cropper.resizeHandle st' = None /\ Cropper.startPos st' = Cropper.startPos st.
Proof.
  unfold Cropper.handleMouseUp.
  destruct (Cropper.dragType r) as [[] |], (Cropper.box r) as [b|]; simpl;
    try destruct (Cropper.tooSmall b); simpl; done.
Qed.

(** Pointer-up in a create-drag, by the outcome of the size test: the
    test reads the box of the listener's render, and a box that passes is
    left as it is now. *)
Lemma handleMouseUp_create_cases (r st : Cropper.State num) (b : CropBox.t num) :
  Cropper.dragType r = Some create ->
  Cropper.box r = Some b ->
  Cropper.handleMouseUp r st =
    if Cropper.tooSmall b
    then (Cropper.mkState None false None None (Cropper.startPos st), [None])
    else (Cropper.mkState (Cropper.box st) false None None (Cropper.startPos st), []).
Proof.
  intros Hcreate Hbox. unfold Cropper.handleMouseUp.
  rewrite Hcreate, Hbox. by destruct (Cropper.tooSmall b).
Qed.

End PointerUp.

Section ExactNumbers.
Local Open Scope Q_scope.

Lemma Q_lt_spec (a b : Q) : (a <? b)%js = true <-> a < b.
Proof.
  simpl. rewrite negb_true_iff.
  destruct (Qle_bool b a) eqn:Hle.
  - apply Qle_bool_iff in Hle. split; [discriminate|]. intros Hlt. lra.
  - split; [intros _|done].
    apply Qnot_le_lt. intros Hba. apply Qle_bool_iff in Hba. congruence.
Qed.

Lemma tooSmall_spec (b : CropBox.t Q) :
  Cropper.tooSmall b = true <-> CropBox.width b < 5 \/ CropBox.height b < 5.
Proof.
  unfold Cropper.tooSmall. rewrite orb_true_iff, !Q_lt_spec. reflexivity.
Qed.

End ExactNumbers.

(** C5: the code at a failing input.  The pointer-up listener on [window]
    is the [handleMouseUp] of the last render whose effect has run, and
    its size test reads the box of that render.  When the component has
    re-rendered since the last pointer move, pointer-up does what the
    specification says: the 200 by 300 box drawn from (500, 500) to
    (700, 800) is kept and nothing is reported, the 3 by 100 box is
    replaced by null and null is reported.  When pointer-up comes before
    that re-render, the listener still tests the box of the render before
    the move: the 200 by 300 box is tested as the 0 by 0 box of the press,
    discarded, and null is reported; and the 2 by 1 box drawn after a 200
    by 300 one is tested as 200 by 300 and kept.  The same values come out
    in binary64. *)
Theorem pointer_up_tests_the_rendered_box :
  (forall (r st : Cropper.State Q) (b : CropBox.t Q),
     Cropper.dragType r = Some create ->
     Cropper.box r = Some b ->
     Cropper.handleMouseUp r st =
       if Cropper.tooSmall b
       then (Cropper.mkState None false None None (Cropper.startPos st), [None])
       else (Cropper.mkState (Cropper.box st) false None None (Cropper.startPos st), [])) /\
  (* re-rendered before the release: as specified *)
  (let run := Session.steps (num := Q) Instances.props
                (Scenarios.draw (700, 800)%Z ++ [Session.Render; Session.PointerUp])
                (Session.mount None) in
   Cropper.box (Session.current (fst run)) = Some (CropBox.mk 200 400 200 300)%Q /\
   Cropper.phase (Session.current (fst run)) = Cropper.Selected /\
   snd run = [Some (CropBox.mk 200 400 0 0); Some (CropBox.mk 200 400 200 300)]%Q) /\
  (let run := Session.steps (num := Q) Instances.props
                (Scenarios.draw (503, 600)%Z ++ [Session.Render; Session.PointerUp])
                (Session.mount None) in
   Cropper.box (Session.current (fst run)) = None /\
   Cropper.phase (Session.current (fst run)) = Cropper.Idle /\
   snd run = [Some (CropBox.mk 200 400 0 0); Some (CropBox.mk 200 400 3 100); None]%Q) /\
  (* released before the re-render: a 200 by 300 box is discarded *)
  (let run := Session.steps (num := Q) Instances.props
                (Scenarios.draw (700, 800)%Z ++ [Session.PointerUp])
                (Session.mount None) in
   Cropper.box (Session.current (fst run)) = None /\
   Cropper.phase (Session.current (fst run)) = Cropper.Idle /\
   snd run = [Some (CropBox.mk 200 400 0 0); Some (CropBox.mk 200 400 200 300); None]%Q) /\
  (* released before the re-render: a 2 by 1 box is kept *)
  (let run := Session.steps (num := Q) Instances.props
                (Scenarios.draw (700, 800)%Z
                 ++ [Session.Render;
                     Session.PointerMove (Some Instances.container) (Scenarios.at_ 502 501);
                     Session.PointerUp])
                (Session.mount None) in
   Cropper.box (Session.current (fst run)) = Some (CropBox.mk 200 400 2 1)%Q /\
   Cropper.phase (Session.current (fst run)) = Cropper.Selected /\
   snd run = [Some (CropBox.mk 200 400 0 0); Some (CropBox.mk 200 400 200 300);
              Some (CropBox.mk 200 400 2 1)]%Q) /\
  (* binary64 *)
  (let run := Session.steps (num := float) Instances.props
                (Scenarios.draw (700, 800)%Z ++ [Session.PointerUp])
                (Session.mount None) in
   Cropper.box (Session.current (fst run)) = None /\
   snd run = [Some (CropBox.mk 200 400 0 0); Some (CropBox.mk 200 400 200 300); None]%float) /\
  (let run := Session.steps (num := float) Instances.props
                (Scenarios.draw (700, 800)%Z
                 ++ [Session.Render;
                     Session.PointerMove (Some Instances.container) (Scenarios.at_ 502 501);
                     Session.PointerUp])
                (Session.mount None) in
   Cropper.box (Session.current (fst run)) = Some (CropBox.mk 200 400 2 1)%float /\
   snd run = [Some (CropBox.mk 200 400 0 0); Some (CropBox.mk 200 400 200 300);
              Some (CropBox.mk 200 400 2 1)]%float).
Proof.
  split; [intros r st b Hcreate Hbox; exact (handleMouseUp_create_cases r st b Hcreate Hbox)|].
  repeat split; vm_compute; reflexivity.
Qed.

Section ExactInteraction.
Local Open Scope Q_scope.
Variables (p : Cropper.Props Q) (rect : Cropper.DOMRect Q) (e : Cropper.MouseEvent Q).

Local Abbreviation W := (Cropper.width p).
Local Abbreviation H := (Cropper.height p).

(** During a drag every pointer move that computes a box stores it and
    reports it through the change callback. *)
Lemma handleMouseMove_emits (r st : Cropper.State Q) (type : DragType) (b : CropBox.t Q) :
  Cropper.isDragging r = true ->
  Cropper.dragType r = Some type ->
  Cropper.nextBoxOf p r rect e type st = Some b ->
  Cropper.handleMouseMove p r (Some rect) e st =
    (Cropper.mkState (Some b) (Cropper.isDragging st) (Cropper.dragType st)
       (Cropper.resizeHandle st) (Cropper.startPos st), [Some b]).
Proof.
  intros Hdrag Htype Hnext. unfold Cropper.handleMouseMove.
  by rewrite Hdrag, Htype, Hnext.
Qed.

(** Create: the marquee between the start point and the clamped pointer
    stays inside the page, provided the drag started inside it. *)
Lemma create_move_inside (r st : Cropper.State Q) :
  0 <= Cropper.logicalStartX (Cropper.startPos st) <= W ->
  0 <= Cropper.logicalStartY (Cropper.startPos st) <= H ->
  exists b,
    Cropper.nextBoxOf p r rect e create st = Some b /\ insidePage W H b.
Proof.
  intros Hx Hy. eexists. split; [reflexivity|].
  unfold insidePage. q_ops.
  repeat split; q_minmax; lra.
Qed.

(** Move: the translated box keeps its size and stays inside the page,
    provided it fits into the page. *)
Lemma move_move_inside (r st : Cropper.State Q) (b0 : CropBox.t Q) :
  Cropper.box r = Some b0 ->
  0 <= CropBox.width b0 <= W ->
  0 <= CropBox.height b0 <= H ->
  exists b,
    Cropper.nextBoxOf p r rect e move st = Some b /\
    CropBox.width b = CropBox.width b0 /\ CropBox.height b = CropBox.height b0 /\
    insidePage W H b.
Proof.
  intros Hbox Hw Hh. unfold Cropper.nextBoxOf. rewrite Hbox.
  eexists. split; [reflexivity|]. split; [done|]. split; [done|].
  unfold insidePage. q_ops.
  repeat split; q_minmax; lra.
Qed.

Variables (s : Cropper.StartPos Q) (dx dy : Q) (b0 : CropBox.t Q).

(** East handle: the west edge and the vertical extent are untouched, the
    width is at least 5, and the east edge stays on the page when the
    west edge leaves room for the minimum width. *)
Lemma resize_east :
  let b := Cropper.resizeBox p (Some "e"%string) s dx dy b0 in
  CropBox.x b = CropBox.x b0 /\ CropBox.y b = CropBox.y b0 /\
  CropBox.height b = CropBox.height b0 /\
  5 <= CropBox.width b /\
  (CropBox.x b0 + 5 <= W -> CropBox.x b + CropBox.width b <= W).
Proof.
  q_ops. repeat split; [|intros Hroom]; q_minmax; lra.
Qed.

(** South handle: likewise for the north edge and the height. *)
Lemma resize_south :
  let b := Cropper.resizeBox p (Some "s"%string) s dx dy b0 in
  CropBox.x b = CropBox.x b0 /\ CropBox.y b = CropBox.y b0 /\
  CropBox.width b = CropBox.width b0 /\
  5 <= CropBox.height b /\
  (CropBox.y b0 + 5 <= H -> CropBox.y b + CropBox.height b <= H).
Proof.
  q_ops. repeat split; [|intros Hroom]; q_minmax; lra.
Qed.

(** West handle: the width is at least 5 and [x] is not negative; the
    east edge of the drag's start is kept as long as the new west edge is
    not clamped at 0. *)
Lemma resize_west :
  let b := Cropper.resizeBox p (Some "w"%string) s dx dy b0 in
  let delta := Qmin (Cropper.boxW s - 5) dx in
  CropBox.y b = CropBox.y b0 /\ CropBox.height b = CropBox.height b0 /\
  5 <= CropBox.width b /\ 0 <= CropBox.x b /\
  (0 <= Cropper.boxX s + delta ->
   CropBox.x b + CropBox.width b == Cropper.boxX s + Cropper.boxW s).
Proof.
  q_ops. repeat split; [| |intros Hroom]; q_minmax; lra.
Qed.

(** North handle: the height is at least 5 and [y] is not negative. *)
Lemma resize_north :
  let b := Cropper.resizeBox p (Some "n"%string) s dx dy b0 in
  CropBox.x b = CropBox.x b0 /\ CropBox.width b = CropBox.width b0 /\
  5 <= CropBox.height b /\ 0 <= CropBox.y b.
Proof.
  q_ops. repeat split; q_minmax; lra.
Qed.

End ExactInteraction.

(** The bounds of the three theorems below are bounds of the formulas,
    read in exact arithmetic.  In binary64 each operation rounds, and a
    bound can be missed by one unit in the last place: on the preview of
    an A4 page, 892.92 wide, the box of width 300.7 moved against the
    right edge is reported with [x + width], as binary64 adds them,
    above 892.92. *)
Lemma move_to_right_edge_binary64 :
  exists b,
    snd (Cropper.handleMouseMove (num := float) Scenarios.a4Preview Scenarios.movingBox
           (Some Instances.container) (Scenarios.at_ 5000 100) Scenarios.movingBox)
      = [Some b] /\
    CropBox.width b = 300.7%float /\
    (Cropper.width Scenarios.a4Preview <? CropBox.x b + CropBox.width b)%js = true.
Proof.
  eexists. split; [vm_compute; reflexivity|]. split; vm_compute; reflexivity.
Qed.

(** X1.  Create-drag, in exact arithmetic: every pointer move, whichever
    render's listener runs, reports and stores a box inside
    [0, pageWidth] x [0, pageHeight] with non-negative size, provided the
    drag started inside the page. *)
Theorem pointer_move_create_stays_inside (p : Cropper.Props Q) (rect : Cropper.DOMRect Q)
    (e : Cropper.MouseEvent Q) (r st : Cropper.State Q) :
  (0 < Cropper.zoom p)%Q ->
  Cropper.isDragging r = true ->
  Cropper.dragType r = Some create ->
  (0 <= Cropper.logicalStartX (Cropper.startPos st) <= Cropper.width p)%Q ->
  (0 <= Cropper.logicalStartY (Cropper.startPos st) <= Cropper.height p)%Q ->
  exists b,
    snd (Cropper.handleMouseMove p r (Some rect) e st) = [Some b] /\
    Cropper.box (fst (Cropper.handleMouseMove p r (Some rect) e st)) = Some b /\
    insidePage (Cropper.width p) (Cropper.height p) b.
Proof.
  intros _ Hdrag Htype Hx Hy.
  destruct (create_move_inside p rect e r st Hx Hy) as (b & Hnext & Hin).
  exists b. rewrite (handleMouseMove_emits p rect e r st create b Hdrag Htype Hnext).
  done.
Qed.

Lemma pointer_move_create_stays_inside_witness :
  exists b,
    Instances.dragOnce (num := Q) None create None (500, 500)%Z (1400, 90)%Z = [Some b] /\
    insidePage 800 1000 b.
Proof.
  destruct (pointer_move_create_stays_inside Instances.props Instances.container
              (Cropper.mkEvent 1400 90)%Q
              (Cropper.mkState (Some (CropBox.mk 200 400 0 0)%Q) true (Some create) None
                 (Cropper.mkStart 500 500 200 400 0 0 0 0)%Q)
              (Cropper.mkState (Some (CropBox.mk 200 400 0 0)%Q) true (Some create) None
                 (Cropper.mkStart 500 500 200 400 0 0 0 0)%Q))
    as (b & Hemit & _ & Hin).
  - reflexivity.
  - reflexivity.
  - reflexivity.
  - simpl. split; unfold Qle; simpl; lia.
  - simpl. split; unfold Qle; simpl; lia.
  - exists b. split; [exact Hemit | exact Hin].
Defined.

(** X2.  Move-drag, in exact arithmetic: every pointer move reports and
    stores the box its listener's render showed, translated: a box of the
    same size inside [0, pageWidth] x [0, pageHeight], provided that box
    fits into the page. *)
Theorem pointer_move_move_stays_inside (p : Cropper.Props Q) (rect : Cropper.DOMRect Q)
    (e : Cropper.MouseEvent Q) (r st : Cropper.State Q) (b0 : CropBox.t Q) :
  (0 < Cropper.zoom p)%Q ->
  Cropper.isDragging r = true ->
  Cropper.dragType r = Some move ->
  Cropper.box r = Some b0 ->
  (0 <= CropBox.width b0 <= Cropper.width p)%Q ->
  (0 <= CropBox.height b0 <= Cropper.height p)%Q ->
  exists b,
    snd (Cropper.handleMouseMove p r (Some rect) e st) = [Some b] /\
    Cropper.box (fst (Cropper.handleMouseMove p r (Some rect) e st)) = Some b /\
    CropBox.width b = CropBox.width b0 /\ CropBox.height b = CropBox.height b0 /\
    insidePage (Cropper.width p) (Cropper.height p) b.
Proof.
  intros _ Hdrag Htype Hbox Hw Hh.
  destruct (move_move_inside p rect e r st b0 Hbox Hw Hh) as (b & Hnext & Hsw & Hsh & Hin).
  exists b. rewrite (handleMouseMove_emits p rect e r st move b Hdrag Htype Hnext).
  done.
Qed.

Lemma pointer_move_move_stays_inside_witness :
  exists b,
    Instances.dragOnce (num := Q) (Some Instances.wideBox) move None
      (500, 500)%Z (1500, 5000)%Z = [Some b] /\
    insidePage 800 1000 b.
Proof.
  destruct (pointer_move_move_stays_inside Instances.props Instances.container
              (Cropper.mkEvent 1500 5000)%Q
              (Cropper.mkState (Some Instances.wideBox) true (Some move) None
                 (Cropper.mkStart 500 500 200 400 100 200 650 400)%Q)
              (Cropper.mkState (Some Instances.wideBox) true (Some move) None
                 (Cropper.mkStart 500 500 200 400 100 200 650 400)%Q)
              Instances.wideBox)
    as (b & Hemit & _ & _ & _ & Hin).
  - reflexivity.
  - reflexivity.
  - reflexivity.
  - reflexivity.
  - simpl. split; unfold Qle; simpl; lia.
  - simpl. split; unfold Qle; simpl; lia.
  - exists b. split; [exact Hemit | exact Hin].
Defined.

(** X3.  Resize by the east or the south handle, in exact arithmetic: of
    the box its listener's render showed, the opposite (west, north) edge
    and the other dimension are untouched, the resized dimension is at
    least 5, and the box does not leave the page as long as the fixed edge
    leaves room for the minimum size. *)
Theorem resize_east_south_keeps_opposite_edge (p : Cropper.Props Q)
    (rect : Cropper.DOMRect Q) (e : Cropper.MouseEvent Q) (r st : Cropper.State Q)
    (b0 : CropBox.t Q) :
  (0 < Cropper.zoom p)%Q ->
  Cropper.isDragging r = true ->
  Cropper.dragType r = Some resize ->
  Cropper.box r = Some b0 ->
  exists b,
    snd (Cropper.handleMouseMove p r (Some rect) e st) = [Some b] /\
    Cropper.box (fst (Cropper.handleMouseMove p r (Some rect) e st)) = Some b /\
    (Cropper.resizeHandle r = Some "e"%string ->
       CropBox.x b = CropBox.x b0 /\ CropBox.y b = CropBox.y b0 /\
       CropBox.height b = CropBox.height b0 /\ (5 <= CropBox.width b)%Q /\
       ((CropBox.x b0 + 5 <= Cropper.width p)%Q ->
        (CropBox.x b + CropBox.width b <= Cropper.width p)%Q)) /\
    (Cropper.resizeHandle r = Some "s"%string ->
       CropBox.x b = CropBox.x b0 /\ CropBox.y b = CropBox.y b0 /\
       CropBox.width b = CropBox.width b0 /\ (5 <= CropBox.height b)%Q /\
       ((CropBox.y b0 + 5 <= Cropper.height p)%Q ->
        (CropBox.y b + CropBox.height b <= Cropper.height p)%Q)).
Proof.
  intros _ Hdrag Htype Hbox.
  eexists. rewrite (handleMouseMove_emits p rect e r st resize _ Hdrag Htype)
    by (unfold Cropper.nextBoxOf; rewrite Hbox; reflexivity).
  split; [reflexivity|]. split; [reflexivity|]. split; intros ->.
  - apply resize_east.
  - apply resize_south.
Qed.

Lemma resize_east_south_keeps_opposite_edge_witness :
  exists b,
    Instances.dragOnce (num := Q) (Some Instances.wideBox) resize (Some "e"%string)
      (1050, 500)%Z (1500, 500)%Z = [Some b] /\
    CropBox.x b = 100%Q /\ (CropBox.x b + CropBox.width b <= 800)%Q.
Proof.
  destruct (resize_east_south_keeps_opposite_edge Instances.props Instances.container
              (Cropper.mkEvent 1500 500)%Q
              (Cropper.mkState (Some Instances.wideBox) true (Some resize) (Some "e"%string)
                 (Cropper.mkStart 1050 500 750 400 100 200 650 400)%Q)
              (Cropper.mkState (Some Instances.wideBox) true (Some resize) (Some "e"%string)
                 (Cropper.mkStart 1050 500 750 400 100 200 650 400)%Q)
              Instances.wideBox)
    as (b & Hemit & _ & Heast & _).
  - reflexivity.
  - reflexivity.
  - reflexivity.
  - reflexivity.
  - destruct (Heast eq_refl) as (Hx & _ & _ & _ & Hfit).
    exists b. split; [exact Hemit|]. split; [exact Hx|].
    apply Hfit. unfold Qle. simpl. lia.
Defined.

(** X4.  Resize by any of the eight handles never makes a dimension it
    resizes smaller than 5, and never makes [x] or [y] negative when it
    recomputes them (west and north). *)
Theorem resize_min_size (p : Cropper.Props Q) (s : Cropper.StartPos Q) (dx dy : Q)
    (b0 : CropBox.t Q) (h : string) :
  h ∈ handles ->
  let b := Cropper.resizeBox p (Some h) s dx dy b0 in
  (includes h "e" = true \/ includes h "w" = true -> (5 <= CropBox.width b)%Q) /\
  (includes h "s" = true \/ includes h "n" = true -> (5 <= CropBox.height b)%Q) /\
  (includes h "w" = true -> (0 <= CropBox.x b)%Q) /\
  (includes h "n" = true -> (0 <= CropBox.y b)%Q).
Proof.
  intros Hh b. subst b. unfold handles in Hh.
  repeat (apply elem_of_cons in Hh as [-> | Hh]); [..|by apply elem_of_nil in Hh];
    q_ops; (repeat split; [intros [Hc | Hc] | intros [Hc | Hc] | intros Hc | intros Hc]);
    try discriminate Hc; q_minmax; lra.
Qed.

Lemma resize_min_size_witness :
  (5 <= CropBox.width (Cropper.resizeBox Instances.props (Some "nw"%string)
                         (Cropper.mkStart 400 300 100 200 100 200 300 400) 1000 1000
                         Instances.selectedBox) /\
   5 <= CropBox.height (Cropper.resizeBox Instances.props (Some "nw"%string)
                          (Cropper.mkStart 400 300 100 200 100 200 300 400) 1000 1000
                          Instances.selectedBox))%Q.
Proof.
  destruct (resize_min_size Instances.props
              (Cropper.mkStart 400 300 100 200 100 200 300 400)%Q 1000%Q 1000%Q
              Instances.selectedBox "nw"%string) as (Hw & Hh & _).
  - unfold handles. apply elem_of_cons. left. reflexivity.
  - split; [apply Hw; right; reflexivity | apply Hh; right; reflexivity].
Defined.

(** X5.  Resize by the west handle, in exact arithmetic: the box keeps
    the east edge it had when the drag started, as long as the pointer has
    not pushed the west edge below 0. *)
Theorem resize_west_keeps_east_edge_unless_clamped (p : Cropper.Props Q)
    (s : Cropper.StartPos Q) (dx dy : Q) (b0 : CropBox.t Q) :
  (0 <= Cropper.boxX s + Qmin (Cropper.boxW s - 5) dx)%Q ->
  let b := Cropper.resizeBox p (Some "w"%string) s dx dy b0 in
  (CropBox.x b + CropBox.width b == Cropper.boxX s + Cropper.boxW s)%Q.
Proof.
  intros Hroom. apply resize_west. exact Hroom.
Qed.

Lemma resize_west_keeps_east_edge_unless_clamped_witness :
  (CropBox.x (Cropper.resizeBox Instances.props (Some "w"%string)
                (Cropper.mkStart 400 500 100 400 100 200 650 400) (-50) 0 Instances.wideBox)
   + CropBox.width (Cropper.resizeBox Instances.props (Some "w"%string)
                      (Cropper.mkStart 400 500 100 400 100 200 650 400) (-50) 0
                      Instances.wideBox)
   == 100 + 650)%Q.
Proof.
  apply (resize_west_keeps_east_edge_unless_clamped Instances.props
           (Cropper.mkStart 400 500 100 400 100 200 650 400)%Q (-50)%Q 0%Q Instances.wideBox).
  vm_compute. discriminate.
Defined.

(** C2: the code at a failing input.  The box [{x:100, y:200, width:300,
    height:400}] has its south edge at 600.  Dragging its north handle 10
    units down reports [{x:100, y:410, width:300, height:390}], whose
    south edge is at 800: the new [y] is computed from the start height
    ([boxH]) where the start [y] ([boxY]) belongs.  The same values come
    out in binary64. *)
Theorem resize_north_moves_south_edge :
  exists b,
    Instances.dragOnce (num := Q) (Some Instances.selectedBox) resize (Some "n"%string)
      (550, 300)%Z (550, 310)%Z = [Some b] /\
    b = (CropBox.mk 100 410 300 390)%Q /\
    (CropBox.y Instances.selectedBox + CropBox.height Instances.selectedBox == 600)%Q /\
    (CropBox.y b + CropBox.height b == 800)%Q /\
    ~ (CropBox.y b + CropBox.height b
       == CropBox.y Instances.selectedBox + CropBox.height Instances.selectedBox)%Q /\
    Instances.dragOnce (num := float) (Some Instances.selectedBox) resize (Some "n"%string)
      (550, 300)%Z (550, 310)%Z = [Some (CropBox.mk 100 410 300 390)%float].
Proof.
  exists (CropBox.mk 100 410 300 390)%Q.
  split; [vm_compute; reflexivity|]. split; [reflexivity|].
  split; [reflexivity|]. split; [reflexivity|].
  split; [intros Hsame; vm_compute in Hsame; discriminate|].
  vm_compute. reflexivity.
Qed.

(** C3: the code at a failing input.  On an 800 by 1000 page the box
    [{x:100, y:200, width:650, height:400}] lies inside the page.
    Dragging its west handle 200 units to the left reports [{x:0, y:200,
    width:850, height:400}], whose east edge 850 is beyond the page width:
    [x] is clamped at 0 while the width keeps growing.  The same values
    come out in binary64. *)
Theorem resize_west_leaves_page :
  exists b,
    insidePage 800 1000 Instances.wideBox /\
    Instances.dragOnce (num := Q) (Some Instances.wideBox) resize (Some "w"%string)
      (400, 500)%Z (200, 500)%Z = [Some b] /\
    b = (CropBox.mk 0 200 850 400)%Q /\
    ~ (CropBox.x b + CropBox.width b <= 800)%Q /\
    ~ insidePage 800 1000 b /\
    Instances.dragOnce (num := float) (Some Instances.wideBox) resize (Some "w"%string)
      (400, 500)%Z (200, 500)%Z = [Some (CropBox.mk 0 200 850 400)%float].
Proof.
  exists (CropBox.mk 0 200 850 400)%Q.
  split; [unfold insidePage; simpl; repeat split; unfold Qle; simpl; lia|].
  split; [vm_compute; reflexivity|]. split; [reflexivity|].
  assert (Hout : ~ (0 + 850 <= 800)%Q)
    by (intros Hle; vm_compute in Hle; apply Hle; reflexivity).
  split; [exact Hout|]. split; [|vm_compute; reflexivity].
  intros (_ & _ & Hx & _). exact (Hout Hx).
Qed.

(* ===================================================================== *)
(** * Properties of the orchestrator *)
(* ===================================================================== *)

Section SmartCrop.
Context {num : Type} `{JsNumber num}.
Variables (ai : Gemini.Collaborator num)
          (renderPDFPages : App.File num -> Settled (list (PDFPageData.t num))).

(** What the two detection functions write to the console: nothing, or
    the one message of their catch block, and then they resolve null. *)
Lemma detectContentBounds_log (imageDataUrl : string) :
  snd (Gemini.detectContentBounds ai imageDataUrl) = [] \/
  Gemini.detectContentBounds ai imageDataUrl
  = (fulfilled None, ["Failed to parse Gemini response"%string]).
Proof.
  unfold Gemini.detectContentBounds.
  destruct (Gemini.generateContent ai Gemini.ContentBounds imageDataUrl) as [text|reason];
    [|by left].
  destruct (Gemini.jsonStrOf ai text) as [jsonStr|]; [|by left].
  destruct (Gemini.parseBounds ai jsonStr); [by left | by right].
Qed.

Lemma findTaxInvoiceAnchor_log (imageDataUrl : string) :
  snd (Gemini.findTaxInvoiceAnchor ai imageDataUrl) = [] \/
  Gemini.findTaxInvoiceAnchor ai imageDataUrl
  = (fulfilled None, ["Failed to detect invoice anchor"%string]).
Proof.
  unfold Gemini.findTaxInvoiceAnchor.
  destruct (Gemini.generateContent ai Gemini.TaxInvoiceAnchor imageDataUrl) as [text|reason];
    [|by left].
  destruct (Gemini.jsonStrOf ai text) as [jsonStr|]; [|by left].
  destruct (Gemini.parseAnchorY ai jsonStr); [by left | by right].
Qed.

(** Smart crop with no portal active, when detection yields null: only
    the busy flag is written; the log holds what the detection wrote to
    the console and nothing else. *)
Lemma handleSmartCrop_null_bounds (st : App.State num) (f : App.File num)
    (page : PDFPageData.t num) :
  App.file st = Some f ->
  App.activePortal st = App.none ->
  App.pages st !! App.currentPageIdx st = Some page ->
  fst (Gemini.detectContentBounds ai (PDFPageData.canvasUrl page)) = fulfilled None ->
  App.run (App.handleSmartCrop ai renderPDFPages) st
  = (App.withIsAnalyzing false st,
     App.console_error <$> snd (Gemini.detectContentBounds ai (PDFPageData.canvasUrl page))).
Proof.
  intros Hfile Hportal Hpage Hnull.
  unfold App.run, App.handleSmartCrop.
  rewrite Hfile, Hportal, Hpage.
  unfold App.bind, App.try_catch_finally, App.setIsAnalyzing, App.update, App.awaitLogged.
  rewrite Hnull. reflexivity.
Qed.

(** Portal split through the detection service (any portal but Meesho),
    when the anchor detection yields null: only the busy flag is written;
    after what the detection wrote to the console, the error is logged and
    an alert is shown. *)
Lemma handlePortalAutoSplit_null_anchor (st : App.State num) (f : App.File num)
    (page : PDFPageData.t num) (others : list (PDFPageData.t num)) :
  App.file st = Some f ->
  App.activePortal st = App.amazon \/ App.activePortal st = App.flipkart ->
  App.pages st = page :: others ->
  fst (Gemini.findTaxInvoiceAnchor ai (PDFPageData.canvasUrl page)) = fulfilled None ->
  App.run (App.handleSmartCrop ai renderPDFPages) st =
    (App.withIsAnalyzing false st,
     portalSplitFailure (snd (Gemini.findTaxInvoiceAnchor ai (PDFPageData.canvasUrl page)))).
Proof.
  intros Hfile Hportal Hpages Hnull.
  unfold App.run, App.handleSmartCrop, App.handlePortalAutoSplit, portalSplitFailure.
  rewrite Hfile, Hpages.
  unfold App.bind, App.try_catch_finally, App.setIsAnalyzing, App.update, App.awaitLogged.
  destruct Hportal as [-> | ->]; rewrite Hnull; simpl; by rewrite <- app_assoc.
Qed.

(** A [finally] block that clears the flag leaves it cleared, however
    the body and the handler complete. *)
Lemma try_catch_finally_clears (body : App.Act num unit)
    (handler : string -> App.Act num unit) (st : App.State num) (log : list App.Effect) :
  App.isAnalyzing
    (snd (fst (App.try_catch_finally body handler (App.setIsAnalyzing false) st log)))
  = false.
Proof.
  unfold App.try_catch_finally.
  destruct (body st log) as [[[] st1] log1]; simpl; [reflexivity|].
  destruct (handler error st1 log1) as [[c st2] log2]. reflexivity.
Qed.

Lemma run_state (handler : App.State num -> App.Act num unit) (st : App.State num) :
  fst (App.run handler st) = snd (fst (handler st st [])).
Proof.
  unfold App.run. by destruct (handler st st []) as [[c st'] log].
Qed.

(** Whatever the collaborators do, [handleSmartCrop] either returns at a
    guard without touching anything or ends with the busy flag cleared. *)
Lemma handleSmartCrop_clears_busy (st : App.State num) :
  App.run (App.handleSmartCrop ai renderPDFPages) st = (st, []) \/
  App.isAnalyzing (fst (App.run (App.handleSmartCrop ai renderPDFPages) st)) = false.
Proof.
  rewrite run_state. unfold App.run, App.handleSmartCrop, App.handlePortalAutoSplit.
  destruct (App.file st) as [f|]; [|left; reflexivity].
  destruct (App.activePortal st);
    try (destruct (App.pages st) as [|firstPage others]; [left; reflexivity|right];
         apply try_catch_finally_clears).
  destruct (App.pages st !! App.currentPageIdx st) as [page|]; [right|left; reflexivity].
  apply try_catch_finally_clears.
Qed.

End SmartCrop.

(** C9: the code at a failing input.  A document is loaded, no portal is
    active, and the detection yields null, once because the model's reply
    is empty and once because it does not parse.  Smart crop then ends
    with every cell as it was and with no alert: the user sees nothing (the
    console holds at most the detection's own "Failed to parse Gemini
    response").  On the same state with a portal active the same handler
    goes through [handlePortalAutoSplit], whose catch block shows the alert
    "Auto processing failed. Please adjust manually.". *)
Theorem smart_crop_null_shows_no_alert :
  (Gemini.detectContentBounds (num := Q) Instances.silentAi "data:image/png;base64,AA"
   = (fulfilled None, []) /\
   App.run (App.handleSmartCrop (num := Q) Instances.silentAi Instances.renderer)
     (Instances.loaded App.none)
   = (Instances.loaded App.none, [])) /\
  (Gemini.detectContentBounds (num := Q) Scenarios.garbledAi "data:image/png;base64,AA"
   = (fulfilled None, ["Failed to parse Gemini response"%string]) /\
   App.run (App.handleSmartCrop (num := Q) Scenarios.garbledAi Instances.renderer)
     (Instances.loaded App.none)
   = (Instances.loaded App.none, [App.console_error "Failed to parse Gemini response"])) /\
  (forall ai : Gemini.Collaborator Q,
     fst (Gemini.detectContentBounds ai "data:image/png;base64,AA") = fulfilled None ->
     existsb App.isAlert
       (snd (App.run (App.handleSmartCrop ai Instances.renderer) (Instances.loaded App.none)))
     = false) /\
  App.run (App.handleSmartCrop (num := Q) Instances.silentAi Instances.renderer)
    (Instances.loaded App.flipkart)
  = (Instances.loaded App.flipkart,
     [App.console_error "Portal split error:";
      App.alert "Auto processing failed. Please adjust manually."]).
Proof.
  split; [split; reflexivity|]. split; [split; reflexivity|]. split; [|reflexivity].
  intros ai Hnull.
  rewrite (handleSmartCrop_null_bounds ai Instances.renderer (Instances.loaded App.none)
             _ _ eq_refl eq_refl eq_refl Hnull).
  simpl. destruct (detectContentBounds_log ai "data:image/png;base64,AA") as [-> | ->];
    reflexivity.
Qed.

(** X30.  A detection that yields null changes nothing but the analyzing
    flag.  When [detectContentBounds] yields null in a smart crop, every
    cell keeps its value and the log holds only what the detection wrote to
    the console.  When [findTaxInvoiceAnchor] yields null in a portal
    split, every cell keeps its value and, after what the detection wrote,
    "Portal split error:" is logged and the alert "Auto processing failed.
    Please adjust manually." is shown.  In every run of the handler that
    passes its guards the analyzing flag ends cleared, whatever the
    collaborators answered. *)
Theorem detection_null_leaves_state {num : Type} `{JsNumber num}
    (ai : Gemini.Collaborator num)
    (renderPDFPages : App.File num -> Settled (list (PDFPageData.t num)))
    (st : App.State num) :
  (forall f page,
      App.file st = Some f ->
      App.activePortal st = App.none ->
      App.pages st !! App.currentPageIdx st = Some page ->
      fst (Gemini.detectContentBounds ai (PDFPageData.canvasUrl page)) = fulfilled None ->
      App.run (App.handleSmartCrop ai renderPDFPages) st
        = (App.withIsAnalyzing false st,
           App.console_error
             <$> snd (Gemini.detectContentBounds ai (PDFPageData.canvasUrl page)))) /\
  (forall f page others,
      App.file st = Some f ->
      App.activePortal st = App.amazon \/ App.activePortal st = App.flipkart ->
      App.pages st = page :: others ->
      fst (Gemini.findTaxInvoiceAnchor ai (PDFPageData.canvasUrl page)) = fulfilled None ->
      App.run (App.handleSmartCrop ai renderPDFPages) st
        = (App.withIsAnalyzing false st,
           (App.console_error
              <$> snd (Gemini.findTaxInvoiceAnchor ai (PDFPageData.canvasUrl page)))
           ++ [App.console_error "Portal split error:";
               App.alert "Auto processing failed. Please adjust manually."])) /\
  (App.run (App.handleSmartCrop ai renderPDFPages) st = (st, []) \/
   App.isAnalyzing (fst (App.run (App.handleSmartCrop ai renderPDFPages) st)) = false).
Proof.
  split; [|split].
  - intros f page. apply handleSmartCrop_null_bounds.
  - intros f page others. apply handlePortalAutoSplit_null_anchor.
  - apply handleSmartCrop_clears_busy.
Qed.

Lemma detection_null_leaves_state_witness :
  App.run (App.handleSmartCrop (num := Q) Scenarios.garbledAi Instances.renderer)
    (Instances.loaded App.none)
    = (Instances.loaded App.none, [App.console_error "Failed to parse Gemini response"]) /\
  App.run (App.handleSmartCrop (num := Q) Scenarios.garbledAi Instances.renderer)
    (Instances.loaded App.flipkart)
    = (Instances.loaded App.flipkart,
       [App.console_error "Failed to detect invoice anchor";
        App.console_error "Portal split error:";
        App.alert "Auto processing failed. Please adjust manually."]).
Proof.
  split.
  - exact (proj1 (detection_null_leaves_state (num := Q) Scenarios.garbledAi
                    Instances.renderer (Instances.loaded App.none))
             _ _ eq_refl eq_refl eq_refl eq_refl).
  - exact (proj1 (proj2 (detection_null_leaves_state (num := Q) Scenarios.garbledAi
                           Instances.renderer (Instances.loaded App.flipkart)))
             _ _ _ eq_refl (or_intror eq_refl) eq_refl eq_refl).
Defined.

(* ===================================================================== *)
(** * The worked examples in binary64 *)
(* ===================================================================== *)

(** X6.  In binary64 the example of C4 yields the doubles nearest to
    74.375, 547.3, 148.75 and 252.6. *)
Theorem cropPDF_example_rect_binary64 :
  cropPDF (num := float) (mkDoc [Instances.a4]) Instances.sampleBox all 0 800%float 1000%float
  = Some (mkDoc
            [mkPage (PdfBox.mk 74.375 547.3 148.75 252.6)%float
               (Some (PdfBox.mk 74.375 547.3 148.75 252.6)%float)]).
Proof. vm_compute. reflexivity. Qed.

(** X7.  In binary64 the split at 60 percent of a 1000 pt page puts the label
    in the band 400..1000 and the invoice in the band 0..400, and the
    Meesho split of a 790 by 842 pt page makes a label band of height
    483.875 above an invoice band of height 355.5 starting at 2.625. *)
Theorem split_examples_binary64 :
  splitEcomLabel (num := float) Instances.tallDoc 60%float
  = Some (mkDoc
            [mkPage (PdfBox.mk 0 400 700 600)%float (Some (PdfBox.mk 0 400 700 600)%float);
             mkPage (PdfBox.mk 0 0 700 400)%float (Some (PdfBox.mk 0 0 700 400)%float)]) /\
  splitEcomLabelFixed (num := float) Instances.meeshoDoc App.meeshoConfig
  = Some (mkDoc
            [mkPage (PdfBox.mk 0 358.125 790 483.875)%float
               (Some (PdfBox.mk 0 358.125 790 483.875)%float);
             mkPage (PdfBox.mk 0 2.625 790 355.5)%float
               (Some (PdfBox.mk 0 2.625 790 355.5)%float);
             Instances.a4; Instances.blankPage 612 792]).
Proof. split; vm_compute; reflexivity. Qed.

(* ===================================================================== *)
(** * Properties of a session with the crop component *)
(* ===================================================================== *)

Section SessionFacts.
Context {num : Type} `{JsNumber num}.
Variable p : Cropper.Props num.

(** Each handler reports exactly the changes it makes to [box]: replaying
    its reports on a copy of the old box gives the new box, whichever
    render the handler comes from. *)
Lemma handleMouseDown_reports (r : Cropper.State num)
    (container : option (Cropper.DOMRect num))
    (e : Cropper.MouseEvent num) (type : DragType) (handle : option string)
    (st : Cropper.State num) :
  Session.parentAfter (Cropper.box st)
    (snd (Cropper.handleMouseDown p r container e type handle st))
  = Cropper.box (fst (Cropper.handleMouseDown p r container e type handle st)).
Proof.
  unfold Cropper.handleMouseDown. destruct container as [rect|]; [|reflexivity].
  destruct type; reflexivity.
Qed.

Lemma handleMouseMove_reports (r : Cropper.State num)
    (container : option (Cropper.DOMRect num))
    (e : Cropper.MouseEvent num) (st : Cropper.State num) :
  Session.parentAfter (Cropper.box st) (snd (Cropper.handleMouseMove p r container e st))
  = Cropper.box (fst (Cropper.handleMouseMove p r container e st)).
Proof.
  unfold Cropper.handleMouseMove.
  destruct (Cropper.isDragging r), container as [rect|], (Cropper.dragType r) as [type|];
    try reflexivity.
  destruct (Cropper.nextBoxOf p r rect e type st); reflexivity.
Qed.

Lemma handleMouseUp_reports (r st : Cropper.State num) :
  Session.parentAfter (Cropper.box st) (snd (Cropper.handleMouseUp r st))
  = Cropper.box (fst (Cropper.handleMouseUp r st)).
Proof.
  unfold Cropper.handleMouseUp.
  destruct (Cropper.dragType r) as [[] |], (Cropper.box r) as [b|]; try reflexivity.
  destruct (Cropper.tooSmall b); reflexivity.
Qed.

Lemma onMouseDown_reports (r : Cropper.State num) (target : Session.Target)
    (container : option (Cropper.DOMRect num)) (e : Cropper.MouseEvent num)
    (st : Cropper.State num) :
  Session.parentAfter (Cropper.box st) (snd (Session.onMouseDown p r target container e st))
  = Cropper.box (fst (Session.onMouseDown p r target container e st)).
Proof.
  unfold Session.onMouseDown.
  destruct target, (Cropper.box r) as [b|];
    try destruct (Session.isRendered h);
    try apply handleMouseDown_reports; reflexivity.
Qed.

(** A step leaves the cells and makes the reports of what it runs. *)
Lemma step_dispatch (ev : Session.Event num) (m : Session.Mounted num) :
  Session.current (fst (Session.step p ev m))
  = fst (Session.dispatch p ev (Session.rendered m) (Session.current m)) /\
  snd (Session.step p ev m)
  = snd (Session.dispatch p ev (Session.rendered m) (Session.current m)).
Proof.
  unfold Session.step.
  by destruct (Session.dispatch p ev (Session.rendered m) (Session.current m)).
Qed.

Lemma dispatch_reports (ev : Session.Event num) (r st : Cropper.State num) :
  (forall v, ev <> Session.InitialBox v) ->
  Session.parentAfter (Cropper.box st) (snd (Session.dispatch p ev r st))
  = Cropper.box (fst (Session.dispatch p ev r st)).
Proof.
  intros Hev. destruct ev as [target container e | container e | | v |]; simpl.
  - apply onMouseDown_reports.
  - destruct (Cropper.isDragging r); [apply handleMouseMove_reports | reflexivity].
  - destruct (Cropper.isDragging r); [apply handleMouseUp_reports | reflexivity].
  - by elim (Hev v).
  - reflexivity.
Qed.

Lemma lifted_in_sync (ev : Session.Event num)
    (sys : option (CropBox.t num) * Session.Mounted num) :
  fst sys = Cropper.box (Session.current (snd sys)) ->
  fst (Session.lifted p ev sys)
  = Cropper.box (Session.current (snd (Session.lifted p ev sys))).
Proof.
  destruct sys as [parent m]. simpl. intros ->.
  destruct (step_dispatch ev m) as [Hcur Hout].
  destruct ev as [target container e | container e | | v |];
    [| | |reflexivity|].
  all: match goal with
       | |- context [Session.lifted p ?ev _] =>
           pose proof (dispatch_reports ev (Session.rendered m) (Session.current m)
                         ltac:(discriminate)) as Hstep;
           unfold Session.lifted; cbn [fst snd];
           rewrite <- Hcur, <- Hout in Hstep;
           destruct (Session.step p ev m) as [m' out]; exact Hstep
       end.
Qed.

Lemma handleMouseDown_flags (r : Cropper.State num)
    (container : option (Cropper.DOMRect num))
    (e : Cropper.MouseEvent num) (type : DragType) (handle : option string)
    (st : Cropper.State num) :
  flagsCoherent st ->
  (forall h, handle = Some h -> type = resize /\ Session.isRendered h = true) ->
  flagsCoherent (fst (Cropper.handleMouseDown p r container e type handle st)).
Proof.
  intros Hst Hhandle. unfold Cropper.handleMouseDown.
  destruct container as [rect|]; [|exact Hst].
  assert (Hnew : forall h, Cropper.handleOrNull handle = Some h ->
                           type = resize /\ Session.isRendered h = true).
  { intros h Hh. apply Hhandle. destruct handle as [[|c rest]|]; simpl in Hh; congruence. }
  destruct type; simpl; (split; [split; [discriminate | reflexivity]|]);
    intros h Hh; destruct (Hnew h Hh) as [Htype Hrendered];
    first [discriminate Htype | split; [reflexivity | exact Hrendered]].
Qed.

(** The drag cells stay coherent under every event, whichever render its
    handler comes from. *)
Lemma dispatch_flagsCoherent (ev : Session.Event num) (r st : Cropper.State num) :
  flagsCoherent st -> flagsCoherent (fst (Session.dispatch p ev r st)).
Proof.
  intros Hst. pose proof Hst as [Hdrag Hhandle].
  destruct ev as [target container e | container e | | v |]; simpl.
  - unfold Session.onMouseDown.
    destruct target, (Cropper.box r) as [b|]; try exact Hst;
      try (apply handleMouseDown_flags; [exact Hst | discriminate]).
    destruct (Session.isRendered h) eqn:Hrendered; [|exact Hst].
    apply handleMouseDown_flags; [exact Hst|].
    intros h' [= <-]. split; [reflexivity | exact Hrendered].
  - destruct (Cropper.isDragging r); [|exact Hst].
    unfold Cropper.handleMouseMove.
    destruct (Cropper.isDragging r), container as [rect|], (Cropper.dragType r) as [type|];
      try exact Hst.
    destruct (Cropper.nextBoxOf p r rect e type st); exact Hst.
  - destruct (Cropper.isDragging r); [|exact Hst].
    destruct (handleMouseUp_ends_drag r st) as (Hd & Ht & Hh & _).
    split; [rewrite Hd, Ht; split; [discriminate | congruence]|].
    intros h Hsome. rewrite Hh in Hsome. discriminate.
  - exact Hst.
  - exact Hst.
Qed.

(** A pointer move changes [box] and nothing else. *)
Lemma handleMouseMove_cells (r : Cropper.State num)
    (container : option (Cropper.DOMRect num))
    (e : Cropper.MouseEvent num) (st : Cropper.State num) :
  let st' := fst (Cropper.handleMouseMove p r container e st) in
  Cropper.isDragging st' = Cropper.isDragging st /\
  Cropper.dragType st' = Cropper.dragType st /\
  Cropper.resizeHandle st' = Cropper.resizeHandle st /\
  Cropper.startPos st' = Cropper.startPos st.
Proof.
  unfold Cropper.handleMouseMove.
  destruct (Cropper.isDragging r), container as [rect|], (Cropper.dragType r) as [type|];
    try done.
  destruct (Cropper.nextBoxOf p r rect e type st); done.
Qed.

(** A second pointer move overrides the first: as long as a resize uses a
    rendered handle, the box a move computes depends on the start of the
    drag and the current pointer only. *)
Lemma nextBoxOf_after_move (rect1 rect2 : Cropper.DOMRect num)
    (e1 e2 : Cropper.MouseEvent num) (type : DragType) (st : Cropper.State num)
    (b1 : CropBox.t num) :
  (forall h, Cropper.resizeHandle st = Some h -> Session.isRendered h = true) ->
  Cropper.nextBoxOf p st rect1 e1 type st = Some b1 ->
  let st1 := Cropper.mkState (Some b1) (Cropper.isDragging st) (Cropper.dragType st)
               (Cropper.resizeHandle st) (Cropper.startPos st) in
  Cropper.nextBoxOf p st1 rect2 e2 type st1 = Cropper.nextBoxOf p st rect2 e2 type st.
Proof.
  intros Hhandle Hnext. unfold Cropper.nextBoxOf in *. simpl.
  destruct type.
  - destruct (Cropper.box st) as [b0|]; [|discriminate].
    injection Hnext as <-. reflexivity.
  - destruct (Cropper.box st) as [b0|]; [|discriminate].
    injection Hnext as <-.
    destruct (Cropper.resizeHandle st) as [h|]; [|reflexivity].
    specialize (Hhandle h eq_refl) as Hrendered.
    unfold Session.isRendered, handles in Hrendered. simpl in Hrendered.
    repeat match type of Hrendered with
           | (String.eqb h ?c || _)%bool = true =>
               destruct (String.eqb_spec h c) as [-> | _]; [reflexivity | simpl in Hrendered]
           end.
    discriminate.
  - reflexivity.
Qed.

End SessionFacts.

(** X9.  The parent's [cropBox] cell and the component's [box] never
    drift apart: if they agree before a sequence of pointer events, renders
    and parent-side changes, they agree after it, whichever render's
    handlers and listeners the events run.  Every change a handler makes
    to [box] is reported through [onCropChange]. *)
Theorem parent_cell_mirrors_box {num : Type} `{JsNumber num} (p : Cropper.Props num)
    (evs : list (Session.Event num)) (parent : option (CropBox.t num))
    (m : Session.Mounted num) :
  parent = Cropper.box (Session.current m) ->
  let sys := foldl (fun sys ev => Session.lifted p ev sys) (parent, m) evs in
  fst sys = Cropper.box (Session.current (snd sys)).
Proof.
  intros Hsync. simpl.
  assert (Hgen : forall sys, fst sys = Cropper.box (Session.current (snd sys)) ->
                   fst (foldl (fun sys ev => Session.lifted p ev sys) sys evs)
                   = Cropper.box
                       (Session.current
                          (snd (foldl (fun sys ev => Session.lifted p ev sys) sys evs)))).
  { induction evs as [|ev rest IH]; intros sys Hsys; simpl; [exact Hsys|].
    apply IH. by apply lifted_in_sync. }
  by apply Hgen.
Qed.

Lemma parent_cell_mirrors_box_witness :
  fst (foldl (fun sys ev => Session.lifted (num := Q) Instances.props ev sys)
         (None, Session.mount None)
         (Scenarios.draw (700, 800)%Z ++ Session.PointerUp
          :: Session.withRenders (Scenarios.session ++ Scenarios.interference)))
  = Cropper.box
      (Session.current
         (snd (foldl (fun sys ev => Session.lifted (num := Q) Instances.props ev sys)
                 (None, Session.mount None)
                 (Scenarios.draw (700, 800)%Z ++ Session.PointerUp
                  :: Session.withRenders (Scenarios.session ++ Scenarios.interference))))).
Proof.
  exact (parent_cell_mirrors_box (num := Q) Instances.props
           (Scenarios.draw (700, 800)%Z ++ Session.PointerUp
            :: Session.withRenders (Scenarios.session ++ Scenarios.interference))
           None (Session.mount None) eq_refl).
Defined.

(** X10.  After any sequence of events and renders on a freshly mounted
    component, [isDragging] holds exactly when a drag type is set, and a
    resize handle is set only during a resize drag and is one of the eight
    rendered handles. *)
Theorem session_flags_coherent {num : Type} `{JsNumber num} (p : Cropper.Props num)
    (evs : list (Session.Event num)) (initialBox : option (CropBox.t num)) :
  flagsCoherent (Session.current (fst (Session.steps p evs (Session.mount initialBox)))).
Proof.
  assert (Hgen : forall m, flagsCoherent (Session.current m) ->
                   flagsCoherent (Session.current (fst (Session.steps p evs m)))).
  { induction evs as [|ev rest IH]; intros m Hm; simpl; [exact Hm|].
    pose proof (dispatch_flagsCoherent p ev (Session.rendered m) (Session.current m) Hm)
      as Hstep.
    rewrite <- (proj1 (step_dispatch p ev m)) in Hstep.
    destruct (Session.step p ev m) as [m1 out1]. simpl in Hstep.
    specialize (IH m1 Hstep).
    destruct (Session.steps p rest m1) as [m2 out2]. exact IH. }
  apply Hgen. split; [split; [discriminate | intros Hn; by elim Hn]|].
  intros h Hsome. discriminate.
Qed.

(** X11.  During a drag only the latest pointer position counts: handling
    a second pointer move after a first gives the same state and the same
    report as handling the second alone, for a create drag, a move drag and
    a resize drag by any of the eight rendered handles.  This holds when
    the component re-rendered between the two moves, and, for the listener
    of any render, when it did not. *)
Theorem pointer_move_last_wins {num : Type} `{JsNumber num} (p : Cropper.Props num)
    (container1 : option (Cropper.DOMRect num)) (rect2 : Cropper.DOMRect num)
    (e1 e2 : Cropper.MouseEvent num) (st : Cropper.State num) :
  flagsCoherent st ->
  let st1 := fst (Cropper.handleMouseMove p st container1 e1 st) in
  Cropper.handleMouseMove p st1 (Some rect2) e2 st1
  = Cropper.handleMouseMove p st (Some rect2) e2 st /\
  forall r,
    Cropper.handleMouseMove p r (Some rect2) e2
      (fst (Cropper.handleMouseMove p r container1 e1 st))
    = Cropper.handleMouseMove p r (Some rect2) e2 st.
Proof.
  intros [_ Hhandle] st1. split.
  - subst st1.
    assert (Hfirst : Cropper.handleMouseMove p st container1 e1 st = (st, []) \/
                     exists rect1 type b1,
                       Cropper.isDragging st = true /\ Cropper.dragType st = Some type /\
                       Cropper.nextBoxOf p st rect1 e1 type st = Some b1 /\
                       Cropper.handleMouseMove p st container1 e1 st
                       = (Cropper.mkState (Some b1) true (Some type)
                            (Cropper.resizeHandle st) (Cropper.startPos st), [Some b1])).
    { unfold Cropper.handleMouseMove.
      destruct (Cropper.isDragging st) eqn:Hd; [|by left].
      destruct container1 as [rect1|]; [|by left].
      destruct (Cropper.dragType st) as [type|] eqn:Ht; [|by left].
      destruct (Cropper.nextBoxOf p st rect1 e1 type st) as [b1|] eqn:Hnext; [|by left].
      right. exists rect1, type, b1. done. }
    destruct Hfirst as [-> | (rect1 & type & b1 & Hd & Ht & Hnext & ->)]; [reflexivity|].
    pose proof (nextBoxOf_after_move p rect1 rect2 e1 e2 type st b1) as Hsame.
    unfold Cropper.handleMouseMove. simpl. rewrite Hd, Ht.
    rewrite Hd, Ht in Hsame. simpl in Hsame. rewrite Hsame; [| |exact Hnext].
    + destruct (Cropper.nextBoxOf p st rect2 e2 type st) as [b2|] eqn:Hnext2; [reflexivity|].
      exfalso. unfold Cropper.nextBoxOf in Hnext, Hnext2.
      destruct type, (Cropper.box st); discriminate.
    + intros h Hh. by apply Hhandle.
  - intros r. unfold Cropper.handleMouseMove.
    destruct (Cropper.isDragging r); [|reflexivity].
    destruct (Cropper.dragType r) as [type|]; [|by destruct container1].
    destruct container1 as [rect1|]; [|reflexivity].
    destruct (Cropper.nextBoxOf p r rect1 e1 type st) as [b1|] eqn:Hnext; [|reflexivity].
    cbn [fst].
    change (Cropper.nextBoxOf p r rect2 e2 type (Cropper.mkState _ _ _ _ _))
      with (Cropper.nextBoxOf p r rect2 e2 type st).
    destruct (Cropper.nextBoxOf p r rect2 e2 type st) as [b2|] eqn:Hnext2; [reflexivity|].
    exfalso. unfold Cropper.nextBoxOf in Hnext, Hnext2.
    destruct type, (Cropper.box r); discriminate.
Qed.

Lemma pointer_move_last_wins_witness :
  let st := fst (Session.stepRendered (num := Q) Instances.props
                   (Session.PointerDown (Session.Handle "sw") (Some Instances.container)
                      (Scenarios.at_ 400 700))
                   (Cropper.init (Some Instances.selectedBox))) in
  let st1 := fst (Cropper.handleMouseMove Instances.props st (Some Instances.container)
                    (Scenarios.at_ 100 2000) st) in
  Cropper.handleMouseMove Instances.props st1 (Some Instances.container)
    (Scenarios.at_ 450 650) st1
  = Cropper.handleMouseMove Instances.props st (Some Instances.container)
      (Scenarios.at_ 450 650) st /\
  Cropper.handleMouseMove Instances.props st (Some Instances.container)
    (Scenarios.at_ 450 650) st1
  = Cropper.handleMouseMove Instances.props st (Some Instances.container)
      (Scenarios.at_ 450 650) st.
Proof.
  intros st st1.
  destruct (pointer_move_last_wins (num := Q) Instances.props (Some Instances.container)
              Instances.container (Scenarios.at_ 100 2000) (Scenarios.at_ 450 650) st)
    as [Hrendered Hstale].
  - split; [split; [discriminate | reflexivity]|].
    intros h [= <-]. split; reflexivity.
  - split; [exact Hrendered | exact (Hstale st)].
Defined.

Section ExactSession.
Local Open Scope Q_scope.
Variable p : Cropper.Props Q.
Local Abbreviation W := (Cropper.width p).
Local Abbreviation H := (Cropper.height p).

(** Resizing a box of at least 5 by 5 that lies on the page by the east,
    south or south-east handle gives such a box again. *)
Lemma resize_sound (h : string) (s : Cropper.StartPos Q) (dx dy : Q) (b0 : CropBox.t Q) :
  h ∈ soundHandles ->
  insidePage W H b0 ->
  5 <= CropBox.width b0 /\ 5 <= CropBox.height b0 ->
  let b := Cropper.resizeBox p (Some h) s dx dy b0 in
  insidePage W H b /\ 5 <= CropBox.width b /\ 5 <= CropBox.height b.
Proof.
  intros Hh (Hx & Hy & Hxw & Hyh & Hw0 & Hh0) [Hw5 Hh5] b. subst b.
  unfold soundHandles in Hh.
  repeat (apply elem_of_cons in Hh as [-> | Hh]); [..|by apply elem_of_nil in Hh];
    unfold insidePage; q_ops; repeat split; q_minmax; lra.
Qed.

Lemma idle_dragType (st : Cropper.State Q) :
  flagsCoherent st -> Cropper.isDragging st = false -> Cropper.dragType st = None.
Proof.
  intros [Hdrag _] Hidle. destruct (Cropper.dragType st) as [type|]; [|reflexivity].
  assert (Cropper.isDragging st = true) by (apply Hdrag; discriminate). congruence.
Qed.

(** Every report of an event on the re-rendered component is the box the
    event leaves behind. *)
Lemma stepRendered_reports_box (ev : Session.Event Q) (st : Cropper.State Q) :
  Forall (fun reported => reported = Cropper.box (fst (Session.stepRendered p ev st)))
    (snd (Session.stepRendered p ev st)).
Proof.
  unfold Session.stepRendered.
  destruct ev as [target container e | container e | | v |]; simpl.
  - unfold Session.onMouseDown, Cropper.handleMouseDown.
    destruct target, (Cropper.box st) as [b0|], container as [rect|];
      try (destruct (Session.isRendered h)); simpl; repeat constructor.
  - destruct (Cropper.isDragging st) eqn:Hd; [|constructor].
    unfold Cropper.handleMouseMove. rewrite Hd.
    destruct container as [rect|], (Cropper.dragType st) as [type|]; try constructor.
    destruct (Cropper.nextBoxOf p st rect e type st); repeat constructor.
  - destruct (Cropper.isDragging st); [|constructor].
    unfold Cropper.handleMouseUp.
    destruct (Cropper.dragType st) as [[] |], (Cropper.box st) as [b0|];
      try destruct (Cropper.tooSmall b0); repeat constructor.
  - constructor.
  - constructor.
Qed.

Lemma stepRendered_sessionInv (ev : Session.Event Q) (st : Cropper.State Q) :
  sessionInv p st -> tame p st ev -> sessionInv p (fst (Session.stepRendered p ev st)).
Proof.
  intros Hinv Htame. pose proof Hinv as (Hflags & Hbox & Hstart & Hhandle).
  unfold Session.stepRendered.
  split; [by apply dispatch_flagsCoherent|].
  destruct ev as [target container e | container e | | v |]; simpl in Htame |- *.
  - destruct Htame as (Hidle & Hon & Hsound).
    pose proof (idle_dragType st Hflags Hidle) as Hnone.
    unfold Session.onMouseDown, Cropper.handleMouseDown.
    destruct target, (Cropper.box st) as [b0|] eqn:Hb0, container as [rect|];
      try (destruct (Session.isRendered h)); st_simpl;
      try (rewrite <- ?Hb0; exact (proj2 Hinv)).
    + (* canvas, no box: create *)
      destruct (Hon rect eq_refl) as [Hx Hy].
      split; [|split; [intros _; split; assumption | discriminate]].
      intros b [= <-]. split; [|intros Hn; by elim Hn].
      unfold insidePage. q_ops. repeat split; lra.
    + (* overlay: create *)
      destruct (Hon rect eq_refl) as [Hx Hy].
      split; [|split; [intros _; split; assumption | discriminate]].
      intros b [= <-]. split; [|intros Hn; by elim Hn].
      unfold insidePage. q_ops. repeat split; lra.
    + (* box body: move *)
      split; [|split; [discriminate | discriminate]].
      intros b [= <-]. destruct (Hbox b0 eq_refl) as [Hin Hmin].
      split; [exact Hin|]. intros _. apply Hmin. rewrite Hnone. discriminate.
    + (* handle: resize *)
      split; [|split; [discriminate|]].
      * intros b [= <-]. destruct (Hbox b0 eq_refl) as [Hin Hmin].
        split; [exact Hin|]. intros _. apply Hmin. rewrite Hnone. discriminate.
      * intros h' Hh'. apply Hsound.
        destruct h as [|c rest]; simpl in Hh'; congruence.
  - destruct (Cropper.isDragging st) eqn:Hd; [|exact (proj2 Hinv)].
    unfold Cropper.handleMouseMove. rewrite Hd.
    destruct container as [rect|]; [|exact (proj2 Hinv)].
    destruct (Cropper.dragType st) as [type|] eqn:Ht; [|exact (proj2 Hinv)].
    destruct (Cropper.nextBoxOf p st rect e type st) as [b1|] eqn:Hnext;
      [|exact (proj2 Hinv)].
    st_simpl. split; [|split; [exact Hstart | exact Hhandle]].
    intros b [= <-]. destruct type.
    + (* move *)
      unfold Cropper.nextBoxOf in Hnext.
      destruct (Cropper.box st) as [b0|] eqn:Hb0; [|discriminate].
      destruct (Hbox b0 eq_refl) as [(Hx & Hy & Hxw & Hyh & Hw0 & Hh0) Hmin].
      destruct (move_move_inside p rect e st st b0 Hb0) as (b' & Hnext' & Hsw & Hsh & Hin);
        [split; lra | split; lra |].
      unfold Cropper.nextBoxOf in Hnext'. rewrite Hb0 in Hnext'.
      rewrite Hnext in Hnext'. injection Hnext' as <-.
      split; [exact Hin|]. intros _. rewrite Hsw, Hsh. apply Hmin. discriminate.
    + (* resize *)
      unfold Cropper.nextBoxOf in Hnext.
      destruct (Cropper.box st) as [b0|] eqn:Hb0; [|discriminate].
      injection Hnext as <-.
      destruct (Hbox b0 eq_refl) as [Hin Hmin].
      destruct (Cropper.resizeHandle st) as [h|] eqn:Hh.
      * destruct (resize_sound h (Cropper.startPos st)
                    ((Cropper.clientX e - Cropper.screenX (Cropper.startPos st))
                     / Cropper.zoom p)
                    ((Cropper.clientY e - Cropper.screenY (Cropper.startPos st))
                     / Cropper.zoom p) b0) as (Hin' & Hmin');
          [by apply Hhandle | exact Hin | apply Hmin; discriminate |].
        split; [exact Hin' | intros _; exact Hmin'].
      * split; [exact Hin | intros _; apply Hmin; discriminate].
    + (* create *)
      destruct (create_move_inside p rect e st st) as (b' & Hnext' & Hin);
        [apply Hstart; reflexivity | apply Hstart; reflexivity |].
      rewrite Hnext in Hnext'. injection Hnext' as <-.
      split; [exact Hin | intros Hn; by elim Hn].
  - destruct (Cropper.isDragging st) eqn:Hd; [|exact (proj2 Hinv)].
    destruct (handleMouseUp_ends_drag st st) as (_ & Ht & Hh & _).
    split; [|split; [rewrite Ht; discriminate | rewrite Hh; discriminate]].
    intros b Hb. unfold Cropper.handleMouseUp in Hb.
    destruct (Cropper.dragType st) as [[] |] eqn:Htype,
             (Cropper.box st) as [b0|] eqn:Hb0; simpl in Hb; try discriminate;
      try (injection Hb as <-; destruct (Hbox b0 eq_refl) as [Hin Hmin];
           split; [exact Hin | intros _; apply Hmin; discriminate]).
    destruct (Cropper.tooSmall b0) eqn:Hsmall; simpl in Hb; [discriminate|].
    injection Hb as <-. destruct (Hbox b0 eq_refl) as [Hin _].
    split; [exact Hin|]. intros _.
    assert (Hbig : ~ (CropBox.width b0 < 5 \/ CropBox.height b0 < 5)).
    { intros Hs. apply tooSmall_spec in Hs. congruence. }
    split; apply Qnot_lt_le; intros Hlt; apply Hbig; [left | right]; exact Hlt.
  - contradiction.
  - exact (proj2 Hinv).
Qed.

(** A session in which the component re-renders after every event, one
    event at a time. *)
Lemma steps_withRenders_cons (ev : Session.Event Q) (rest : list (Session.Event Q))
    (st : Cropper.State Q) :
  Session.steps p (Session.withRenders (ev :: rest)) (Session.upToDate st)
  = let '(m2, out2) := Session.steps p (Session.withRenders rest)
                         (Session.upToDate (fst (Session.stepRendered p ev st))) in
    (m2, snd (Session.stepRendered p ev st) ++ out2).
Proof.
  unfold Session.withRenders, Session.stepRendered. cbn [flat_map app Session.steps].
  unfold Session.step at 1. cbn [Session.rendered Session.current Session.upToDate].
  destruct (Session.dispatch p ev st st) as [st1 out1].
  cbn [Session.step Session.dispatch Session.rendered Session.current fst snd].
  unfold Session.upToDate.
  by destruct (Session.steps p _ _) as [m2 out2].
Qed.

End ExactSession.

(** X12.  In exact arithmetic, in a session of tame events (pointer-downs
    land on the page and arrive while no drag is active, resizes use the
    east, south or south-east handle, the parent does not replace the box)
    in which the component re-renders after every event, on a component
    with a positive zoom, mounted without a box or with a box of at least
    5 by 5 on the page: every box reported through [onCropChange] lies
    inside the page, the final box lies inside the page, and whenever no
    drag is active the box is null or at least 5 by 5. *)
Theorem session_keeps_box_on_page (p : Cropper.Props Q) (evs : list (Session.Event Q))
    (initialBox : option (CropBox.t Q)) :
  (0 < Cropper.zoom p)%Q ->
  (forall b, initialBox = Some b ->
     insidePage (Cropper.width p) (Cropper.height p) b /\
     (5 <= CropBox.width b /\ 5 <= CropBox.height b)%Q) ->
  tameTrace p evs (Cropper.init initialBox) ->
  let run := Session.steps p (Session.withRenders evs) (Session.mount initialBox) in
  let st := Session.current (fst run) in
  let emitted := snd run in
  reportsInside p emitted /\
  forall b, Cropper.box st = Some b ->
    insidePage (Cropper.width p) (Cropper.height p) b /\
    (Cropper.isDragging st = false ->
     (5 <= CropBox.width b /\ 5 <= CropBox.height b)%Q).
Proof.
  intros _ Hinit Htame.
  assert (Hgen : forall st, sessionInv p st -> tameTrace p evs st ->
            sessionInv p (Session.current
                            (fst (Session.steps p (Session.withRenders evs)
                                    (Session.upToDate st)))) /\
            reportsInside p (snd (Session.steps p (Session.withRenders evs)
                                    (Session.upToDate st)))).
  { clear Htame. induction evs as [|ev rest IH]; intros st Hinv Htame.
    - split; [exact Hinv | constructor].
    - destruct Htame as [Hev Hrest].
      pose proof (stepRendered_sessionInv p ev st Hinv Hev) as Hinv1.
      pose proof (stepRendered_reports_box p ev st) as Hrep.
      rewrite steps_withRenders_cons.
      destruct (IH _ Hinv1 Hrest) as [Hinv2 Hrep2].
      destruct (Session.steps p (Session.withRenders rest) _) as [m2 out2]. simpl in *.
      split; [exact Hinv2|]. apply Forall_app. split; [|exact Hrep2].
      eapply Forall_impl; [exact Hrep|]. simpl.
      intros reported -> b Hb. destruct Hinv1 as (_ & Hbox & _). by apply Hbox. }
  destruct (Hgen (Cropper.init initialBox)) as [(Hflags & Hbox & _) Hrep]; [|exact Htame|].
  - split; [split; [split; [discriminate | intros Hn; by elim Hn] | discriminate]|].
    split; [|split; discriminate].
    intros b Hb. destruct (Hinit b Hb) as [Hin Hmin]. split; [exact Hin | intros _; exact Hmin].
  - simpl. split; [exact Hrep|].
    intros b Hb. destruct (Hbox b Hb) as [Hin Hmin]. split; [exact Hin|].
    intros Hidle. apply Hmin. rewrite (idle_dragType _ Hflags Hidle). discriminate.
Qed.

Lemma session_keeps_box_on_page_witness :
  reportsInside Instances.props
    (snd (Session.steps (num := Q) Instances.props (Session.withRenders Scenarios.session)
            (Session.mount None))) /\
  Cropper.box (Session.current
                 (fst (Session.steps (num := Q) Instances.props
                         (Session.withRenders Scenarios.session) (Session.mount None))))
  = Some (CropBox.mk 600 410 100 590)%Q.
Proof.
  destruct (session_keeps_box_on_page Instances.props Scenarios.session None) as [Hrep _].
  - reflexivity.
  - discriminate.
  - simpl. unfold onPage, soundHandles. simpl.
    repeat split; try tauto; try discriminate; intros;
      repeat match goal with
             | Heq : Some _ = Some _ |- _ => injection Heq as <-
             | Heq : Session.Handle _ = Session.Handle _ |- _ => injection Heq as <-
             end;
      try (unfold Qle; simpl; lia).
    repeat constructor.
  - split; [exact Hrep | reflexivity].
Defined.

Section ExactGestures.
Local Open Scope Q_scope.
Variable p : Cropper.Props Q.

Lemma js_or_zero (a : Q) : js_or a (lit 0) == a.
Proof.
  unfold js_or. simpl. destruct (Qeq_bool a 0) eqn:Hz; simpl; [|reflexivity].
  apply Qeq_bool_iff in Hz. rewrite Hz. reflexivity.
Qed.

(** The box a move computes when the pointer is where the drag began and
    the component has re-rendered since the press. *)
Lemma nextBoxOf_at_start (rect rect2 : Cropper.DOMRect Q) (e : Cropper.MouseEvent Q)
    (type : DragType) (handle : option string) (st : Cropper.State Q) (b0 : CropBox.t Q) :
  Cropper.box st = Some b0 ->
  insidePage (Cropper.width p) (Cropper.height p) b0 ->
  (type = move /\ handle = None) \/
  (type = resize /\ 5 <= CropBox.width b0 /\ 5 <= CropBox.height b0 /\
   exists h, handle = Some h /\ h ∈ restoringHandles) ->
  let st1 := fst (Cropper.handleMouseDown p st (Some rect) e type handle st) in
  exists b,
    Cropper.nextBoxOf p st1 rect2 e type st1 = Some b /\
    sameCropBox b b0.
Proof.
  intros Hbox (Hx & Hy & Hxw & Hyh & Hw0 & Hh0) Hcase st1. subst st1.
  pose proof (js_or_zero (CropBox.x b0)) as Hbx.
  pose proof (js_or_zero (CropBox.y b0)) as Hby.
  pose proof (js_or_zero (CropBox.width b0)) as Hbw.
  pose proof (js_or_zero (CropBox.height b0)) as Hbh.
  assert (Hdx : (Cropper.clientX e - Cropper.clientX e) / Cropper.zoom p == 0)
    by (unfold Qdiv; ring).
  assert (Hdy : (Cropper.clientY e - Cropper.clientY e) / Cropper.zoom p == 0)
    by (unfold Qdiv; ring).
  unfold Cropper.handleMouseDown, Cropper.nextBoxOf, Cropper.fieldOrZero.
  rewrite Hbox.
  set (bx := js_or (CropBox.x b0) (lit 0)) in *.
  set (by_ := js_or (CropBox.y b0) (lit 0)) in *.
  set (bw := js_or (CropBox.width b0) (lit 0)) in *.
  set (bh := js_or (CropBox.height b0) (lit 0)) in *.
  clearbody bx by_ bw bh.
  destruct Hcase as [[-> ->] | (-> & Hw5 & Hh5 & h & -> & Hh)].
  - eexists. split; [reflexivity|].
    unfold sameCropBox. st_simpl.
    set (dx := (Cropper.clientX e - Cropper.clientX e) / Cropper.zoom p) in *.
    set (dy := (Cropper.clientY e - Cropper.clientY e) / Cropper.zoom p) in *.
    clearbody dx dy.
    repeat split; try reflexivity; q_minmax. all: lra.
  - unfold restoringHandles in Hh.
    repeat (apply elem_of_cons in Hh as [-> | Hh]); [..|by apply elem_of_nil in Hh];
      (eexists; split; [reflexivity|]);
      unfold sameCropBox; st_simpl;
      set (dx := (Cropper.clientX e - Cropper.clientX e) / Cropper.zoom p) in *;
      set (dy := (Cropper.clientY e - Cropper.clientY e) / Cropper.zoom p) in *;
      clearbody dx dy;
      repeat split; try reflexivity; q_minmax.
    all: lra.
Qed.

End ExactGestures.

(** X13.  Pressing on the box or on its east, south, west, south-east or
    south-west handle and bringing the pointer back to where it was
    pressed restores the box: the move that ends there, handled by the
    listener of the render after the press, reports a box equal to the one
    the drag started with, provided that box lies on the page (and, for a
    resize, is at least 5 by 5).  The three north handles are not among
    them. *)
Theorem pointer_back_restores_box (p : Cropper.Props Q) (rect rect2 : Cropper.DOMRect Q)
    (e : Cropper.MouseEvent Q) (target : Session.Target) (st : Cropper.State Q)
    (b0 : CropBox.t Q) :
  (0 < Cropper.zoom p)%Q ->
  Cropper.isDragging st = false ->
  Cropper.box st = Some b0 ->
  insidePage (Cropper.width p) (Cropper.height p) b0 ->
  (5 <= CropBox.width b0 /\ 5 <= CropBox.height b0)%Q ->
  target = Session.BoxBody \/ (exists h, target = Session.Handle h /\ h ∈ restoringHandles) ->
  exists b,
    snd (Session.steps p
           [Session.PointerDown target (Some rect) e; Session.Render;
            Session.PointerMove (Some rect2) e] (Session.upToDate st))
    = [Some b] /\
    sameCropBox b b0.
Proof.
  intros _ Hidle Hbox Hin [Hw5 Hh5] Htarget.
  assert (Hdown : exists type handle,
             Session.onMouseDown p st target (Some rect) e st
             = Cropper.handleMouseDown p st (Some rect) e type handle st /\
             ((type = move /\ handle = None) \/
              (type = resize /\ (5 <= CropBox.width b0)%Q /\ (5 <= CropBox.height b0)%Q /\
               exists h, handle = Some h /\ h ∈ restoringHandles)) /\
             type <> create).
  { destruct Htarget as [-> | (h & -> & Hh)].
    - exists move, None. unfold Session.onMouseDown. rewrite Hbox.
      split; [reflexivity|]. split; [left; done | discriminate].
    - exists resize, (Some h). unfold Session.onMouseDown. rewrite Hbox.
      assert (Hrendered : Session.isRendered h = true).
      { unfold restoringHandles in Hh.
        repeat (apply elem_of_cons in Hh as [-> | Hh]); [..|by apply elem_of_nil in Hh];
          reflexivity. }
      rewrite Hrendered. split; [reflexivity|].
      split; [right; eauto 10 | discriminate]. }
  destruct Hdown as (type & handle & Hstep & Hcase & Hnotcreate).
  destruct (nextBoxOf_at_start p rect rect2 e type handle st b0 Hbox Hin Hcase)
    as (b & Hnext & Hsame).
  exists b. split; [|exact Hsame].
  cbn [Session.steps]. unfold Session.step.
  cbn [Session.dispatch Session.upToDate Session.rendered Session.current].
  rewrite Hstep.
  assert (Hst1 : Cropper.isDragging
                   (fst (Cropper.handleMouseDown p st (Some rect) e type handle st)) = true /\
                 Cropper.dragType
                   (fst (Cropper.handleMouseDown p st (Some rect) e type handle st))
                 = Some type).
  { unfold Cropper.handleMouseDown. destruct type; simpl; done. }
  destruct Hst1 as [Hd Ht].
  pose proof (handleMouseMove_emits p rect2 e _ _ type b Hd Ht Hnext) as Hmove.
  destruct (Cropper.handleMouseDown p st (Some rect) e type handle st) as [st1 out1] eqn:Hdown.
  cbn [fst snd Session.rendered Session.current Session.dispatch] in *.
  rewrite Hd, Hmove. cbn [fst snd app].
  unfold Cropper.handleMouseDown in Hdown.
  destruct type; [| |by elim Hnotcreate]; injection Hdown as _ <-; reflexivity.
Qed.

Lemma pointer_back_restores_box_witness :
  exists b,
    snd (Session.steps (num := Q) Instances.props
           [Session.PointerDown (Session.Handle "sw") (Some Instances.container)
              (Scenarios.at_ 400 700);
            Session.Render;
            Session.PointerMove (Some Instances.container) (Scenarios.at_ 400 700)]
           (Session.upToDate (Cropper.init (Some Instances.selectedBox))))
    = [Some b] /\
    sameCropBox b Instances.selectedBox.
Proof.
  apply (pointer_back_restores_box Instances.props Instances.container Instances.container
           (Scenarios.at_ 400 700) (Session.Handle "sw")
           (Cropper.init (Some Instances.selectedBox)) Instances.selectedBox).
  - reflexivity.
  - reflexivity.
  - reflexivity.
  - unfold insidePage. simpl. repeat split; unfold Qle; simpl; lia.
  - simpl. split; unfold Qle; simpl; lia.
  - right. exists "sw"%string. split; [reflexivity|].
    unfold restoringHandles. repeat constructor.
Defined.

(** X14.  A click without a drag outside the box on screen (on the empty
    canvas, or on the overlay behind an existing box) leaves the component
    idle without a box: pointer-down reports a zero-size box at the
    pointer, and pointer-up, handled by the listener of the render after
    the press, reports null.  An existing selection is discarded by such a
    click. *)
Theorem click_outside_discards_box (p : Cropper.Props Q) (rect : Cropper.DOMRect Q)
    (e : Cropper.MouseEvent Q) (target : Session.Target) (m : Session.Mounted Q) :
  (0 < Cropper.zoom p)%Q ->
  (target = Session.Canvas /\ Cropper.box (Session.rendered m) = None) \/
  (target = Session.Overlay /\ Cropper.box (Session.rendered m) <> None) ->
  let click := [Session.PointerDown target (Some rect) e; Session.Render;
                Session.PointerUp] in
  let logicalX := ((Cropper.clientX e - Cropper.left rect) / Cropper.zoom p)%Q in
  let logicalY := ((Cropper.clientY e - Cropper.top rect) / Cropper.zoom p)%Q in
  Cropper.box (Session.current (fst (Session.steps p click m))) = None /\
  Cropper.phase (Session.current (fst (Session.steps p click m))) = Cropper.Idle /\
  snd (Session.steps p click m) = [Some (CropBox.mk logicalX logicalY 0 0)%Q; None].
Proof.
  intros _ Htarget click logicalX logicalY. subst click. simpl.
  unfold Session.step, Session.dispatch, Session.onMouseDown.
  destruct Htarget as [[-> Hbox] | [-> Hbox]].
  - rewrite Hbox. simpl. done.
  - destruct (Cropper.box (Session.rendered m)) as [b0|]; [|by elim Hbox]. simpl. done.
Qed.

Lemma click_outside_discards_box_witness :
  Cropper.box
    (Session.current
       (fst (Session.steps (num := Q) Instances.props
               [Session.PointerDown Session.Overlay (Some Instances.container)
                  (Scenarios.at_ 900 900);
                Session.Render;
                Session.PointerUp]
               (Session.mount (Some Instances.selectedBox))))) = None.
Proof.
  apply (click_outside_discards_box Instances.props Instances.container
           (Scenarios.at_ 900 900) Session.Overlay (Session.mount (Some Instances.selectedBox))).
  - reflexivity.
  - right. split; [reflexivity | discriminate].
Defined.

(* ===================================================================== *)
(** * More on the PDF service *)
(* ===================================================================== *)

Section ExactMapping.
Local Open Scope Q_scope.

Lemma scale_within (a v size : Q) :
  0 <= a <= v -> 0 < v -> 0 <= size -> 0 <= a * (size / v) <= size.
Proof.
  intros [Ha Hav] Hv Hsize.
  assert (Hq : a * (size / v) == size * (a / v)) by (field; lra).
  rewrite Hq.
  assert (0 <= a / v <= 1)
    by (split; [apply Qle_shift_div_l | apply Qle_shift_div_r]; lra).
  nra.
Qed.

Lemma scale_sum (a b v size : Q) :
  ~ v == 0 -> a * (size / v) + b * (size / v) == (a + b) * (size / v).
Proof. intros Hv. field. exact Hv. Qed.

(** X15.  In exact arithmetic, with a positive viewport and a page of
    non-negative size [W] by [H], a logical box that lies inside the
    viewport is mapped to a rectangle with non-negative size inside
    [0, W] x [0, H], and the rectangle's top edge is [H - box.y * scaleY]
    (the vertical flip).  [W] and [H] are what [getSize()] gives; for a
    page whose media box starts at the origin the rectangle therefore lies
    within the media box, so nothing beyond the page is selected. *)
Theorem pdfRect_inside_page (box : CropBox.t Q) (viewWidth viewHeight : Q)
    (page : PDFPage Q) :
  let W := PdfBox.width (mediaBox page) in
  let H := PdfBox.height (mediaBox page) in
  let r := pdfRect box viewWidth viewHeight page in
  (0 < viewWidth /\ 0 < viewHeight)%Q ->
  (0 <= W /\ 0 <= H)%Q ->
  insidePage viewWidth viewHeight box ->
  (0 <= PdfBox.x r /\ 0 <= PdfBox.y r /\
   PdfBox.x r + PdfBox.width r <= W /\ PdfBox.y r + PdfBox.height r <= H /\
   0 <= PdfBox.width r /\ 0 <= PdfBox.height r /\
   PdfBox.top r == H - CropBox.y box * (H / viewHeight))%Q /\
  (atOrigin page -> withinBox r (mediaBox page)).
Proof.
  intros W H r [Hvw Hvh] [HW HH] (Hx & Hy & Hxw & Hyh & Hw0 & Hh0).
  assert (Hgeom : (0 <= PdfBox.x r /\ 0 <= PdfBox.y r /\
                   PdfBox.x r + PdfBox.width r <= W /\ PdfBox.y r + PdfBox.height r <= H /\
                   0 <= PdfBox.width r /\ 0 <= PdfBox.height r /\
                   PdfBox.top r == H - CropBox.y box * (H / viewHeight))%Q).
  { subst r. unfold pdfRect, getSize, PdfBox.top. q_ops. fold W H.
    pose proof (scale_within (CropBox.x box) viewWidth W ltac:(lra) Hvw HW) as Hsx.
    pose proof (scale_within (CropBox.width box) viewWidth W ltac:(lra) Hvw HW) as Hsw.
    pose proof (scale_within (CropBox.x box + CropBox.width box) viewWidth W
                  ltac:(lra) Hvw HW) as Hsxw.
    pose proof (scale_within (CropBox.y box) viewHeight H ltac:(lra) Hvh HH) as Hsy.
    pose proof (scale_within (CropBox.height box) viewHeight H ltac:(lra) Hvh HH) as Hsh.
    pose proof (scale_within (CropBox.y box + CropBox.height box) viewHeight H
                  ltac:(lra) Hvh HH) as Hsyh.
    pose proof (scale_sum (CropBox.x box) (CropBox.width box) viewWidth W ltac:(lra)) as Hex.
    pose proof (scale_sum (CropBox.y box) (CropBox.height box) viewHeight H ltac:(lra))
      as Hey.
    set (sx := CropBox.x box * (W / viewWidth)) in *.
    set (sw := CropBox.width box * (W / viewWidth)) in *.
    set (sy := CropBox.y box * (H / viewHeight)) in *.
    set (sh := CropBox.height box * (H / viewHeight)) in *.
    set (sxw := (CropBox.x box + CropBox.width box) * (W / viewWidth)) in *.
    set (syh := (CropBox.y box + CropBox.height box) * (H / viewHeight)) in *.
    clearbody sx sw sy sh sxw syh.
    repeat split; lra. }
  split; [exact Hgeom|].
  intros [Hox Hoy]. destruct Hgeom as (Hrx & Hry & Hrxw & Hryh & _).
  unfold withinBox. fold W H. rewrite Hox, Hoy. repeat split; lra.
Qed.

Lemma pdfRect_inside_page_witness :
  (0 <= PdfBox.y (pdfRect (num := Q) Instances.sampleBox 800 1000 Instances.a4) /\
   PdfBox.y (pdfRect (num := Q) Instances.sampleBox 800 1000 Instances.a4)
   + PdfBox.height (pdfRect (num := Q) Instances.sampleBox 800 1000 Instances.a4) <= 842)%Q /\
  withinBox (pdfRect (num := Q) Instances.sampleBox 800 1000 Instances.a4)
    (mediaBox Instances.a4).
Proof.
  destruct (pdfRect_inside_page Instances.sampleBox 800%Q 1000%Q Instances.a4)
    as [(_ & Hy & _ & Hyh & _) Hwithin].
  - split; reflexivity.
  - split; unfold Qle; simpl; lia.
  - unfold insidePage. simpl. repeat split; unfold Qle; simpl; lia.
  - split; [split; [exact Hy | exact Hyh]|].
    apply Hwithin. split; reflexivity.
Defined.

(** X16.  In exact arithmetic, for a non-zero viewport, selecting the
    whole preview [{0, 0, viewWidth, viewHeight}] is mapped to the
    rectangle [0, 0, W, H] of the page's size.  That rectangle is the
    page's media box, so that nothing is cropped away, exactly when the
    media box starts at the origin: the mapping reads only the size of the
    media box, and on a page whose media box starts elsewhere the whole
    preview selects a shifted rectangle. *)
Theorem pdfRect_of_whole_preview (viewWidth viewHeight : Q) (page : PDFPage Q) :
  (~ viewWidth == 0)%Q -> (~ viewHeight == 0)%Q ->
  let r := pdfRect (CropBox.mk 0 0 viewWidth viewHeight)%Q viewWidth viewHeight page in
  sameBox r (PdfBox.mk 0 0 (PdfBox.width (mediaBox page)) (PdfBox.height (mediaBox page)))%Q /\
  (sameBox r (mediaBox page) <-> atOrigin page).
Proof.
  intros Hvw Hvh r.
  assert (Hr : sameBox r (PdfBox.mk 0 0 (PdfBox.width (mediaBox page))
                            (PdfBox.height (mediaBox page)))%Q).
  { subst r. unfold sameBox, pdfRect, getSize. q_ops. repeat split; field; assumption. }
  split; [exact Hr|].
  destruct Hr as (Hx & Hy & Hw & Hh). simpl in Hx, Hy, Hw, Hh.
  unfold sameBox, atOrigin. split.
  - intros (Hx' & Hy' & _). rewrite <- Hx', <- Hy'. split; assumption.
  - intros [Hox Hoy]. rewrite Hox, Hoy. repeat split; assumption.
Qed.

Lemma pdfRect_of_whole_preview_witness :
  sameBox (pdfRect (num := Q) (CropBox.mk 0 0 893 1263)%Q 893 1263 Instances.a4)
    (PdfBox.mk 0 0 595 842)%Q /\
  ~ sameBox (pdfRect (num := Q) (CropBox.mk 0 0 893 1263)%Q 893 1263
               (mkPage (PdfBox.mk 10 20 595 842)%Q None))
      (PdfBox.mk 10 20 595 842)%Q.
Proof.
  assert (Hvw : ~ 893 == 0) by discriminate.
  assert (Hvh : ~ 1263 == 0) by discriminate.
  split.
  - exact (proj1 (pdfRect_of_whole_preview 893 1263 Instances.a4 Hvw Hvh)).
  - intros Hsame.
    apply (proj2 (pdfRect_of_whole_preview 893 1263
                    (mkPage (PdfBox.mk 10 20 595 842)%Q None) Hvw Hvh)) in Hsame.
    destruct Hsame as [Hox _]. vm_compute in Hox. discriminate Hox.
Defined.

(** X17.  In exact arithmetic, [splitEcomLabel] succeeds on every
    document with a first page, whatever the rational anchor.  On a
    document of [n >= 1] pages it returns [n + 1] pages: the first two are
    copies of page 1 whose bands tile the rectangle [0, W] x [0, H] of the
    first page's size (the label band ends at [H], the invoice band starts
    at 0 and ends where the label band starts, both from [x = 0] at width
    [W]), followed by pages 2 to [n] unchanged and in order.  For a first
    page whose media box starts at the origin the two bands tile that
    page. *)
Theorem splitEcomLabel_tiles_first_page (file : PDFDocument Q) (anchorYPercent : Q)
    (page : PDFPage Q) (rest : list (PDFPage Q)) :
  pages file = page :: rest ->
  exists labelBox invoiceBox,
    splitEcomLabel file anchorYPercent =
      Some (mkDoc (mkPage labelBox (Some labelBox)
                    :: mkPage invoiceBox (Some invoiceBox) :: rest)) /\
    (PdfBox.top labelBox == PdfBox.height (mediaBox page) /\
     PdfBox.top invoiceBox == PdfBox.bottom labelBox /\
     PdfBox.bottom invoiceBox == 0 /\
     PdfBox.x labelBox == 0 /\ PdfBox.x invoiceBox == 0 /\
     PdfBox.width labelBox == PdfBox.width (mediaBox page) /\
     PdfBox.width invoiceBox == PdfBox.width (mediaBox page))%Q /\
    (atOrigin page ->
     (PdfBox.x labelBox == PdfBox.x (mediaBox page) /\
      PdfBox.bottom invoiceBox == PdfBox.y (mediaBox page) /\
      PdfBox.top labelBox == PdfBox.y (mediaBox page) + PdfBox.height (mediaBox page))%Q).
Proof.
  intros Hpages. destruct file as [pgs]. simpl in Hpages. subst pgs.
  eexists _, _. split; [exact (splitEcomLabel_nonempty (num := Q) page rest anchorYPercent)|].
  unfold PdfBox.top, PdfBox.bottom, atOrigin. q_ops.
  split; [repeat split; try reflexivity; ring|].
  intros [Hox Hoy]. rewrite Hox, Hoy. repeat split; try reflexivity; ring.
Qed.

Lemma splitEcomLabel_tiles_first_page_witness :
  exists labelBox invoiceBox,
    splitEcomLabel (num := Q) Instances.mixedDoc 40%Q =
      Some (mkDoc [mkPage labelBox (Some labelBox); mkPage invoiceBox (Some invoiceBox);
                   Instances.blankPage 612 792; Instances.blankPage 420 595]) /\
    (PdfBox.top invoiceBox == PdfBox.bottom labelBox)%Q.
Proof.
  destruct (splitEcomLabel_tiles_first_page Instances.mixedDoc 40%Q Instances.a4
              [Instances.blankPage 612 792; Instances.blankPage 420 595] eq_refl)
    as (labelBox & invoiceBox & Hrun & (_ & Htile & _) & _).
  exists labelBox, invoiceBox. split; [exact Hrun | exact Htile].
Defined.

(** X18.  In exact arithmetic, with a non-zero [viewWidth]:
    [splitEcomLabelFixed] never reads the widths of its configuration, so
    that two configurations with the same label height, invoice height and
    [viewWidth] give the same document; on a document with a first page of
    height [H] the invoice band never starts below 0, the label band ends
    at [H], and with non-negative band heights the two bands overlap
    exactly when [H] is smaller than their sum. *)
Theorem splitEcomLabelFixed_bands (file : PDFDocument Q) (config config' : SplitConfig Q)
    (page : PDFPage Q) (rest : list (PDFPage Q)) :
  (~ viewWidth config == 0)%Q ->
  dim_height (label config) = dim_height (label config') ->
  dim_height (invoice config) = dim_height (invoice config') ->
  viewWidth config = viewWidth config' ->
  pages file = page :: rest ->
  splitEcomLabelFixed file config = splitEcomLabelFixed file config' /\
  exists labelBox invoiceBox,
    splitEcomLabelFixed file config =
      Some (mkDoc (mkPage labelBox (Some labelBox)
                    :: mkPage invoiceBox (Some invoiceBox) :: rest)) /\
    (0 <= PdfBox.bottom invoiceBox /\
     PdfBox.top labelBox == PdfBox.height (mediaBox page) /\
     (0 <= PdfBox.height labelBox -> 0 <= PdfBox.height invoiceBox ->
      (PdfBox.bottom labelBox < PdfBox.top invoiceBox <->
       PdfBox.height (mediaBox page) < PdfBox.height labelBox + PdfBox.height invoiceBox)))%Q.
Proof.
  intros _ Hl Hi Hv Hpages. destruct file as [pgs]. simpl in Hpages. subst pgs.
  split.
  - rewrite !(splitEcomLabelFixed_nonempty (num := Q)). cbv zeta.
    rewrite Hl, Hi, Hv. reflexivity.
  - eexists _, _.
    split; [exact (splitEcomLabelFixed_nonempty (num := Q) page rest config)|].
    unfold PdfBox.top, PdfBox.bottom. q_ops.
    set (labelH := dim_height (label config)
                   * (PdfBox.width (mediaBox page) / viewWidth config)).
    set (invoiceH := dim_height (invoice config)
                     * (PdfBox.width (mediaBox page) / viewWidth config)).
    clearbody labelH invoiceH.
    split; [|split; [ring|]].
    + q_minmax. all: lra.
    + intros HlH HiH. split; intros Hlt; q_minmax. all: lra.
Qed.

Lemma splitEcomLabelFixed_bands_witness :
  splitEcomLabelFixed (num := Q) Instances.meeshoDoc App.meeshoConfig
  = splitEcomLabelFixed Instances.meeshoDoc
      (mkConfig (mkDim 1 490) (mkDim 2 360) 800)%Q.
Proof.
  assert (Hview : ~ (viewWidth (App.meeshoConfig (num := Q)) == 0)%Q) by discriminate.
  exact (proj1 (splitEcomLabelFixed_bands Instances.meeshoDoc App.meeshoConfig
                  (mkConfig (mkDim 1 490) (mkDim 2 360) 800)%Q
                  (Instances.blankPage 790 842) [Instances.a4; Instances.blankPage 612 792]
                  Hview eq_refl eq_refl eq_refl eq_refl)).
Defined.

End ExactMapping.

(* ===================================================================== *)
(** * More on the orchestrator *)
(* ===================================================================== *)

(** X19.  The zoom factor never leaves [0.2, 3]: after any sequence of
    zoom-out, zoom-in, reset-zoom and reset-all clicks on the freshly
    started application it is between 0.2 and 3, hence positive; and a
    zoom step changes no other cell. *)
Theorem zoom_stays_in_range (actions : list Orchestrator.ZoomAction) :
  let st := foldl (fun s a => Orchestrator.zoomStep a s) (Orchestrator.initial (num := Q))
              actions in
  (0.2 <= App.zoom st <= 3)%Q /\ (0 < App.zoom st)%Q /\
  st = Orchestrator.withZoom (App.zoom st) Orchestrator.initial.
Proof.
  simpl.
  assert (Hgen : forall s : App.State Q,
            (0.2 <= App.zoom s <= 3)%Q ->
            (0.2 <= App.zoom (foldl (fun s a => Orchestrator.zoomStep a s) s actions) <= 3)%Q /\
            foldl (fun s a => Orchestrator.zoomStep a s) s actions
            = Orchestrator.withZoom
                (App.zoom (foldl (fun s a => Orchestrator.zoomStep a s) s actions)) s).
  { induction actions as [|a rest IH]; intros s Hs; simpl.
    - split; [exact Hs | by destruct s].
    - destruct (IH (Orchestrator.zoomStep a s)) as [Hrange Hframe].
      + assert (H02 : (2 / 10 == 0.2)%Q) by reflexivity.
        assert (H01 : (1 / 10 == 0.1)%Q) by reflexivity.
        destruct a; unfold Orchestrator.zoomStep, Orchestrator.adjustZoom,
          Orchestrator.decimal; simpl App.zoom; q_ops;
          try (split; unfold Qle; simpl; lia).
        * q_minmax. all: lra.
        * q_minmax. all: lra.
      + split; [exact Hrange|]. rewrite Hframe at 1.
        destruct a; reflexivity. }
  destruct (Hgen Orchestrator.initial) as [Hrange Hframe].
  { split; unfold Qle; simpl; lia. }
  split; [exact Hrange|]. split; [lra | exact Hframe].
Qed.

(** X20.  The page buttons keep the page index on an existing page: when
    the index points at a page, so does the index after "previous" and
    after "next", it moves by at most one, "previous" on the first page
    and "next" on the last page stay, and neither button touches another
    cell.  On an empty page list the next button computes the index -1. *)
Theorem page_buttons_stay_in_range {num : Type} `{JsNumber num} (st : App.State num) :
  ((App.currentPageIdx st < length (App.pages st))%nat ->
   (App.currentPageIdx (Orchestrator.goPrev st) < length (App.pages st))%nat /\
   (App.currentPageIdx (Orchestrator.goNext st) < length (App.pages st))%nat /\
   App.currentPageIdx (Orchestrator.goPrev st) = (App.currentPageIdx st - 1)%nat /\
   App.currentPageIdx (Orchestrator.goNext st)
   = (if decide (S (App.currentPageIdx st) = length (App.pages st))
      then App.currentPageIdx st else S (App.currentPageIdx st)) /\
   Orchestrator.goPrev st
   = Orchestrator.withCurrentPageIdx (App.currentPageIdx (Orchestrator.goPrev st)) st /\
   Orchestrator.goNext st
   = Orchestrator.withCurrentPageIdx (App.currentPageIdx (Orchestrator.goNext st)) st) /\
  (forall currentPageIdx : Z,
     (0 <= currentPageIdx)%Z -> Orchestrator.nextPageIdx 0 currentPageIdx = (-1)%Z).
Proof.
  split.
  - intros Hlt. unfold Orchestrator.goPrev, Orchestrator.goNext,
      Orchestrator.prevPageIdx, Orchestrator.nextPageIdx. simpl.
    repeat split; try lia.
    destruct (decide (S (App.currentPageIdx st) = length (App.pages st))); lia.
  - intros idx Hidx. unfold Orchestrator.nextPageIdx. lia.
Qed.

Lemma page_buttons_stay_in_range_witness :
  App.currentPageIdx (Orchestrator.goNext (Orchestrator.goNext (Orchestrator.goNext
    (Instances.loaded (num := Q) App.none)))) = 2%nat /\
  App.currentPageIdx (Orchestrator.goPrev (Instances.loaded (num := Q) App.none)) = 0%nat.
Proof.
  destruct (proj1 (page_buttons_stay_in_range
                     (Orchestrator.goNext (Orchestrator.goNext
                        (Instances.loaded (num := Q) App.none)))))
    as (_ & _ & _ & Hnext & _).
  { apply Nat.ltb_lt. reflexivity. }
  destruct (proj1 (page_buttons_stay_in_range (Instances.loaded (num := Q) App.none)))
    as (_ & _ & Hprev & _).
  { apply Nat.ltb_lt. reflexivity. }
  split; [exact Hnext | exact Hprev].
Defined.

Section OrchestratorFacts.
Context {num : Type} `{JsNumber num}.
Variables (ai : Gemini.Collaborator num)
          (renderPDFPages : App.File num -> Settled (list (PDFPageData.t num))).

(** The two ways a portal split that has rendered pages ends. *)
Lemma handlePortalAutoSplit_cases (r : App.State num) (targetFile : App.File num)
    (firstPage : PDFPageData.t num) (others : list (PDFPageData.t num))
    (st : App.State num) :
  let failed :=
    (App.normal tt, App.withIsAnalyzing false st,
     portalSplitFailure (anchorLog ai (App.activePortal r) firstPage)) in
  let outcome :=
    App.handlePortalAutoSplit ai renderPDFPages r targetFile (firstPage :: others) st [] in
  outcome = failed \/
  exists pdfBytes newRenderedPages,
    let newFile :=
      App.mkFile ("processed_" ++ App.portalName (App.activePortal r) ++ "_"
                  ++ App.name targetFile) pdfBytes in
    renderPDFPages newFile = fulfilled newRenderedPages /\
    match App.activePortal r with
    | App.meesho =>
        splitEcomLabelFixed (App.content targetFile) App.meeshoConfig = Some pdfBytes
    | _ =>
        exists anchor,
          Gemini.findTaxInvoiceAnchor ai (PDFPageData.canvasUrl firstPage)
          = (fulfilled (Some anchor), []) /\
          truthy anchor = true /\
          splitEcomLabel (App.content targetFile) anchor = Some pdfBytes
    end /\
    outcome =
      (App.normal tt,
       App.mkState (Some newFile) newRenderedPages 0 None (App.isProcessing st) false
         (App.cropScope st) (App.zoom st) (App.activePortal st) (App.isPortalMenuOpen st)
         (App.isAutoPilot st),
       []).
Proof.
  intros failed outcome. subst failed outcome.
  unfold App.handlePortalAutoSplit, App.bind, App.try_catch_finally, App.setIsAnalyzing,
    App.setPages, App.setFile, App.setCropBox, App.setCurrentPageIdx, App.update,
    App.awaitLogged, App.await, App.attempt, App.emit, App.throw, App.ret,
    portalSplitFailure, anchorLog.
  destruct (App.activePortal r) eqn:Hportal.
  1: { destruct (splitEcomLabelFixed (App.content targetFile) App.meeshoConfig)
         as [pdfBytes|] eqn:Hsplit; [|left; reflexivity].
       destruct (renderPDFPages _) as [pgs|reason] eqn:Hrender; [|left; reflexivity].
       right. exists pdfBytes, pgs. split; [exact Hrender|].
       split; reflexivity. }
  all: pose proof (findTaxInvoiceAnchor_log ai (PDFPageData.canvasUrl firstPage)) as Hlog;
       destruct (Gemini.findTaxInvoiceAnchor ai (PDFPageData.canvasUrl firstPage))
         as [[[anchor|]|reason] logged] eqn:Hanchor; simpl in Hlog |- *;
       try (left; by rewrite <- app_assoc);
       destruct (truthy anchor) eqn:Htruthy; simpl; try (left; by rewrite <- app_assoc);
       destruct (splitEcomLabel (App.content targetFile) anchor)
         as [pdfBytes|] eqn:Hsplit; simpl; try (left; by rewrite <- app_assoc);
       (destruct Hlog as [-> | Hlog]; [|discriminate Hlog]);
       destruct (renderPDFPages _) as [pgs|reason] eqn:Hrender; try (left; reflexivity);
       right; exists pdfBytes, pgs; (split; [exact Hrender|]);
       (split; [exists anchor; split; [reflexivity | split; [exact Htruthy | exact Hsplit]]
               | reflexivity]).
Qed.

End OrchestratorFacts.

(** X21.  A portal split is all or nothing, and it never throws.  With no
    rendered pages nothing happens at all.  Started with rendered pages
    it ends in one of two ways: either every cell but the analyzing flag
    keeps its value, and the log holds what the anchor detection wrote to
    the console (nothing, or its "Failed to detect invoice anchor"; the
    Meesho split does not call it), then "Portal split error:" and the
    alert "Auto processing failed. Please adjust manually."; or the split
    document, named [processed_<portal>_<name>], has been rendered and
    file, pages, crop box (null) and page index (0) are replaced together,
    with nothing logged.  The analyzing flag ends cleared in both. *)
Theorem portal_split_all_or_nothing {num : Type} `{JsNumber num}
    (ai : Gemini.Collaborator num)
    (renderPDFPages : App.File num -> Settled (list (PDFPageData.t num)))
    (r : App.State num) (targetFile : App.File num)
    (renderedPages : list (PDFPageData.t num)) (st : App.State num) :
  let outcome := App.handlePortalAutoSplit ai renderPDFPages r targetFile renderedPages st [] in
  (renderedPages = [] /\ outcome = (App.normal tt, st, [])) \/
  (exists firstPage others detectionLog,
     renderedPages = firstPage :: others /\
     detectionLog = anchorLog ai (App.activePortal r) firstPage /\
     (detectionLog = [] \/ detectionLog = ["Failed to detect invoice anchor"%string]) /\
     outcome = (App.normal tt, App.withIsAnalyzing false st,
                (App.console_error <$> detectionLog)
                ++ [App.console_error "Portal split error:";
                    App.alert "Auto processing failed. Please adjust manually."])) \/
  (renderedPages <> [] /\
   exists pdfBytes newRenderedPages,
     renderPDFPages
       (App.mkFile ("processed_" ++ App.portalName (App.activePortal r) ++ "_"
                    ++ App.name targetFile) pdfBytes)
     = fulfilled newRenderedPages /\
     outcome =
       (App.normal tt,
        App.mkState
          (Some (App.mkFile ("processed_" ++ App.portalName (App.activePortal r) ++ "_"
                             ++ App.name targetFile) pdfBytes))
          newRenderedPages 0 None (App.isProcessing st) false
          (App.cropScope st) (App.zoom st) (App.activePortal st) (App.isPortalMenuOpen st)
          (App.isAutoPilot st),
        [])).
Proof.
  intros outcome. subst outcome.
  destruct renderedPages as [|firstPage others]; [left; split; reflexivity|right].
  destruct (handlePortalAutoSplit_cases ai renderPDFPages r targetFile firstPage others st)
    as [Hfail | (pdfBytes & pgs & Hrender & _ & Hok)].
  - left. exists firstPage, others, (anchorLog ai (App.activePortal r) firstPage).
    split; [reflexivity|]. split; [reflexivity|]. split; [|exact Hfail].
    unfold anchorLog. destruct (App.activePortal r); [by left|..];
      (destruct (findTaxInvoiceAnchor_log ai (PDFPageData.canvasUrl firstPage))
         as [Hlog | Hlog]; [left; exact Hlog | right; by rewrite Hlog]).
  - right. split; [discriminate|]. exists pdfBytes, pgs. split; [exact Hrender | exact Hok].
Qed.

(** X22.  [handleDownload] offers a file exactly when cropping succeeds,
    and never changes the loaded document.  Without a file, a crop box or
    a preview of the current page it does nothing.  Otherwise it ends with
    every cell but the processing flag (cleared) unchanged; if [cropPDF]
    returns a document, that document is offered under the name
    [cropped_<name>] and nothing is logged; if it throws, nothing is
    offered and the alert "Failed to crop PDF." is shown.  With scope
    [all], [cropPDF] returns a document when no page's mapped rectangle
    holds a NaN, and throws when one does. *)
Theorem handleDownload_outcome {num : Type} `{JsNumber num} (st : App.State num) :
  ((App.file st = None \/ App.cropBox st = None \/
    App.pages st !! App.currentPageIdx st = None) ->
   Orchestrator.runReturning Orchestrator.handleDownload st = (App.normal None, st, [])) /\
  (forall file cropBox page,
     App.file st = Some file -> App.cropBox st = Some cropBox ->
     App.pages st !! App.currentPageIdx st = Some page ->
     let cropped :=
       cropPDF (App.content file) cropBox (App.cropScope st) (App.currentPageIdx st)
         (PDFPageData.width page) (PDFPageData.height page) in
     (forall pdfBytes, cropped = Some pdfBytes ->
        Orchestrator.runReturning Orchestrator.handleDownload st
        = (App.normal (Some (App.mkFile ("cropped_" ++ App.name file) pdfBytes)),
           Orchestrator.withIsProcessing false st, [])) /\
     (cropped = None ->
        Orchestrator.runReturning Orchestrator.handleDownload st
        = (App.normal None, Orchestrator.withIsProcessing false st,
           [App.console_error "Cropping error:"; App.alert "Failed to crop PDF."])) /\
     (App.cropScope st = all ->
      (forall pdfPage, pdfPage ∈ pages (App.content file) ->
         numeric (pdfRect cropBox (PDFPageData.width page) (PDFPageData.height page)
                    pdfPage)) ->
      exists pdfBytes, cropped = Some pdfBytes) /\
     (App.cropScope st = all ->
      (exists pdfPage, pdfPage ∈ pages (App.content file) /\
         PdfBox.hasNaN (pdfRect cropBox (PDFPageData.width page) (PDFPageData.height page)
                          pdfPage) = true) ->
      cropped = None)).
Proof.
  unfold Orchestrator.runReturning, Orchestrator.handleDownload. split.
  - destruct (App.file st) as [file|]; [|reflexivity].
    destruct (App.cropBox st) as [cropBox|]; [|reflexivity].
    destruct (App.pages st !! App.currentPageIdx st) as [page|]; [|reflexivity].
    intros [Hn | [Hn | Hn]]; discriminate Hn.
  - intros file cropBox page -> -> ->.
    unfold App.bind, Orchestrator.try_catch_finally_returning, Orchestrator.setIsProcessing,
      App.update, App.attempt, App.emit, App.throw, App.ret.
    split; [|split; [|split]].
    + intros pdfBytes ->. reflexivity.
    + intros ->. reflexivity.
    + intros -> Hnum. eexists.
      apply (cropPDF_all cropBox (PDFPageData.width page) (PDFPageData.height page)).
      intros i pdfPage Hi. apply Hnum. by eapply list_elem_of_lookup_2.
    + intros -> (pdfPage & Hin & Hnan).
      apply list_elem_of_lookup_1 in Hin as [i Hi].
      by apply (cropPDF_NaN cropBox (PDFPageData.width page) (PDFPageData.height page)
                  (App.content file) all (App.currentPageIdx st) i pdfPage Hi (or_introl eq_refl)).
Qed.

Lemma handleDownload_outcome_witness :
  exists pdfBytes,
    Orchestrator.runReturning Orchestrator.handleDownload (Instances.loaded (num := Q) App.none)
    = (App.normal (Some (App.mkFile "cropped_label.pdf" pdfBytes)),
       Instances.loaded App.none, []) /\
    length (pages pdfBytes) = 3%nat.
Proof.
  destruct (proj2 (handleDownload_outcome (Instances.loaded (num := Q) App.none))
              _ _ _ eq_refl eq_refl eq_refl) as (Hok & _ & Hall & _).
  destruct (Hall eq_refl) as (pdfBytes & Hcrop); [intros pdfPage _; reflexivity|].
  exists pdfBytes. split; [exact (Hok pdfBytes Hcrop)|].
  vm_compute in Hcrop. injection Hcrop as <-. reflexivity.
Defined.

(** X23.  [handleFileChange] ignores everything but a PDF: with no file or
    a file of another MIME type no cell changes and nothing is shown.  For
    a PDF whose rendering fails, every cell but the processing flag keeps
    its value and the alert "Failed to load PDF. Please try another file."
    is shown.  For a PDF that renders, with Auto Pilot off or no portal
    active, the file and its previews are stored, the page index is 0, the
    crop box is null and the processing flag is cleared. *)
Theorem handleFileChange_outcome {num : Type} `{JsNumber num}
    (ai : Gemini.Collaborator num)
    (renderPDFPages : App.File num -> Settled (list (PDFPageData.t num)))
    (st : App.State num) (selected : option (Orchestrator.Upload num)) :
  let outcome :=
    App.run (fun r => Orchestrator.handleFileChange ai renderPDFPages r selected) st in
  ((forall u, selected = Some u -> Orchestrator.type u <> "application/pdf"%string) ->
   outcome = (st, [])) /\
  (forall u,
     selected = Some u -> Orchestrator.type u = "application/pdf"%string ->
     (forall reason,
        renderPDFPages (Orchestrator.selectedFile u) = rejected reason ->
        outcome = (Orchestrator.withIsProcessing false st,
                   [App.console_error "Error loading PDF:";
                    App.alert "Failed to load PDF. Please try another file."])) /\
     (forall renderedPages,
        renderPDFPages (Orchestrator.selectedFile u) = fulfilled renderedPages ->
        App.isAutoPilot st = false \/ App.activePortal st = App.none ->
        outcome =
          (App.mkState (Some (Orchestrator.selectedFile u)) renderedPages 0 None false
             (App.isAnalyzing st) (App.cropScope st) (App.zoom st) (App.activePortal st)
             (App.isPortalMenuOpen st) (App.isAutoPilot st),
           []))).
Proof.
  intros outcome. subst outcome. unfold App.run, Orchestrator.handleFileChange. split.
  - intros Hother. destruct selected as [u|]; [|reflexivity].
    destruct (String.eqb_spec (Orchestrator.type u) "application/pdf") as [Hpdf|_];
      [|reflexivity].
    by elim (Hother u eq_refl).
  - intros u -> Hpdf. rewrite Hpdf. simpl String.eqb. cbv iota.
    unfold App.bind, App.try_catch_finally, Orchestrator.setIsProcessing,
      App.setPages, App.setFile, App.setCropBox, App.setCurrentPageIdx, App.update,
      App.await, App.emit, App.throw, App.ret.
    split.
    + intros reason ->. reflexivity.
    + intros renderedPages -> Hmanual. simpl.
      destruct Hmanual as [-> | ->]; [reflexivity|].
      destruct (App.isAutoPilot st); reflexivity.
Qed.

Lemma handleFileChange_outcome_witness :
  App.run (fun r => Orchestrator.handleFileChange (num := Q) Instances.silentAi
                      Scenarios.brokenRenderer r (Some Scenarios.pngUpload))
    (Instances.loaded App.none)
  = (Instances.loaded App.none, []) /\
  App.run (fun r => Orchestrator.handleFileChange (num := Q) Instances.silentAi
                      Scenarios.brokenRenderer r (Some Scenarios.pdfUpload))
    (Instances.loaded App.none)
  = (Instances.loaded App.none,
     [App.console_error "Error loading PDF:";
      App.alert "Failed to load PDF. Please try another file."]).
Proof.
  split.
  - apply (proj1 (handleFileChange_outcome (num := Q) Instances.silentAi
                    Scenarios.brokenRenderer (Instances.loaded App.none)
                    (Some Scenarios.pngUpload))).
    intros u [= <-]. discriminate.
  - exact (proj1 (proj2 (handleFileChange_outcome (num := Q) Instances.silentAi
                           Scenarios.brokenRenderer (Instances.loaded App.none)
                           (Some Scenarios.pdfUpload)) _ eq_refl eq_refl)
             "InvalidPDFException"%string eq_refl).
Defined.

(** X24.  [selectPortal] with Auto Pilot on splits with the portal that was
    active before the click, not with the one selected.  Coming from
    Meesho, selecting another portal runs the fixed Meesho split and names
    the result [processed_meesho_<name>], although the new portal is then
    active.  Coming from a portal other than Meesho, selecting Meesho runs
    the anchor detection, and when that yields null the document is left as
    it was and, after what the detection wrote to the console, the failure
    is logged and the failure alert is shown. *)
Theorem selectPortal_uses_previous_portal {num : Type} `{JsNumber num}
    (ai : Gemini.Collaborator num)
    (renderPDFPages : App.File num -> Settled (list (PDFPageData.t num)))
    (st : App.State num) (file : App.File num) (page : PDFPageData.t num)
    (others : list (PDFPageData.t num)) :
  App.file st = Some file ->
  App.isAutoPilot st = true ->
  App.pages st = page :: others ->
  (forall portal pdfBytes newRenderedPages,
     App.activePortal st = App.meesho -> portal <> App.none ->
     splitEcomLabelFixed (App.content file) App.meeshoConfig = Some pdfBytes ->
     renderPDFPages (App.mkFile ("processed_meesho_" ++ App.name file) pdfBytes)
     = fulfilled newRenderedPages ->
     App.run (fun r => Orchestrator.selectPortal ai renderPDFPages r portal) st
     = (App.mkState (Some (App.mkFile ("processed_meesho_" ++ App.name file) pdfBytes))
          newRenderedPages 0 None (App.isProcessing st) false (App.cropScope st)
          (App.zoom st) portal false true,
        [])) /\
  (App.activePortal st <> App.meesho ->
   fst (Gemini.findTaxInvoiceAnchor ai (PDFPageData.canvasUrl page)) = fulfilled None ->
   App.run (fun r => Orchestrator.selectPortal ai renderPDFPages r App.meesho) st
   = (App.mkState (Some file) (page :: others) (App.currentPageIdx st) (App.cropBox st)
        (App.isProcessing st) false (App.cropScope st) (App.zoom st) App.meesho false true,
      (App.console_error
         <$> snd (Gemini.findTaxInvoiceAnchor ai (PDFPageData.canvasUrl page)))
      ++ [App.console_error "Portal split error:";
          App.alert "Auto processing failed. Please adjust manually."])).
Proof.
  intros Hfile Hauto Hpages.
  unfold App.run, Orchestrator.selectPortal, App.handlePortalAutoSplit.
  rewrite Hfile, Hauto, Hpages.
  unfold App.bind, App.try_catch_finally, App.setIsAnalyzing, Orchestrator.setActivePortal,
    Orchestrator.setIsPortalMenuOpen, App.setPages, App.setFile, App.setCropBox,
    App.setCurrentPageIdx, App.update, App.awaitLogged, App.await, App.attempt, App.emit,
    App.throw, App.ret.
  split.
  - intros portal pdfBytes pgs Hmeesho Hportal Hsplit Hrender.
    rewrite Hmeesho, Hsplit. simpl. simpl in Hrender.
    destruct portal; [| | |by elim Hportal]; simpl; rewrite Hrender; simpl;
      rewrite ?Hauto; reflexivity.
  - intros Hnot Hnull.
    destruct (App.activePortal st); [by elim Hnot| | |]; rewrite Hnull;
      unfold App.withIsAnalyzing, Orchestrator.withIsPortalMenuOpen,
        Orchestrator.withActivePortal; simpl;
      rewrite ?Hfile, ?Hpages, ?Hauto, <- ?app_assoc; reflexivity.
Qed.

Lemma selectPortal_uses_previous_portal_witness :
  App.name <$> App.file
    (fst (App.run (fun r => Orchestrator.selectPortal (num := Q) Instances.silentAi
                              Instances.renderer r App.amazon)
            (Scenarios.autoPilot App.meesho)))
  = Some "processed_meesho_label.pdf"%string /\
  snd (App.run (fun r => Orchestrator.selectPortal (num := Q) Scenarios.garbledAi
                           Instances.renderer r App.meesho)
         (Scenarios.autoPilot App.none))
  = [App.console_error "Failed to detect invoice anchor";
     App.console_error "Portal split error:";
     App.alert "Auto processing failed. Please adjust manually."].
Proof.
  split.
  - destruct (splitEcomLabelFixed (num := Q) Instances.mixedDoc App.meeshoConfig)
      as [pdfBytes|] eqn:Hsplit; [|discriminate].
    rewrite (proj1 (selectPortal_uses_previous_portal (num := Q) Instances.silentAi
                      Instances.renderer (Scenarios.autoPilot App.meesho)
                      _ _ _ eq_refl eq_refl eq_refl)
               App.amazon pdfBytes _ eq_refl ltac:(discriminate) Hsplit eq_refl).
    reflexivity.
  - rewrite (proj2 (selectPortal_uses_previous_portal (num := Q) Scenarios.garbledAi
                      Instances.renderer (Scenarios.autoPilot App.none)
                      _ _ _ eq_refl eq_refl eq_refl)
               ltac:(discriminate) eq_refl).
    reflexivity.
Defined.

(** X25.  Smart crop with no portal active never alerts, and writes the
    crop box only from a parsed answer.  When the model call is rejected,
    "Smart crop error:" goes to the console and the crop box is kept.  When
    the model call is fulfilled no alert is shown and one of three things
    happens: the text, trimmed, is non-empty and parses to bounds, the crop
    box becomes those percentages of the preview's size and nothing is
    logged; or the text, trimmed, is non-empty and parsing it throws, the
    crop box is kept and the detection's "Failed to parse Gemini response"
    goes to the console; or the crop box is kept and nothing is logged.  All
    other cells keep their values, the analyzing flag ends cleared. *)
Theorem smart_crop_outcome {num : Type} `{JsNumber num}
    (ai : Gemini.Collaborator num)
    (renderPDFPages : App.File num -> Settled (list (PDFPageData.t num)))
    (st : App.State num) (f : App.File num) (page : PDFPageData.t num) :
  App.file st = Some f ->
  App.activePortal st = App.none ->
  App.pages st !! App.currentPageIdx st = Some page ->
  let outcome := App.run (App.handleSmartCrop ai renderPDFPages) st in
  let withBox b :=
    App.mkState (App.file st) (App.pages st) (App.currentPageIdx st) b
      (App.isProcessing st) false (App.cropScope st) (App.zoom st) (App.activePortal st)
      (App.isPortalMenuOpen st) (App.isAutoPilot st) in
  (forall reason,
     Gemini.generateContent ai Gemini.ContentBounds (PDFPageData.canvasUrl page)
     = rejected reason ->
     outcome = (withBox (App.cropBox st), [App.console_error "Smart crop error:"])) /\
  (forall text,
     Gemini.generateContent ai Gemini.ContentBounds (PDFPageData.canvasUrl page)
     = fulfilled text ->
     existsb App.isAlert (snd outcome) = false /\
     (outcome = (withBox (App.cropBox st), []) \/
      (exists jsonStr,
         Gemini.trim ai <$> text = Some jsonStr /\ jsonStr <> ""%string /\
         Gemini.parseBounds ai jsonStr = None /\
         outcome = (withBox (App.cropBox st),
                    [App.console_error "Failed to parse Gemini response"])) \/
      exists jsonStr bounds,
        Gemini.trim ai <$> text = Some jsonStr /\ jsonStr <> ""%string /\
        Gemini.parseBounds ai jsonStr = Some (Some bounds) /\
        outcome
        = (withBox
             (Some (CropBox.mk
                      (Gemini.x bounds / lit 100 * PDFPageData.width page)%js
                      (Gemini.y bounds / lit 100 * PDFPageData.height page)%js
                      (Gemini.width bounds / lit 100 * PDFPageData.width page)%js
                      (Gemini.height bounds / lit 100 * PDFPageData.height page)%js)),
           []))).
Proof.
  intros Hfile Hportal Hpage outcome withBox. subst outcome withBox.
  unfold App.run, App.handleSmartCrop. rewrite Hfile, Hportal, Hpage.
  unfold Gemini.detectContentBounds, Gemini.jsonStrOf.
  unfold App.bind, App.try_catch_finally, App.setIsAnalyzing, App.setCropBox, App.update,
    App.awaitLogged, App.await, App.emit, App.throw, App.ret, App.withIsAnalyzing.
  split.
  - intros reason ->. simpl. by rewrite ?Hfile, ?Hportal.
  - intros text ->.
    destruct text as [raw|]; simpl;
      [|split; [reflexivity | left; by rewrite ?Hfile, ?Hportal]].
    destruct (Gemini.trim ai raw) as [|c rest] eqn:Htrim; simpl;
      [split; [reflexivity | left; by rewrite ?Hfile, ?Hportal]|].
    destruct (Gemini.parseBounds ai (String c rest)) as [[bounds|]|] eqn:Hparse; simpl.
    + split; [reflexivity|]. right. right. exists (String c rest), bounds.
      split; [reflexivity|]. split; [discriminate|]. split; [exact Hparse|].
      by rewrite ?Hfile, ?Hportal.
    + split; [reflexivity | left; by rewrite ?Hfile, ?Hportal].
    + split; [reflexivity|]. right. left. exists (String c rest).
      split; [reflexivity|]. split; [discriminate|]. split; [exact Hparse|].
      by rewrite ?Hfile, ?Hportal.
Qed.

Lemma smart_crop_outcome_witness :
  App.run (App.handleSmartCrop (num := Q) Scenarios.garbledAi Instances.renderer)
    (Instances.loaded App.none)
  = (Instances.loaded App.none, [App.console_error "Failed to parse Gemini response"]) /\
  snd (App.run (App.handleSmartCrop (num := Q) Scenarios.answeringAi Instances.renderer)
         (Instances.loaded App.none)) = [].
Proof.
  pose proof (smart_crop_outcome (num := Q) Scenarios.garbledAi Instances.renderer
                (Instances.loaded App.none) _ _ eq_refl eq_refl eq_refl) as [_ Hgarbled].
  pose proof (smart_crop_outcome (num := Q) Scenarios.answeringAi Instances.renderer
                (Instances.loaded App.none) _ _ eq_refl eq_refl eq_refl) as [_ Hanswer].
  split.
  - destruct (Hgarbled _ eq_refl)
      as [_ [Hkept | [(jsonStr & _ & _ & _ & Hrun) | (jsonStr & bounds & _ & _ & Hparse & _)]]].
    + discriminate Hkept.
    + exact Hrun.
    + discriminate Hparse.
  - destruct (Hanswer _ eq_refl)
      as [_ [Hkept | [(jsonStr & _ & _ & Hparse & _) | (jsonStr & bounds & _ & _ & _ & Hrun)]]].
    + by rewrite Hkept.
    + discriminate Hparse.
    + by rewrite Hrun.
Defined.

Section ExactSmartCrop.
Local Open Scope Q_scope.

Lemma percent_within (p size : Q) : 0 <= p <= 100 -> 0 <= size -> 0 <= p / 100 * size <= size.
Proof.
  intros Hp Hsize.
  assert (Hq : p / 100 == p * (1 # 100)) by (field; discriminate).
  rewrite Hq. nra.
Qed.

Lemma percent_sum (p q size : Q) : p / 100 * size + q / 100 * size == (p + q) / 100 * size.
Proof. field. Qed.

Lemma percent_through_viewport (p view size : Q) :
  ~ view == 0 -> p / 100 * view * (size / view) == p / 100 * size.
Proof. intros Hview. field. exact Hview. Qed.

End ExactSmartCrop.

(** X26.  A box set by smart crop is the detected percentages of the page:
    when the detected bounds are percentages inside [0,100] x [0,100] the
    new crop box lies inside the preview, and cropping with it (the
    viewport being the same preview, of positive size) gives on a PDF page
    of size W x H the rectangle of those percentages of W and H, measured
    from the top: the preview's pixel size cancels. *)
Theorem smart_crop_box_is_percent_of_page
    (ai : Gemini.Collaborator Q)
    (renderPDFPages : App.File Q -> Settled (list (PDFPageData.t Q)))
    (st : App.State Q) (f : App.File Q) (page : PDFPageData.t Q)
    (bounds : Gemini.Bounds Q) :
  App.file st = Some f ->
  App.activePortal st = App.none ->
  App.pages st !! App.currentPageIdx st = Some page ->
  fst (Gemini.detectContentBounds ai (PDFPageData.canvasUrl page)) = fulfilled (Some bounds) ->
  (0 <= Gemini.x bounds /\ 0 <= Gemini.y bounds /\
   0 <= Gemini.width bounds /\ 0 <= Gemini.height bounds /\
   Gemini.x bounds + Gemini.width bounds <= 100 /\
   Gemini.y bounds + Gemini.height bounds <= 100)%Q ->
  (0 < PDFPageData.width page /\ 0 < PDFPageData.height page)%Q ->
  exists newBox,
    App.cropBox (fst (App.run (App.handleSmartCrop ai renderPDFPages) st)) = Some newBox /\
    insidePage (PDFPageData.width page) (PDFPageData.height page) newBox /\
    forall pdfPage : PDFPage Q,
      let W := PdfBox.width (mediaBox pdfPage) in
      let H := PdfBox.height (mediaBox pdfPage) in
      let r := pdfRect newBox (PDFPageData.width page) (PDFPageData.height page) pdfPage in
      (PdfBox.x r == Gemini.x bounds / 100 * W /\
       PdfBox.width r == Gemini.width bounds / 100 * W /\
       PdfBox.height r == Gemini.height bounds / 100 * H /\
       PdfBox.top r == H - Gemini.y bounds / 100 * H)%Q.
Proof.
  intros Hfile Hportal Hpage Hdetect (Hx & Hy & Hw & Hh & Hxw & Hyh) [Hpw Hph].
  unfold App.run, App.handleSmartCrop. rewrite Hfile, Hportal, Hpage.
  unfold App.bind, App.try_catch_finally, App.setIsAnalyzing, App.setCropBox, App.update,
    App.awaitLogged, App.await, App.emit, App.throw, App.ret.
  rewrite Hdetect. simpl.
  eexists. split; [reflexivity|].
  destruct bounds as [bx by_ bw bh]. simpl in *.
  set (w := PDFPageData.width page) in *. set (h := PDFPageData.height page) in *.
  split.
  - unfold insidePage. q_ops.
    pose proof (percent_within bx w ltac:(lra) ltac:(lra)).
    pose proof (percent_within by_ h ltac:(lra) ltac:(lra)).
    pose proof (percent_within bw w ltac:(lra) ltac:(lra)).
    pose proof (percent_within bh h ltac:(lra) ltac:(lra)).
    pose proof (percent_within (bx + bw) w ltac:(lra) ltac:(lra)).
    pose proof (percent_within (by_ + bh) h ltac:(lra) ltac:(lra)).
    pose proof (percent_sum bx bw w). pose proof (percent_sum by_ bh h).
    repeat split; lra.
  - intros pdfPage. q_ops.
    set (W := PdfBox.width (mediaBox pdfPage)). set (H := PdfBox.height (mediaBox pdfPage)).
    pose proof (percent_through_viewport bx w W ltac:(lra)) as Hcx.
    pose proof (percent_through_viewport bw w W ltac:(lra)) as Hcw.
    pose proof (percent_through_viewport by_ h H ltac:(lra)) as Hcy.
    pose proof (percent_through_viewport bh h H ltac:(lra)) as Hch.
    repeat split; lra.
Qed.

Lemma smart_crop_box_is_percent_of_page_witness :
  exists newBox,
    App.cropBox
      (fst (App.run (App.handleSmartCrop (num := Q) Scenarios.answeringAi Instances.renderer)
              (Instances.loaded App.none))) = Some newBox /\
    insidePage 893 1263 newBox /\
    (PdfBox.x (pdfRect newBox 893 1263 Instances.a4) == 59.5)%Q.
Proof.
  destruct (smart_crop_box_is_percent_of_page Scenarios.answeringAi Instances.renderer
              (Instances.loaded App.none) _ _
              (Gemini.mkBounds (lit 10) (lit 20) (lit 50) (lit 60)) eq_refl eq_refl eq_refl eq_refl)
    as (newBox & Hbox & Hinside & Hrect).
  { repeat split; unfold Qle; simpl; lia. }
  { split; reflexivity. }
  exists newBox. split; [exact Hbox|]. split; [exact Hinside|].
  destruct (Hrect Instances.a4) as (Hx & _). rewrite Hx. reflexivity.
Defined.

(** X27.  A portal split through the detection service (any portal but
    Meesho) goes through only on a usable anchor.  Its failure leaves
    every cell but the analyzing flag as it was and logs what the
    detection wrote to the console, "Portal split error:" and the failure
    alert.  If the split does not end that way, the model call was
    fulfilled with a text that is non-empty after trimming and parses to an
    anchor that is truthy, and [splitEcomLabel] returned a document for
    that anchor.  A rejected model call ends in the failure, and so do a
    reply that does not parse and a detected anchor that is falsy, such as
    0. *)
Theorem anchor_split_needs_usable_anchor {num : Type} `{JsNumber num}
    (ai : Gemini.Collaborator num)
    (renderPDFPages : App.File num -> Settled (list (PDFPageData.t num)))
    (r : App.State num) (targetFile : App.File num)
    (firstPage : PDFPageData.t num) (others : list (PDFPageData.t num))
    (st : App.State num) :
  App.activePortal r <> App.meesho ->
  let outcome :=
    App.handlePortalAutoSplit ai renderPDFPages r targetFile (firstPage :: others) st [] in
  let detection := Gemini.findTaxInvoiceAnchor ai (PDFPageData.canvasUrl firstPage) in
  let failed :=
    (App.normal tt, App.withIsAnalyzing false st,
     (App.console_error <$> snd detection)
     ++ [App.console_error "Portal split error:";
         App.alert "Auto processing failed. Please adjust manually."]) in
  (outcome <> failed ->
   exists raw anchor pdfBytes,
     Gemini.generateContent ai Gemini.TaxInvoiceAnchor (PDFPageData.canvasUrl firstPage)
     = fulfilled (Some raw) /\
     Gemini.trim ai raw <> ""%string /\
     Gemini.parseAnchorY ai (Gemini.trim ai raw) = Some (Some anchor) /\
     truthy anchor = true /\
     splitEcomLabel (App.content targetFile) anchor = Some pdfBytes) /\
  (forall reason,
     Gemini.generateContent ai Gemini.TaxInvoiceAnchor (PDFPageData.canvasUrl firstPage)
     = rejected reason -> outcome = failed /\ snd detection = []) /\
  (forall raw,
     Gemini.generateContent ai Gemini.TaxInvoiceAnchor (PDFPageData.canvasUrl firstPage)
     = fulfilled (Some raw) ->
     Gemini.trim ai raw <> ""%string ->
     Gemini.parseAnchorY ai (Gemini.trim ai raw) = None ->
     outcome = failed /\ snd detection = ["Failed to detect invoice anchor"%string]) /\
  (forall anchor,
     fst detection = fulfilled (Some anchor) ->
     truthy anchor = false -> outcome = failed /\ snd detection = []).
Proof.
  intros Hportal outcome detection failed. subst outcome detection failed.
  unfold App.handlePortalAutoSplit, Gemini.findTaxInvoiceAnchor, Gemini.jsonStrOf,
    App.truthyAnchor.
  unfold App.bind, App.try_catch_finally, App.setIsAnalyzing, App.setPages, App.setFile,
    App.setCropBox, App.setCurrentPageIdx, App.update, App.awaitLogged, App.await,
    App.attempt, App.emit, App.throw, App.ret.
  destruct (App.activePortal r); [by elim Hportal| | |].
  all: split; [|split; [|split]].
  all: try (intros reason ->; split; reflexivity).
  all: try (intros raw -> Hne Hparse; simpl;
            destruct (Gemini.trim ai raw) as [|c rest]; [by elim Hne|];
            rewrite Hparse; split; reflexivity).
  all: try (destruct (Gemini.generateContent ai Gemini.TaxInvoiceAnchor
                        (PDFPageData.canvasUrl firstPage)) as [[raw|]|reason];
            simpl; try discriminate;
            destruct (Gemini.trim ai raw) as [|c rest]; simpl; try discriminate;
            destruct (Gemini.parseAnchorY ai (String c rest)) as [[anchor0|]|];
            simpl; try discriminate;
            intros anchor [= ->] ->; split; reflexivity).
  all: destruct (Gemini.generateContent ai Gemini.TaxInvoiceAnchor
                   (PDFPageData.canvasUrl firstPage)) as [[raw|]|reason];
       simpl; try (intros Hne; by elim Hne);
       destruct (Gemini.trim ai raw) as [|c rest] eqn:Htrim;
       simpl; try (intros Hne; by elim Hne);
       destruct (Gemini.parseAnchorY ai (String c rest)) as [[anchor|]|] eqn:Hparse;
       simpl; try (intros Hne; by elim Hne);
       destruct (truthy anchor) eqn:Htruthy;
       simpl; try (intros Hne; by elim Hne);
       destruct (splitEcomLabel (App.content targetFile) anchor) as [pdfBytes|] eqn:Hsplit;
       simpl; try (intros Hne; by elim Hne);
       intros _; exists raw, anchor, pdfBytes; rewrite Htrim;
       (split; [reflexivity|]); (split; [discriminate|]); (split; [exact Hparse|]);
       (split; [exact Htruthy | exact Hsplit]).
Qed.

Lemma anchor_split_needs_usable_anchor_witness :
  snd (App.handlePortalAutoSplit (num := Q) Scenarios.topAnchorAi Instances.renderer
         (Instances.loaded App.flipkart) (App.mkFile "label.pdf" Instances.mixedDoc)
         (App.pages (Instances.loaded App.flipkart)) (Instances.loaded App.flipkart) [])
  = [App.console_error "Portal split error:";
     App.alert "Auto processing failed. Please adjust manually."] /\
  exists (raw : string) (anchor : Q),
    Gemini.generateContent (num := Q) Scenarios.answeringAi Gemini.TaxInvoiceAnchor
      "data:image/png;base64,AA" = fulfilled (Some raw) /\
    truthy anchor = true.
Proof.
  split.
  - pose proof (anchor_split_needs_usable_anchor (num := Q) Scenarios.topAnchorAi
                  Instances.renderer (Instances.loaded App.flipkart)
                  (App.mkFile "label.pdf" Instances.mixedDoc)
                  (PDFPageData.mk 1 (lit 893) (lit 1263) "data:image/png;base64,AA")
                  [PDFPageData.mk 2 (lit 918) (lit 1188) "data:image/png;base64,AB";
                   PDFPageData.mk 3 (lit 630) (lit 893) "data:image/png;base64,AC"]
                  (Instances.loaded App.flipkart) ltac:(discriminate))
      as (_ & _ & _ & Hfalsy).
    exact (f_equal snd (proj1 (Hfalsy (lit 0) eq_refl eq_refl))).
  - destruct (anchor_split_needs_usable_anchor (num := Q) Scenarios.answeringAi
                Instances.renderer (Instances.loaded App.amazon)
                (App.mkFile "label.pdf" Instances.mixedDoc)
                (PDFPageData.mk 1 (lit 893) (lit 1263) "data:image/png;base64,AA")
                [] (Instances.loaded App.amazon) ltac:(discriminate))
      as (Hused & _ & _).
    destruct Hused as (raw & anchor & pdfBytes & Hcall & _ & _ & Htruthy & _).
    { vm_compute. discriminate. }
    exists raw, anchor. split; [exact Hcall | exact Htruthy].
Defined.

(** X28.  An upload with Auto Pilot on and a portal active is never lost
    and never reported as a failed upload.  For a PDF that renders to at
    least one preview, [handleFileChange] ends in one of two ways: the
    portal split failed, its log (what the anchor detection wrote to the
    console, "Portal split error:") and its alert are shown, and the
    uploaded file with its previews is loaded; or the split document, named
    [processed_<portal>_<name>], is loaded with the previews rendered from
    it and nothing is shown.  In both the page index is 0, the crop box is
    null and both busy flags are cleared. *)
Theorem upload_with_auto_pilot {num : Type} `{JsNumber num}
    (ai : Gemini.Collaborator num)
    (renderPDFPages : App.File num -> Settled (list (PDFPageData.t num)))
    (st : App.State num) (u : Orchestrator.Upload num)
    (firstPage : PDFPageData.t num) (others : list (PDFPageData.t num)) :
  Orchestrator.type u = "application/pdf"%string ->
  renderPDFPages (Orchestrator.selectedFile u) = fulfilled (firstPage :: others) ->
  App.isAutoPilot st = true ->
  App.activePortal st <> App.none ->
  let outcome :=
    App.run (fun r => Orchestrator.handleFileChange ai renderPDFPages r (Some u)) st in
  let loadedWith file pages :=
    App.mkState (Some file) pages 0 None false false (App.cropScope st) (App.zoom st)
      (App.activePortal st) (App.isPortalMenuOpen st) true in
  outcome = (loadedWith (Orchestrator.selectedFile u) (firstPage :: others),
             (App.console_error <$> anchorLog ai (App.activePortal st) firstPage)
             ++ [App.console_error "Portal split error:";
                 App.alert "Auto processing failed. Please adjust manually."]) \/
  exists pdfBytes newRenderedPages,
    let newFile :=
      App.mkFile ("processed_" ++ App.portalName (App.activePortal st) ++ "_"
                  ++ App.name (Orchestrator.selectedFile u)) pdfBytes in
    renderPDFPages newFile = fulfilled newRenderedPages /\
    outcome = (loadedWith newFile newRenderedPages, []).
Proof.
  intros Hpdf Hrender Hauto Hportal outcome loadedWith. subst outcome loadedWith.
  unfold App.run, Orchestrator.handleFileChange.
  rewrite Hpdf, String.eqb_refl, Hauto.
  remember (App.handlePortalAutoSplit ai renderPDFPages st (Orchestrator.selectedFile u))
    as portalSplit eqn:Hdef.
  unfold App.bind, App.try_catch_finally, App.await, App.setPages, App.setFile,
    App.setCropBox, App.setCurrentPageIdx, Orchestrator.setIsProcessing, App.update,
    App.emit, App.ret.
  rewrite Hrender.
  destruct (App.activePortal st) eqn:Hactive; [| | |by elim Hportal].
  all: cbn [fst snd App.file App.pages App.currentPageIdx App.cropBox App.isProcessing
            App.isAnalyzing App.cropScope App.zoom App.activePortal App.isPortalMenuOpen
            App.isAutoPilot Orchestrator.withIsProcessing]; subst portalSplit.
  all: match goal with
       | |- context [App.handlePortalAutoSplit _ _ _ _ _ ?s []] =>
           destruct (handlePortalAutoSplit_cases ai renderPDFPages st
                       (Orchestrator.selectedFile u) firstPage others s)
             as [Hfail | (pdfBytes & pgs & Hpgs & _ & Hok)]
       end.
  all: try (left; rewrite Hfail, Hactive;
            unfold App.withIsAnalyzing, Orchestrator.withIsProcessing, portalSplitFailure;
            simpl; by rewrite ?Hauto, ?Hactive).
  all: right; exists pdfBytes, pgs; rewrite Hactive in Hpgs;
       (split; [exact Hpgs|]); rewrite Hok;
       unfold Orchestrator.withIsProcessing; simpl; by rewrite ?Hauto, ?Hactive.
Qed.

Lemma upload_with_auto_pilot_witness :
  exists pdfBytes,
    App.run (fun r => Orchestrator.handleFileChange (num := Q) Instances.silentAi
                        Instances.renderer r (Some Scenarios.pdfUpload))
      (Scenarios.autoPilot App.meesho)
    = (App.mkState (Some (App.mkFile "processed_meesho_label.pdf" pdfBytes))
         [PDFPageData.mk 1 (lit 893) (lit 1263) "data:image/png;base64,AA"]
         0 None false false all (lit 1) App.meesho true true,
       []).
Proof.
  destruct (upload_with_auto_pilot (num := Q) Instances.silentAi Instances.renderer
              (Scenarios.autoPilot App.meesho) Scenarios.pdfUpload _ _
              eq_refl eq_refl eq_refl ltac:(discriminate))
    as [Hfail | (pdfBytes & pgs & Hpgs & Hok)].
  - vm_compute in Hfail. discriminate Hfail.
  - exists pdfBytes. rewrite Hok. injection Hpgs as <-. reflexivity.
Defined.

(** X29.  After [reset] no handler acts: the download and smart-crop
    handlers return at their guards, and selecting a portal only records
    the choice, starting no split even with Auto Pilot on.  [reset] keeps
    the crop scope and the Auto Pilot switch, and resetting twice is
    resetting once. *)
Theorem reset_disarms_handlers {num : Type} `{JsNumber num}
    (ai : Gemini.Collaborator num)
    (renderPDFPages : App.File num -> Settled (list (PDFPageData.t num)))
    (st : App.State num) (portal : App.PortalType) :
  let cleared := Orchestrator.reset st in
  Orchestrator.runReturning Orchestrator.handleDownload cleared
  = (App.normal None, cleared, []) /\
  App.run (App.handleSmartCrop ai renderPDFPages) cleared = (cleared, []) /\
  App.run (fun r => Orchestrator.selectPortal ai renderPDFPages r portal) cleared
  = (Orchestrator.withIsPortalMenuOpen false (Orchestrator.withActivePortal portal cleared),
     []) /\
  App.cropScope cleared = App.cropScope st /\
  App.isAutoPilot cleared = App.isAutoPilot st /\
  Orchestrator.reset cleared = cleared.
Proof.
  simpl. repeat split.
Qed.
